(** * Learning-journey notebooks: a verification development

    The repository is a set of Jupyter notebooks.  Four of them are under
    study here:

    - Echofish Chapter 1 (processing raw EK60 files with echopype),
    - Echofish Chapter 2 (frequency differencing of the level-2 Zarr store),
    - Echofish Chapter 3 (geospatial indexing, line simplification),
    - TC PRIMED Chapter 1a (NetCDF groups).

    The code cells are embedded as definitions in a small monad that threads
    the state of the Python runtime (installed packages, local files,
    credentials), records every call that leaves the notebook, and stops at
    the first uncaught exception.  The statements of a notebook are taken in
    the order of its cells: assignments of constants are definitions, calls
    into a library are steps of the monad, and the statements that only
    print, plot or display are steps too ([shows]), since they can raise.
    The third-party libraries the cells call are either parameters of the
    development (a [Host]) or, where a property depends on what they
    compute, small executable models of their documented behaviour. *)

From Stdlib Require Import ZArith List Bool Ascii String Lia.
From Stdlib Require Import Floats.SpecFloat.
From stdpp Require Import base list strings gmap.
From Equations Require Import Equations.

Local Open Scope Z_scope.

(** ** Python results *)

Inductive exn : Type :=
| ImportError
| CalledProcessError
| KeyError
| ValueError
| OtherError (what : string).

Inductive result (A : Type) : Type :=
| Ok (a : A)
| Raise (e : exn).
Arguments Ok {A} a.
Arguments Raise {A} e.

Global Instance exn_eq_dec : EqDecision exn.
Proof. solve_decision. Defined.

Definition result_bind {A B} (r : result A) (k : A → result B) : result B :=
  match r with
  | Ok a => k a
  | Raise e => Raise e
  end.

(** ** Floating-point data

    Array values are IEEE 754 binary floats, [spec_float] of the Standard
    Library, so that subtraction rounds, overflows and produces NaN as numpy
    does.  A [dtype] gives the precision and the exponent bound of a format
    (float32 is [24, 128], float64 is [53, 1024]). *)

Definition float : Type := spec_float.

Global Instance float_eq_dec : EqDecision float.
Proof. solve_decision. Defined.

Record dtype : Type := { prec : Z; emax : Z }.

Definition float32 : dtype := {| prec := 24; emax := 128 |}.
Definition float64 : dtype := {| prec := 53; emax := 1024 |}.

Definition NaN : float := S754_nan.

(** [isnull] is pandas' test for a missing floating value. *)
Definition isnull (x : float) : bool :=
  match x with
  | S754_nan => true
  | _ => false
  end.

Definition notnull (x : float) : bool := negb (isnull x).

(** A Python integer compared with a float array is first converted to the
    array's format. *)
Definition float_of_int (t : dtype) (n : Z) : float :=
  binary_normalize (prec t) (emax t) n 0 false.

Definition fsub (t : dtype) (x y : float) : float := SFsub (prec t) (emax t) x y.

(** ** A model of the xarray operations the notebooks use

    xarray itself is third-party and its source is not part of the
    repository; the definitions below follow its documented behaviour for
    the calls of Chapter 2, on arrays of rank two and three. *)

Module XArray.

(** Index labels are compared as bit patterns.  The time axis holds
    [datetime64[ns]] values, that is 64-bit integers counting nanoseconds
    since the epoch. *)

(** The cruise dataset: [Sv] has dimensions (depth, time, frequency). *)
Record Dataset : Type := {
  ds_dtype : dtype;
  ds_depth_dtype : dtype;
  ds_frequency : list Z;
  ds_depth : list float;
  ds_time : list Z;
  ds_Sv : list (list (list float));
  ds_latitude : list float;
  ds_longitude : list float;
}.

(** A two-dimensional labelled array, dimensions (depth, time): [values]
    has one row per depth label, one column per time label.  [frequency] is
    the scalar coordinate left by [sel]. *)
Record DataArray : Type := {
  da_dtype : dtype;
  frequency : option Z;
  depth : list float;
  time : list Z;
  values : list (list float);
}.

(** The shape invariant of every array xarray builds. *)
Definition well_shaped (a : DataArray) : Prop :=
  length (values a) = length (depth a) ∧
  Forall (λ row, length row = length (time a)) (values a).

Definition ds_well_shaped (ds : Dataset) : Prop :=
  length (ds_Sv ds) = length (ds_depth ds) ∧
  Forall (λ plane, length plane = length (ds_time ds)) (ds_Sv ds).

(** [get_loc x idx]: position of the first occurrence of label [x]. *)
Fixpoint get_loc `{EqDecision L} (x : L) (idx : list L) : nat :=
  match idx with
  | [] => O
  | y :: idx' => if decide (x = y) then O else S (get_loc x idx')
  end.

(** The value stored under a pair of labels. *)
Definition loc (a : DataArray) (d : float) (t : Z) : float :=
  nth (get_loc t (time a)) (nth (get_loc d (depth a)) (values a) []) NaN.

(** numpy boolean-mask indexing along one axis. *)
Fixpoint isel_mask {A} (mask : list bool) (xs : list A) : list A :=
  match mask, xs with
  | b :: mask', x :: xs' =>
      if b then x :: isel_mask mask' xs' else isel_mask mask' xs'
  | _, _ => []
  end.

(** [ds.sel(frequency=f)], seen through the data variable [Sv]: a label
    that is not in the index raises [KeyError]. *)
Definition sel (ds : Dataset) (f : Z) : result DataArray :=
  if bool_decide (f ∈ ds_frequency ds) then
    let k := get_loc f (ds_frequency ds) in
    Ok {| da_dtype := ds_dtype ds;
          frequency := Some f;
          depth := ds_depth ds;
          time := ds_time ds;
          values := map (map (λ cell, nth k cell NaN)) (ds_Sv ds) |}
  else Raise KeyError.

(** Alignment of two indexes with the default inner join: equal indexes
    are left alone; otherwise both sides are reindexed on the labels of
    the left index that the right index has too, which xarray refuses for
    an index with duplicate labels. *)
Definition align_index `{EqDecision L} (ia ib : list L) : result (list L) :=
  if decide (ia = ib) then Ok ia
  else if bool_decide (NoDup ia) && bool_decide (NoDup ib)
       then Ok (filter (λ x, x ∈ ib) ia)
       else Raise ValueError.

Definition reindex `{EqDecision L} {A} (joined idx : list L) (xs : list A) (fill : A) : list A :=
  if decide (idx = joined) then xs
  else map (λ x, nth (get_loc x idx) xs fill) joined.

Definition reindex_like (a : DataArray) (ds : list float) (ts : list Z) : list (list float) :=
  map (λ row, reindex ts (time a) row NaN) (reindex ds (depth a) (values a) []).

(** Boolean arrays, as the comparisons on a coordinate build them: along
    one dimension, and along (time, depth) after broadcasting. *)
Record Cond (L : Type) : Type := { c_index : list L; c_values : list bool }.
Arguments c_index {L} _.
Arguments c_values {L} _.

Record Cond2 : Type := {
  c2_time : list Z;
  c2_depth : list float;
  c2_values : list (list bool);
}.

(** [ct & cd] for two conditions over different dimensions. *)
Definition and_broadcast (ct : Cond Z) (cd : Cond float) : Cond2 :=
  {| c2_time := c_index ct;
     c2_depth := c_index cd;
     c2_values := map (λ bt, map (andb bt) (c_values cd)) (c_values ct) |}.

(** [where_method]: keep a value where the condition holds, NaN elsewhere. *)
Definition where_value (c : bool) (v : float) : float := if c then v else NaN.

(** [a.where(cond, drop=True)] for a condition along [time] only: array
    and condition are aligned, the labels where the condition is false are
    dropped ([isel] with the condition as indexer), then the remaining
    values are masked. *)
Definition where_drop_time (a : DataArray) (cond : Cond Z) : result DataArray :=
  result_bind (align_index (time a) (c_index cond)) (λ ts,
    let vals := reindex_like a (depth a) ts in
    let c := reindex ts (c_index cond) (c_values cond) false in
    let c' := isel_mask c c in
    Ok {| da_dtype := da_dtype a;
          frequency := frequency a;
          depth := depth a;
          time := isel_mask c ts;
          values := map (λ row, zip_with where_value c' (isel_mask c row)) vals |}).

(** The same for a condition along [depth] only. *)
Definition where_drop_depth (a : DataArray) (cond : Cond float) : result DataArray :=
  result_bind (align_index (depth a) (c_index cond)) (λ ds,
    let vals := reindex_like a ds (time a) in
    let c := reindex ds (c_index cond) (c_values cond) false in
    let c' := isel_mask c c in
    Ok {| da_dtype := da_dtype a;
          frequency := frequency a;
          depth := isel_mask c ds;
          time := time a;
          values := zip_with (λ b row, map (where_value b) row) c' (isel_mask c vals) |}).

(** [cond.any(dim=...)] over the other dimension, for each dimension. *)
Definition any_over_depth (cond : list (list bool)) : list bool :=
  map (existsb id) cond.

Definition any_over_time (ndepth : nat) (cond : list (list bool)) : list bool :=
  map (λ i, existsb (λ row, nth i row false) cond) (seq 0 ndepth).

(** [a.where(cond, drop=True)] for a condition of dimensions (time, depth):
    a label is kept along a dimension when the condition holds somewhere
    along the other one. *)
Definition where_drop_2d (a : DataArray) (cond : Cond2) : result DataArray :=
  result_bind (align_index (depth a) (c2_depth cond)) (λ ds,
  result_bind (align_index (time a) (c2_time cond)) (λ ts,
    let vals := reindex_like a ds ts in
    let c := map (λ row, reindex ds (c2_depth cond) row false)
                 (reindex ts (c2_time cond) (c2_values cond) []) in
    let it := any_over_depth c in
    let id_ := any_over_time (length ds) c in
    let c' := map (isel_mask id_) (isel_mask it c) in
    let vals' := map (isel_mask it) (isel_mask id_ vals) in
    Ok {| da_dtype := da_dtype a;
          frequency := frequency a;
          depth := isel_mask id_ ds;
          time := isel_mask it ts;
          values :=
            imap (λ i row,
                    imap (λ j v, where_value (nth i (nth j c' []) false) v) row)
                 vals' |})).

(** numpy's result type for two floating formats. *)
Definition result_type (s t : dtype) : dtype :=
  if prec s <? prec t then t else s.

(** [a - b]: align, then subtract element by element.  The scalar
    coordinate [frequency] is dropped when the operands disagree on it. *)
Definition sub (a b : DataArray) : result DataArray :=
  result_bind (align_index (depth a) (depth b)) (λ ds,
  result_bind (align_index (time a) (time b)) (λ ts,
    let t := result_type (da_dtype a) (da_dtype b) in
    Ok {| da_dtype := t;
          frequency := if decide (frequency a = frequency b) then frequency a else None;
          depth := ds;
          time := ts;
          values := zip_with (zip_with (fsub t)) (reindex_like a ds ts) (reindex_like b ds ts) |})).

(** [a.dropna(dim='depth')] with the default [how='any']: xarray counts the
    non-null values of each depth level and keeps the levels where the count
    is the size of the other dimension. *)
Definition count_notnull (row : list float) : nat :=
  length (List.filter notnull row).

Definition dropna_depth (a : DataArray) : DataArray :=
  let size := length (time a) in
  let mask := map (λ row, Nat.eqb (count_notnull row) size) (values a) in
  {| da_dtype := da_dtype a;
     frequency := frequency a;
     depth := isel_mask mask (depth a);
     time := time a;
     values := isel_mask mask (values a) |}.

End XArray.

(** ** A model of Shapely's [simplify]

    Modelled from the spec: the line simplification itself is done by GEOS
    behind Shapely, neither of which is in the repository; the spec names it
    RDP (Ramer-Douglas-Peucker) line simplification.  The recursion below is
    that algorithm on a list of points.  The point-to-segment distance is a
    parameter, and so is the test by which the topology-preserving variant
    refuses to flatten a section. *)

Module Shapely.

Definition point : Type := float * float.

(** -1.0, the initial value of the running maximum. *)
Definition minus_one : float := S754_finite true 4503599627370496 (-52).

Section RDP.
Variable distance : point → point → point → float.
Variable veto : list point → point → point → bool.
Variable line : list point.
Variable tolerance : float.
Variable preserve_topology : bool.

(** The interior point furthest from the segment [a b]: its position and
    its distance, scanning from position [i]. *)
Fixpoint furthest (a b : point) (interior : list point) (i : nat)
    (best : nat * float) : nat * float :=
  match interior with
  | [] => best
  | p :: rest =>
      let d := distance p a b in
      furthest a b rest (S i) (if SFltb (snd best) d then (i, d) else best)
  end.

Definition flatten (a b : point) (d : float) : bool :=
  negb (SFltb tolerance d) && negb (preserve_topology && veto line a b).

Equations? rdp (pts : list point) : list point by wf (length pts) lt :=
  rdp [] := [];
  rdp [a] := [a];
  rdp [a; b] := [a; b];
  rdp (a :: p :: q :: rest) :=
    let b := List.last rest q in
    let interior := removelast (p :: q :: rest) in
    let kd := furthest a b interior 0 (O, minus_one) in
    if flatten a b (snd kd) then [a; b]
    else rdp (a :: take (S (fst kd)) interior)
           ++ tail (rdp (drop (fst kd) interior ++ [b])).
Proof.
  all: assert (Hlen : ∀ (x : point) l, length (removelast (x :: l)) = length l)
    by (clear; intros x l; revert x; induction l as [|r l IH]; intros x;
        [reflexivity | change (S (length (removelast (r :: l))) = S (length l));
         f_equal; apply IH]).
  all: pose proof (Hlen p (q :: rest)) as Hi; cbn [length] in Hi.
  - change (S (length (take (S n) (removelast (p :: q :: rest))))
            < S (S (S (length rest))))%nat.
    rewrite length_take, Hi. lia.
  - change (length (drop n (removelast (p :: q :: rest)) ++ [List.last rest q])
            < S (S (S (length rest))))%nat.
    rewrite length_app, length_drop, Hi. cbn [length]. lia.
Qed.
End RDP.

(** 0.01 as a float64. *)
Definition tolerance_001 : float := S754_finite false 5764607523034235 (-59).

(** [line.simplify(tolerance, preserve_topology)]. *)
Definition simplify (distance : point → point → point → float)
    (veto : list point → point → point → bool)
    (line : list point) (tolerance : float) (preserve_topology : bool) : list point :=
  rdp distance veto line tolerance preserve_topology line.

End Shapely.

(** ** The Python runtime and the world outside the notebook *)

Definition bytes : Type := list Byte.byte.

(** What a notebook can read and write besides its own variables. *)
Record Runtime : Type := {
  site_packages : gset string;      (* what [sys.executable] can import *)
  files : gmap string bytes;        (* the local file system *)
  aws_credentials : option string;  (* credentials found in the environment *)
}.

Definition set_site_packages (p : gset string) (s : Runtime) : Runtime :=
  {| site_packages := p; files := files s; aws_credentials := aws_credentials s |}.

Definition set_files (f : gmap string bytes) (s : Runtime) : Runtime :=
  {| site_packages := site_packages s; files := f; aws_credentials := aws_credentials s |}.

Definition set_credentials (c : option string) (s : Runtime) : Runtime :=
  {| site_packages := site_packages s; files := files s; aws_credentials := c |}.

(** Every call that leaves the notebook is recorded, with the exception it
    raised if it raised one. *)
Inductive event : Type :=
| EvDunderImport (package : string) (raised : option exn)
| EvImport (module : string) (raised : option exn)
| EvSubprocess (argv : list string) (raised : option exn)
| EvShell (command : string) (path : string)
| EvDownload (signer : option string) (Bucket Key Filename : string) (raised : option exn)
| EvOpenZarr (signer : option string) (root : string) (raised : option exn)
| EvHttpGet (url : string) (raised : option exn)
| EvReadFile (path : string) (raised : option exn)
| EvWriteFile (path : string)
| EvListdir (path : string)
| EvCall (function : string) (raised : option exn).

Global Instance event_eq_dec : EqDecision event.
Proof. solve_decision. Defined.

Definition raised_by (ev : event) : option exn :=
  match ev with
  | EvDunderImport _ r | EvImport _ r | EvSubprocess _ r
  | EvDownload _ _ _ _ r | EvOpenZarr _ _ r | EvHttpGet _ r
  | EvReadFile _ r | EvCall _ r => r
  | EvShell _ _ | EvWriteFile _ | EvListdir _ => None
  end.

Definition raised {A} (r : result A) : option exn :=
  match r with
  | Ok _ => None
  | Raise e => Some e
  end.

(** The third-party libraries and the remote services, as far as the
    notebooks only pass their results along.  [obj] is the type of the
    Python objects these libraries hand out. *)
Record Host (obj : Type) : Type := {
  sys_executable : string;
  import_module : gset string → string → option exn;
  pip : gset string → list string → gset string * option exn;
  s3_get_object : option string → string → string → result bytes;
  s3_zarr_store : option string → string → result XArray.Dataset;
  http_get : string → result bytes;
  ep_open_raw : bytes → string → result obj;
  ep_combine_echodata : list obj → result obj;
  ep_to_zarr : obj → bytes;
  epviz_create_echogram : obj → result obj;
  ep_compute_Sv : obj → result obj;
  ep_swap_dims_channel_frequency : obj → result obj;
  nc_Dataset : string → bytes → result obj;
  nc_getitem : obj → string → result obj;
  nc_getncattr : obj → string → result string;
  nc_getall : obj → result obj;
  nc_take_rows : obj → list Z → result obj;
  nc_close : obj → result unit;
  geos_distance : Shapely.point → Shapely.point → Shapely.point → float;
  geos_veto : list Shapely.point → Shapely.point → Shapely.point → bool;
  render : string → result unit;
}.
Arguments sys_executable {obj} _.
Arguments import_module {obj} _ _ _.
Arguments pip {obj} _ _ _.
Arguments s3_get_object {obj} _ _ _ _.
Arguments s3_zarr_store {obj} _ _ _.
Arguments http_get {obj} _ _.
Arguments ep_open_raw {obj} _ _ _.
Arguments ep_combine_echodata {obj} _ _.
Arguments ep_to_zarr {obj} _ _.
Arguments epviz_create_echogram {obj} _ _.
Arguments ep_compute_Sv {obj} _ _.
Arguments ep_swap_dims_channel_frequency {obj} _ _.
Arguments nc_Dataset {obj} _ _ _.
Arguments nc_getitem {obj} _ _ _.
Arguments nc_getncattr {obj} _ _ _.
Arguments nc_getall {obj} _ _.
Arguments nc_take_rows {obj} _ _ _.
Arguments nc_close {obj} _ _.
Arguments geos_distance {obj} _ _ _ _.
Arguments geos_veto {obj} _ _ _ _.
Arguments render {obj} _ _.

(** A computation of a cell: it reads and updates the runtime, appends to
    the trace and either returns a value or raises. *)
Definition Py (A : Type) : Type := Runtime → list event * Runtime * result A.

Global Instance Py_ret : MRet Py := λ A a s, ([], s, Ok a).

Global Instance Py_bind : MBind Py := λ A B k m s,
  match m s with
  | (t1, s1, Ok a) =>
      match k a s1 with
      | (t2, s2, r) => (t1 ++ t2, s2, r)
      end
  | (t1, s1, Raise e) => (t1, s1, Raise e)
  end.

Definition trace {A} (run : list event * Runtime * result A) : list event := run.1.1.
Definition final {A} (run : list event * Runtime * result A) : Runtime := run.1.2.
Definition outcome {A} (run : list event * Runtime * result A) : result A := run.2.

(** [try: body / except ImportError: handler]. *)
Definition try_except_ImportError {A} (body handler : Py A) : Py A := λ s,
  match body s with
  | (t1, s1, Raise ImportError) =>
      match handler s1 with
      | (t2, s2, r) => (t1 ++ t2, s2, r)
      end
  | run => run
  end.

(** [for x in xs: body]. *)
Fixpoint for_each {X} (xs : list X) (body : X → Py unit) : Py unit :=
  match xs with
  | [] => mret tt
  | x :: xs' => body x ;; for_each xs' body
  end.

(** [[f(x) for x in xs]], also the loops that append to a list. *)
Fixpoint for_collect {X A} (xs : list X) (body : X → Py A) : Py (list A) :=
  match xs with
  | [] => mret []
  | x :: xs' => a ← body x; l ← for_collect xs' body; mret (a :: l)
  end.

(** A call into a library whose result the host decides; it leaves the
    runtime alone. *)
Definition call {A} (function : string) (r : result A) : Py A := λ s,
  ([EvCall function (raised r)], s, r).

Section Primitives.
Context {obj : Type} (H : Host obj).

(** [__import__(package)]. *)
Definition dunder_import (package : string) : Py unit := λ s,
  let r := import_module H (site_packages s) package in
  ([EvDunderImport package r], s, from_option Raise (Ok tt) r).

(** [import module]. *)
Definition import_ (module : string) : Py unit := λ s,
  let r := import_module H (site_packages s) module in
  ([EvImport module r], s, from_option Raise (Ok tt) r).

(** [subprocess.check_call(argv)], for the [pip] command lines of the
    set-up cells. *)
Definition check_call (argv : list string) : Py unit := λ s,
  let '(site, r) := pip H (site_packages s) argv in
  ([EvSubprocess argv r], set_site_packages site s, from_option Raise (Ok tt) r).

(** A boto3 S3 client signs its requests with the credentials of the
    environment unless it is configured with
    [signature_version=UNSIGNED]. *)
Record S3Client : Type := { signer : option string }.

Definition boto3_client (unsigned : bool) : Py S3Client := λ s,
  ([EvCall "boto3.client" None], s,
   Ok {| signer := if unsigned then None else aws_credentials s |}).

(** [client.download_file(Bucket, Key, Filename)]. *)
Definition download_file (client : S3Client) (Bucket Key Filename : string) : Py unit := λ s,
  let r := s3_get_object H (signer client) Bucket Key in
  match r with
  | Ok content =>
      ([EvDownload (signer client) Bucket Key Filename None],
       set_files (<[Filename := content]> (files s)) s, Ok tt)
  | Raise e =>
      ([EvDownload (signer client) Bucket Key Filename (Some e)], s, Raise e)
  end.

(** [s3fs.S3FileSystem(anon=...)] and [s3fs.S3Map(root, s3, check=False)]. *)
Record S3FileSystem : Type := { fs_signer : option string }.
Record S3Map : Type := { root : string; s3 : S3FileSystem }.

Definition s3fs_S3FileSystem (anon : bool) : Py S3FileSystem := λ s,
  ([EvCall "s3fs.S3FileSystem" None], s,
   Ok {| fs_signer := if anon then None else aws_credentials s |}).

Definition s3fs_S3Map (root_ : string) (s3_ : S3FileSystem) : Py S3Map :=
  call "s3fs.S3Map" (Ok {| root := root_; s3 := s3_ |}).

(** [xr.open_zarr(store=store, consolidated=None)]. *)
Definition open_zarr (store : S3Map) : Py XArray.Dataset := λ s,
  let r := s3_zarr_store H (fs_signer (s3 store)) (root store) in
  ([EvOpenZarr (fs_signer (s3 store)) (root store) (raised r)], s, r).

(** [requests.get(url).content], with no authentication argument. *)
Definition requests_get (url : string) : Py bytes := λ s,
  let r := http_get H url in ([EvHttpGet url (raised r)], s, r).

(** [os.listdir()]. *)
Definition os_listdir : Py (list string) := λ s,
  ([EvListdir "."], s, Ok (elements (dom (files s)))).

(** [ep.open_raw(raw_file, sonar_model)] reads a local file. *)
Definition open_raw (raw_file sonar_model : string) : Py obj := λ s,
  let r := match files s !! raw_file with
           | Some content => ep_open_raw H content sonar_model
           | None => Raise (OtherError "FileNotFoundError")
           end in
  ([EvReadFile raw_file (raised r)], s, r).

(** [!rm -rf path]: a shell escape does not raise. *)
Definition rm_rf (path : string) : Py unit := λ s,
  ([EvShell "rm -rf" path], set_files (delete path (files s)) s, Ok tt).

(** [ep.combine_echodata(echodata)] leaves the combined data in a Zarr
    store in echopype's temporary directory. *)
Definition temp_zarr : string := "/root/.echopype/temp_output/combined_echodata.zarr".

Definition combine_echodata (echodata : list obj) : Py obj := λ s,
  match ep_combine_echodata H echodata with
  | Ok combined =>
      ([EvCall "echopype.combine_echodata" None; EvWriteFile temp_zarr],
       set_files (<[temp_zarr := ep_to_zarr H combined]> (files s)) s, Ok combined)
  | Raise e => ([EvCall "echopype.combine_echodata" (Some e)], s, Raise e)
  end.

(** The statements whose value nothing below depends on: a bare expression
    at the end of a cell, [print], a plot, a title, a map and what is bound
    only to build one.  Each is a call that returns or raises as the host
    decides.  It is named by its source text, with Python's double quotes
    written as single quotes and an f-string by the expressions it formats. *)
Definition shows (what : list string) : Py unit :=
  for_each what (λ statement, call statement (render H statement)).
End Primitives.

(** [os.path.basename]. *)
Fixpoint basename_from (acc : string) (s : string) : string :=
  match s with
  | EmptyString => acc
  | String c s' =>
      if Ascii.eqb c "/"%char then basename_from EmptyString s'
      else basename_from (acc +:+ String c EmptyString) s'
  end.

Definition basename (path : string) : string := basename_from EmptyString path.

(** The pip command line of the set-up cells. *)
Definition pip_install_argv (executable requirement : string) : list string :=
  [executable; "-m"; "pip"; "install"; requirement].

Section Setup.
Context {obj : Type} (H : Host obj).

(** The body of the set-up loop; [pin] is the rewriting of the package
    name that Chapters 1 and 3 do before installing. *)
Definition install_step (pin : string → string) (package : string) : Py unit :=
  try_except_ImportError
    (dunder_import H package)
    (check_call H (pip_install_argv (sys_executable H) (pin package))).

Definition install_packages (pin : string → string) (PACKAGES : list string) : Py unit :=
  for_each PACKAGES (install_step pin).

(** The whole set-up cell: the two imports in the order the cell has
    them, then the loop. *)
Definition setup_cell (imports : list string) (pin : string → string)
    (PACKAGES : list string) : Py unit :=
  for_each imports (import_ H);;
  install_packages pin PACKAGES.
End Setup.

(** ** Echofish Chapter 2: frequency differencing with level-2 EK60 data *)

Module Echofish2.
Import XArray.

Definition PACKAGES : list string :=
  ["boto3"; "numpy"; "matplotlib"; "xarray"; "zarr"; "s3fs"].

Definition imports : list string :=
  ["os"; "boto3"; "zarr"; "xarray"; "numpy"; "matplotlib.pyplot"].

Definition bucket_name : string := "noaa-wcsd-zarr-pds".
Definition ship_name : string := "Bell_M._Shimada".
Definition cruise_name : string := "SH1507".
Definition sensor_name : string := "EK60".
Definition zarr_store : string := cruise_name +:+ ".zarr".
Definition s3_zarr_store_path : string :=
  bucket_name +:+ "/level_2/" +:+ ship_name +:+ "/" +:+ cruise_name +:+ "/"
    +:+ sensor_name +:+ "/" +:+ zarr_store.

(** [np.datetime64('2015-07-19T19:00:00')] and
    [np.datetime64('2015-07-19T20:00:00')], in nanoseconds since the epoch,
    the unit of [cruise.time]. *)
Definition start_time : Z := 1437332400 * 1000000000.
Definition end_time : Z := 1437336000 * 1000000000.

(** [NaT] is the least 64-bit integer; every comparison with it is false. *)
Definition NaT : Z := - 2 ^ 63.

Definition datetime64_lt (a b : Z) : bool :=
  negb (a =? NaT) && negb (b =? NaT) && (a <? b).

Definition in_time_window (t : Z) : bool :=
  datetime64_lt start_time t && datetime64_lt t end_time.

(** [select_times = (cruise.time > start_time) & (cruise.time < end_time)] *)
Definition select_times (cruise : Dataset) : Cond Z :=
  {| c_index := ds_time cruise;
     c_values := map in_time_window (ds_time cruise) |}.

Definition start_depth : Z := 0.
Definition end_depth : Z := 500.

Definition in_depth_range (t : dtype) (d : float) : bool :=
  SFltb (float_of_int t start_depth) d && SFltb d (float_of_int t end_depth).

(** [select_depths = (cruise.depth > start_depth) & (cruise.depth < end_depth)] *)
Definition select_depths (cruise : Dataset) : Cond float :=
  {| c_index := ds_depth cruise;
     c_values := map (in_depth_range (ds_depth_dtype cruise)) (ds_depth cruise) |}.

(** [cruise.sel(frequency=f).where(cond, drop=True).Sv], for a condition
    along time (the cell of [Sv_38]) and for a condition along time and
    depth (the cell of [Sv_18], [Sv_120], [Sv_200]). *)
Definition select_Sv_time (cruise : Dataset) (f : Z) (cond : Cond Z) : Py DataArray :=
  ds ← call "xarray.Dataset.sel" (sel cruise f);
  call "xarray.Dataset.where" (where_drop_time ds cond).

Definition select_Sv (cruise : Dataset) (f : Z) (cond : Cond2) : Py DataArray :=
  ds ← call "xarray.Dataset.sel" (sel cruise f);
  call "xarray.Dataset.where" (where_drop_2d ds cond).

(** The arrays the analysis cells bind, and the arrays they plot. *)
Record Analysis : Type := {
  Sv_38 : DataArray;
  Sv_38_plot : DataArray;
  Sv_38_subset : DataArray;
  Sv_18 : DataArray;
  Sv_120 : DataArray;
  Sv_200 : DataArray;
  Sv_120_subset : DataArray;
  first_freq_array : DataArray;
  second_freq_array : DataArray;
  Sv_select_diff_0 : DataArray;   (* [Sv_select_diff] before [dropna] *)
  Sv_select_diff : DataArray;     (* [Sv_select_diff] after [dropna], as plotted *)
}.

Section Notebook.
Context {obj : Type} (H : Host obj).

(** The cells from the time selection to the difference plot. *)
Definition analysis (cruise : Dataset) : Py Analysis :=
  let select_times := select_times cruise in
  Sv_38 ← select_Sv_time cruise 38000 select_times;
  shows H ["print(Sv_38)"; "Sv_38"; "type(Sv_38)";
           "print(np.nanmin(Sv_38), np.nanmax(Sv_38))"];;
  Sv_38_plot ← call "xarray.DataArray.dropna" (Ok (dropna_depth Sv_38));
  shows H ["Sv_38.dropna(dim='depth').plot(yincrease=False, cmap='jet', vmin=-80, vmax=-30)";
           "plt.title('Sv 38 kHz')"];;
  let select_depths := select_depths cruise in
  Sv_38_subset ← call "xarray.DataArray.where" (where_drop_depth Sv_38 select_depths);
  shows H ["Sv_38_subset.plot(yincrease=False, cmap='jet', vmin=-80, vmax=-30)";
           "plt.title('Sv 38 kHz')"];;
  Sv_18 ← select_Sv cruise 18000 (and_broadcast select_times select_depths);
  Sv_120 ← select_Sv cruise 120000 (and_broadcast select_times select_depths);
  Sv_200 ← select_Sv cruise 200000 (and_broadcast select_times select_depths);
  Sv_120_subset ← call "xarray.DataArray.where" (where_drop_depth Sv_120 select_depths);
  shows H ["Sv_120_subset.plot(yincrease=False, cmap='jet', vmin=-80, vmax=-30)";
           "plt.title('Sv 120 kHz')"];;
  let first_freq_array := Sv_120 in
  shows H ["first_freq = int(first_freq_array.frequency.values/1000)"];;
  let second_freq_array := Sv_38 in
  shows H ["second_freq = int(second_freq_array.frequency.values/1000)"];;
  Sv_select_diff ← call "xarray.DataArray.__sub__" (sub first_freq_array second_freq_array);
  Sv_select_diff' ← call "xarray.DataArray.dropna" (Ok (dropna_depth Sv_select_diff));
  shows H ["Sv_select_diff.plot(yincrease=False, vmin=-15, vmax=15, cmap='coolwarm')";
           "plt.title(first_freq, second_freq)"];;
  mret {| Sv_38 := Sv_38; Sv_38_plot := Sv_38_plot; Sv_38_subset := Sv_38_subset;
          Sv_18 := Sv_18; Sv_120 := Sv_120; Sv_200 := Sv_200;
          Sv_120_subset := Sv_120_subset;
          first_freq_array := first_freq_array;
          second_freq_array := second_freq_array;
          Sv_select_diff_0 := Sv_select_diff;
          Sv_select_diff := Sv_select_diff' |}.

Definition setup : Py unit := setup_cell H ["sys"; "subprocess"] id PACKAGES.

(** The cells that open the cruise and look at it. *)
Definition acquire : Py Dataset :=
  for_each imports (import_ H);;
  import_ H "botocore";;
  import_ H "botocore.config";;
  s3_client ← boto3_client true;
  import_ H "s3fs";;
  s3_file_system ← s3fs_S3FileSystem true;
  shows H ["print(s3_zarr_store_path)"];;
  store ← s3fs_S3Map s3_zarr_store_path s3_file_system;
  cruise ← open_zarr H store;
  shows H ["cruise"; "cruise.Sv"; "cruise.coords"; "cruise.time"; "cruise.latitude";
           "cruise.longitude"; "cruise.depth";
           "print(cruise.time.values[0], cruise.time.values[-1])";
           "print(cruise.depth.values[-1])";
           "print(cruise.frequency.values)";
           "cruise.Sv.chunk"];;
  mret cruise.

Definition notebook : Py Analysis :=
  setup;;
  cruise ← acquire;
  analysis cruise.
End Notebook.

End Echofish2.

(** ** Echofish Chapter 1: processing EK60 data on AWS *)

Module Echofish1.

Definition PACKAGES : list string := ["boto3"; "botocore"; "echopype"].

(** [if package == 'echopype': package = 'echopype==0.8.4'] *)
Definition pin (package : string) : string :=
  if decide (package = "echopype") then "echopype==0.8.4" else package.

Definition imports : list string :=
  ["os"; "boto3"; "echopype.visualize"; "matplotlib.pyplot"; "echopype"].

Definition bucket_name : string := "noaa-wcsd-pds".
Definition ship_name : string := "Bell_M._Shimada".
Definition cruise_name : string := "SH1507".
Definition sensor_name : string := "EK60".
Definition file_names : list string :=
  ["SaKe2015-D20150719-T193412.raw";
   "SaKe2015-D20150719-T193443.raw";
   "SaKe2015-D20150719-T194042.raw";
   "SaKe2015-D20150719-T194642.raw";
   "SaKe2015-D20150719-T195242.raw";
   "SaKe2015-D20150719-T195842.raw"].

Definition key_of (file_name : string) : string :=
  "data/raw/" +:+ ship_name +:+ "/" +:+ cruise_name +:+ "/" +:+ sensor_name
    +:+ "/" +:+ file_name.

Section Notebook.
Context {obj : Type} (H : Host obj).

Definition setup : Py unit := setup_cell H ["sys"; "subprocess"] pin PACKAGES.

(** The download cell. *)
Definition download : Py unit :=
  import_ H "botocore";;
  import_ H "botocore.client";;
  s3 ← boto3_client true;
  for_each file_names (λ file_name,
    download_file H s3 bucket_name (key_of file_name) (basename file_name);;
    shows H ["print(os.path.basename(file_name))"]).

(** [echodata.append(ep.open_raw(raw_file=file_names[i], sonar_model=sensor_name))] *)
Definition open_all : Py (list obj) :=
  for_collect file_names (λ file_name,
    shows H ["print(file_names[i])"];;
    open_raw H file_name sensor_name).

(** [ds_Sv = ep.calibrate.compute_Sv(combined_echodata)] *)
Definition compute_Sv (combined_echodata : obj) : Py obj :=
  call "echopype.calibrate.compute_Sv" (ep_compute_Sv H combined_echodata).

(** The cells after the download cell. *)
Definition after_download : Py obj :=
  os_listdir;;
  echodata ← open_all;
  shows H ["echodata[0]"; "echodata[0].environment"];;
  rm_rf temp_zarr;;
  combined_echodata ← combine_echodata H echodata;
  call "echopype.visualize.create_echogram" (epviz_create_echogram H combined_echodata);;
  ds_Sv ← compute_Sv combined_echodata;
  shows H ["ds_Sv"; "ds_Sv.coords['channel']"];;
  ds_Sv_freq ← call "echopype.consolidate.swap_dims_channel_frequency"
                 (ep_swap_dims_channel_frequency H ds_Sv);
  shows H ["ds_Sv_freq";
           "ds_Sv_freq.Sv.sel(frequency_nominal=18000).plot.pcolormesh(x='ping_time', cmap = 'jet', vmin=-80, vmax=-30, yincrease=False)";
           "ds_Sv_freq.Sv.sel(frequency_nominal=18000, range_sample=slice(0, 2400)).plot.pcolormesh(x='ping_time', cmap = 'jet', vmin=-80, vmax=-30, yincrease=False)";
           "ds_Sv_freq.Sv.sel(frequency_nominal=38000, range_sample=slice(0, 2400)).plot.pcolormesh(x='ping_time', cmap = 'jet', vmin=-80, vmax=-30, yincrease=False)";
           "ds_Sv_freq.Sv.sel(frequency_nominal=70000, range_sample=slice(0, 2400)).plot.pcolormesh(x='ping_time', cmap = 'jet', vmin=-80, vmax=-30, yincrease=False)";
           "ds_Sv_freq.Sv.sel(frequency_nominal=120000, range_sample=slice(0, 2400)).plot.pcolormesh(x='ping_time', cmap = 'jet', vmin=-80, vmax=-30, yincrease=False)";
           "ds_Sv_freq.Sv.sel(frequency_nominal=200000, range_sample=slice(0, 2400)).plot.pcolormesh(x='ping_time', cmap = 'jet', vmin=-80, vmax=-30, yincrease=False)"];;
  mret ds_Sv_freq.

(** The cells up to and including the download cell. *)
Definition until_download : Py unit :=
  setup;;
  for_each imports (import_ H);;
  shows H ["print(ep.__version__)"];;
  download.

Definition notebook : Py obj :=
  until_download;;
  after_download.
End Notebook.

End Echofish1.

(** ** Echofish Chapter 3: geospatial indexing *)

Module Echofish3.
Import XArray.

Definition PACKAGES : list string :=
  ["numpy"; "pandas"; "geopandas"; "matplotlib"; "xarray"; "zarr"; "folium";
   "boto3"; "s3fs"; "mapclassify"].

(** [if package == 'geopandas': package = 'geopandas==0.13.1'] *)
Definition pin (package : string) : string :=
  if decide (package = "geopandas") then "geopandas==0.13.1" else package.

Definition imports : list string :=
  ["s3fs"; "folium"; "os"; "zarr"; "boto3"; "numpy"; "pandas"; "xarray";
   "geopandas"; "botocore"; "botocore.config"; "matplotlib.pyplot"].

Definition bucket_name : string := "noaa-wcsd-zarr-pds".
Definition ship_name : string := "Bell_M._Shimada".
Definition cruise_name : string := "SH1507".
Definition sensor_name : string := "EK60".
Definition zarr_store : string := "SH1507.zarr".
Definition s3_zarr_store_path : string :=
  bucket_name +:+ "/level_2/" +:+ ship_name +:+ "/" +:+ cruise_name +:+ "/"
    +:+ sensor_name +:+ "/" +:+ zarr_store.

(** A row of [gps_df]: the index [time] and the columns [latitude] and
    [longitude]. *)
Record gps_row : Type := { row_time : Z; latitude : float; longitude : float }.

(** [pd.DataFrame({...}).set_index(['time'])]: the three arrays must have
    the same length. *)
Definition gps_df (cruise : Dataset) : result (list gps_row) :=
  if bool_decide (length (ds_latitude cruise) = length (ds_time cruise)
                  ∧ length (ds_longitude cruise) = length (ds_time cruise))
  then Ok (zip_with (λ t ll, {| row_time := t; latitude := ll.1; longitude := ll.2 |})
             (ds_time cruise) (zip (ds_latitude cruise) (ds_longitude cruise)))
  else Raise ValueError.

(** [gpd.GeoDataFrame(gps_df, geometry=...).dropna()]: the rows with a
    missing coordinate go. *)
Definition gps_gdf (df : list gps_row) : list gps_row :=
  List.filter (λ r, notnull (latitude r) && notnull (longitude r)) df.

(** [geom.LineString([xy for xy in zip(gps_gdf.latitude, gps_gdf.longitude)])]:
    a line string has no or at least two points. *)
Definition LineString (gdf : list gps_row) : result (list Shapely.point) :=
  let coords := map (λ r, (latitude r, longitude r)) gdf in
  if decide (length coords = 1%nat) then Raise ValueError else Ok coords.

Section Notebook.
Context {obj : Type} (H : Host obj).

Definition setup : Py unit := setup_cell H ["sys"; "subprocess"] pin PACKAGES.

Definition acquire : Py Dataset :=
  for_each imports (import_ H);;
  s3 ← boto3_client true;
  s3_file_system ← s3fs_S3FileSystem true;
  store ← s3fs_S3Map s3_zarr_store_path s3_file_system;
  cruise ← open_zarr H store;
  shows H ["cruise"; "cruise.time"; "cruise.latitude"; "cruise.longitude"];;
  mret cruise.

(** [lineSimplified = linestring.simplify(tolerance=0.01, preserve_topology=True)] *)
Definition lineSimplified (linestring : list Shapely.point) : list Shapely.point :=
  Shapely.simplify (geos_distance H) (geos_veto H) linestring Shapely.tolerance_001 true.

Definition simplify_cell (linestring : list Shapely.point) : Py (list Shapely.point) :=
  call "shapely.LineString.simplify" (Ok (lineSimplified linestring)).

Definition notebook : Py (list Shapely.point) :=
  setup;;
  cruise ← acquire;
  df ← call "pandas.DataFrame" (gps_df cruise);
  shows H ["gps_df"];;
  gdf ← call "geopandas.GeoDataFrame.dropna" (Ok (gps_gdf df));
  shows H ["gps_gdf"; "geojson = gps_gdf.to_json()"; "geojson"; "gps_gdf.plot()"];;
  shows H ["gps_gdf.index = gps_gdf.index.astype(str)"];;
  import_ H "mapclassify";;
  shows H ["gps_gdf.explore()"];;
  import_ H "shapely.geometry";;
  linestring ← call "shapely.geometry.LineString" (LineString gdf);
  shows H ["len(linestring.coords)"; "linestring.coords[0]"];;
  lineSimplified ← simplify_cell linestring;
  shows H ["print(len(linestring.coords))"; "print(len(lineSimplified.coords))"];;
  import_ H "IPython.display";;
  shows H ["centroid = gps_gdf.geometry.centroid";
           "center_latitude = centroid.y.iloc[0]";
           "center_longitude = centroid.x.iloc[0]";
           "m = folium.Map(location=[center_latitude, center_longitude], zoom_start=10)";
           "folium.PolyLine(lineSimplified.coords).add_to(m)";
           "display(m)"];;
  mret lineSimplified.
End Notebook.

End Echofish3.

(** ** TC PRIMED Chapter 1a: NetCDF files *)

Module TCPrimed1a.

Definition packages : list string := ["netCDF4"; "numpy"].

Definition NODD_URL : string :=
  "https://noaa-nesdis-tcprimed-pds.s3.amazonaws.com/v01r01/final/2018/AL/06/".
Definition FILE_NAME : string :=
  "TCPRIMED_v01r01-final_AL062018_GMI_GPM_025677_20180905051440.nc".

Section Notebook.
Context {obj : Type} (H : Host obj).

Definition setup : Py unit := setup_cell H ["subprocess"; "sys"] id packages.

(** [url_response = requests.get(NODD_URL + FILE_NAME)] and
    [DS = Dataset(FILE_NAME, memory=url_response.content)] *)
Definition read_file_online : Py obj :=
  import_ H "requests";;
  content ← requests_get H (NODD_URL +:+ FILE_NAME);
  call "netCDF4.Dataset" (nc_Dataset H FILE_NAME content).

(** [passive_microwave_group = DS["passive_microwave"]] *)
Definition passive_microwave_group (DS : obj) : Py obj :=
  call "netCDF4.Dataset.__getitem__" (nc_getitem H DS "passive_microwave").

Definition getitem (DS : obj) (path : string) : Py obj :=
  call "netCDF4.Dataset.__getitem__" (nc_getitem H DS path).

Definition notebook : Py unit :=
  setup;;
  import_ H "netCDF4";;
  import_ H "numpy";;
  DS ← read_file_online;
  shows H ["print(DS)"];;
  root_summary ← call "netCDF4.Dataset.getncattr" (nc_getncattr H DS "summary");
  shows H ["print(root_summary)"; "print(DS)"];;
  group ← passive_microwave_group DS;
  shows H ["print(passive_microwave_group)"];;
  pm_time_instance ← getitem DS "passive_microwave/time";
  shows H ["print(pm_time_instance)"];;
  v ← getitem DS "passive_microwave/time";
  pm_time_long_name ← call "netCDF4.Variable.getncattr" (nc_getncattr H v "long_name");
  shows H ["print(pm_time_long_name)"];;
  v ← getitem DS "passive_microwave/time";
  pm_time ← call "netCDF4.Variable.__getitem__" (nc_getall H v);
  shows H ["print(pm_time)"];;
  group ← passive_microwave_group DS;
  shows H ["print(passive_microwave_group)"];;
  v ← getitem DS "passive_microwave/S1/latitude";
  S1_full_latitude ← call "netCDF4.Variable.__getitem__" (nc_getall H v);
  shows H ["print(S1_full_latitude.shape)"];;
  v ← getitem DS "passive_microwave/S1/latitude";
  S1_subset_latitude ← call "netCDF4.Variable.__getitem__"
                         (nc_take_rows H v (map Z.of_nat (seq 0 10)));
  shows H ["print(S1_subset_latitude.shape)"];;
  call "netCDF4.Dataset.close" (nc_close H DS).
End Notebook.

End TCPrimed1a.

(** ** What a run touches *)

(** The places of the machine that outlive a notebook. *)
Inductive location : Type :=
| Package (name : string)
| File (path : string).

Global Instance location_eq_dec : EqDecision location.
Proof. solve_decision. Defined.

(** The part of a string before the first occurrence of [c]: the package
    of a dotted module name, the distribution of a pinned requirement. *)
Fixpoint before (c : ascii) (s : string) : string :=
  match s with
  | EmptyString => EmptyString
  | String x s' => if Ascii.eqb x c then EmptyString else String x (before c s')
  end.

Definition module_package (module : string) : string := before "."%char module.
Definition requirement_name (requirement : string) : string := before "="%char requirement.

Definition writes (ev : event) : list location :=
  match ev with
  | EvSubprocess argv _ => [Package (requirement_name (List.last argv EmptyString))]
  | EvDownload _ _ _ Filename _ => [File Filename]
  | EvShell _ path => [File path]
  | EvWriteFile path => [File path]
  | _ => []
  end.

Definition reads (ev : event) : list location :=
  match ev with
  | EvDunderImport package _ => [Package (module_package package)]
  | EvImport module _ => [Package (module_package module)]
  | EvReadFile path _ => [File path]
  | EvListdir path => [File path]
  | _ => []
  end.

Definition is_file (l : location) : bool :=
  match l with
  | File _ => true
  | Package _ => false
  end.

Definition written (t : list event) : list location := concat (map writes t).
Definition read (t : list event) : list location := concat (map reads t).

(** The retrievals of remote data, and who signs them. *)
Definition is_fetch (ev : event) : bool :=
  match ev with
  | EvDownload _ _ _ _ _ | EvOpenZarr _ _ _ | EvHttpGet _ _ => true
  | _ => false
  end.

Definition fetches (t : list event) : list event := List.filter is_fetch t.

Definition anonymous (ev : event) : Prop :=
  match ev with
  | EvDownload signer _ _ _ _ | EvOpenZarr signer _ _ => signer = None
  | _ => True
  end.

(** The claim that no error is ever caught: whatever a call raises is what
    the computation raises. *)
Definition propagates_every_error {A} (m : Py A) : Prop :=
  ∀ s ev e, ev ∈ trace (m s) → raised_by ev = Some e → outcome (m s) = Raise e.

(** The handler the set-up cells do have catches this, and only this. *)
Definition caught (ev : event) : Prop :=
  ∃ package, ev = EvDunderImport package (Some ImportError).

Definition propagates_uncaught {A} (m : Py A) : Prop :=
  ∀ s ev e, ev ∈ trace (m s) → raised_by ev = Some e → ¬ caught ev →
            outcome (m s) = Raise e.

(** The claim that two notebooks share nothing: no place one of them
    writes is a place the other reads. *)
Definition isolated (a b : Runtime → list event) : Prop :=
  ∀ s1 s2 l, l ∈ written (a s1) → l ∉ read (b s2).

(** An event that neither reads nor writes a local file. *)
Definition touches_no_file (ev : event) : Prop :=
  List.filter is_file (writes ev ++ reads ev) = [].

(** The claim that a notebook fetches one remote file. *)
Definition fetches_one {A} (m : Py A) : Prop :=
  ∀ s a, outcome (m s) = Ok a → length (fetches (trace (m s))) = 1%nat.

(** A run does not depend on the credentials of the environment. *)
Definition credential_blind {A} (m : Py A) : Prop :=
  ∀ s c, m (set_credentials c s)
         = (trace (m s), set_credentials c (final (m s)), outcome (m s)).

(** Every event of every run satisfies [P]. *)
Definition trace_in {A} (P : event → Prop) (m : Py A) : Prop :=
  ∀ s, Forall P (trace (m s)).

(** Spec side of the refinement: one operation is one application of one
    library function, and nothing else. *)
Definition single_call {A} (function : string) (application : result A) : Py A := λ s,
  ([EvCall function (raised application)], s, application).

(** The four notebooks, by what a run of each leaves in the trace. *)
Definition notebooks {obj} (H : Host obj) : list (string * (Runtime → list event)) :=
  [("Echofish_Chapter_1", λ s, trace (Echofish1.notebook H s));
   ("Echofish_Chapter_2", λ s, trace (Echofish2.notebook H s));
   ("Echofish_Chapter_3", λ s, trace (Echofish3.notebook H s));
   ("TCPRIMED_Chap1a", λ s, trace (TCPrimed1a.notebook H s))].

(** The set-up loops of the four notebooks. *)
Definition setup_loops : list ((string → string) * list string) :=
  [(Echofish1.pin, Echofish1.PACKAGES);
   (id, Echofish2.PACKAGES);
   (Echofish3.pin, Echofish3.PACKAGES);
   (id, TCPrimed1a.packages)].

(** ** A small world to run the notebooks in *)

Module Demo.
Import XArray.

Definition stdlib : list string := ["sys"; "subprocess"; "os"].

(** A module imports when its package is installed. *)
Definition imports_ok (site : gset string) (module : string) : option exn :=
  if bool_decide (module_package module ∈ stdlib) then None
  else if bool_decide (module_package module ∈ site) then None
  else Some ImportError.

(** pip installs the distribution it is asked for. *)
Definition pip_ok (site : gset string) (argv : list string) : gset string * option exn :=
  ({[ requirement_name (List.last argv EmptyString) ]} ∪ site, None).

Definition f32 (n : Z) : float := float_of_int float32 n.
Definition f64 (n : Z) : float := float_of_int float64 n.

(** Four depths, five pings around the window, four frequencies; one
    missing sample at 38 kHz. *)
Definition cruise : Dataset :=
  {| ds_dtype := float32;
     ds_depth_dtype := float64;
     ds_frequency := [18000; 38000; 120000; 200000];
     ds_depth := [f64 0; f64 250; f64 499; f64 500];
     ds_time := [Echofish2.start_time; Echofish2.start_time + 1;
                 Echofish2.start_time + 2; Echofish2.end_time - 1;
                 Echofish2.end_time];
     ds_Sv :=
       map (λ i, map (λ j, map (λ k,
              if (i =? 2) && (j =? 2) && (k =? 1) then NaN
              else f32 (- (60 + 10 * i + j + (1 + i) * k)))
              [0; 1; 2; 3]) [0; 1; 2; 3; 4]) [0; 1; 2; 3];
     ds_latitude := [f64 45; f64 45; NaN; f64 46; f64 47];
     ds_longitude := [f64 (-125); f64 (-125); f64 (-125); f64 (-124); f64 (-123)] |}.

(** A stand-in for the distance of a point from a segment: 0 on the
    latitude of the segment's start, 1 elsewhere. *)
Definition distance (p a b : Shapely.point) : float :=
  if decide (p.1 = a.1) then f64 0 else f64 1.

Definition host : Host string :=
  {| sys_executable := "/usr/bin/python3";
     import_module := imports_ok;
     pip := pip_ok;
     s3_get_object := λ _ _ Key, Ok [];
     s3_zarr_store := λ _ _, Ok cruise;
     http_get := λ _, Ok [];
     ep_open_raw := λ _ _, Ok "EchoData";
     ep_combine_echodata := λ _, Ok "EchoData";
     ep_to_zarr := λ _, [];
     epviz_create_echogram := λ _, Ok "FacetGrid";
     ep_compute_Sv := λ _, Ok "Dataset";
     ep_swap_dims_channel_frequency := λ _, Ok "Dataset";
     nc_Dataset := λ _ _, Ok "Dataset";
     nc_getitem := λ _ path, Ok path;
     nc_getncattr := λ _ name, Ok name;
     nc_getall := λ _, Ok "array";
     nc_take_rows := λ _ _, Ok "array";
     nc_close := λ _, Ok tt;
     geos_distance := distance;
     geos_veto := λ _ _ _, false;
     render := λ _, Ok tt |}.

(** A fresh machine, and one with everything installed. *)
Definition bare : Runtime :=
  {| site_packages := ∅; files := ∅; aws_credentials := None |}.

Definition all_packages : list string :=
  ["boto3"; "botocore"; "echopype"; "numpy"; "matplotlib"; "xarray"; "zarr";
   "s3fs"; "pandas"; "geopandas"; "folium"; "mapclassify"; "shapely";
   "netCDF4"; "requests"].

Definition ready : Runtime :=
  {| site_packages := list_to_set all_packages; files := ∅; aws_credentials := None |}.

End Demo.

(** ** What the further properties speak of *)

(** A computation leaves alone the local files whose path satisfies [P]. *)
Definition keeps_files {A} (P : string → Prop) (m : Py A) : Prop :=
  ∀ s path, P path → files (final (m s)) !! path = files s !! path.

(** The download of a raw file of Chapter 1, as the bucket answers it. *)
Definition download_of {obj} (H : Host obj) (file_name : string) : event :=
  EvDownload None Echofish1.bucket_name (Echofish1.key_of file_name) (basename file_name)
    (raised (s3_get_object H None Echofish1.bucket_name (Echofish1.key_of file_name))).

(** What a run fetched is the downloads of the first files of
    [file_names], in that order, of which only the last can have failed. *)
Definition downloads_in_order {obj} (H : Host obj) (fetched : list event) : Prop :=
  ∃ n, fetched = map (download_of H) (take n Echofish1.file_names) ∧
       ∀ file_name, file_name ∈ take (pred n) Echofish1.file_names →
         raised_by (download_of H file_name) = None.

(** [DS.close()], as it shows in a trace. *)
Definition is_close (ev : event) : Prop := ∃ r, ev = EvCall "netCDF4.Dataset.close" r.

(** A call that returned, or whose [ImportError] the set-up loop caught. *)
Definition returned_or_caught (ev : event) : Prop := raised_by ev = None ∨ caught ev.

(** Either the run raised before it came to [DS.close()], or that call is
    its last one, every call before it returned, and the run ends as the
    call does. *)
Definition closes_last {A} (m : Py A) : Prop :=
  ∀ s,
    (Forall (λ ev, ¬ is_close ev) (trace (m s)) ∧ ∃ e, outcome (m s) = Raise e) ∨
    (∃ before,
       trace (m s) = before ++ [EvCall "netCDF4.Dataset.close" (raised (outcome (m s)))] ∧
       Forall (λ ev, ¬ is_close ev ∧ returned_or_caught ev) before).

(** The positions of a cruise: the (latitude, longitude) pairs of its
    pings, without those that miss a coordinate. *)
Definition positions (cruise : XArray.Dataset) : list Shapely.point :=
  List.filter (λ p, notnull p.1 && notnull p.2)
    (zip (XArray.ds_latitude cruise) (XArray.ds_longitude cruise)).

(** ** Other machines to run the notebooks on *)

Module Elsewhere.

(** Without a network, pip fails and installs nothing. *)
Definition no_pip (site : gset string) (argv : list string) : gset string * option exn :=
  (site, Some CalledProcessError).

Definition offline : Host string :=
  {| sys_executable := sys_executable Demo.host;
     import_module := import_module Demo.host;
     pip := no_pip;
     s3_get_object := s3_get_object Demo.host;
     s3_zarr_store := s3_zarr_store Demo.host;
     http_get := http_get Demo.host;
     ep_open_raw := ep_open_raw Demo.host;
     ep_combine_echodata := ep_combine_echodata Demo.host;
     ep_to_zarr := ep_to_zarr Demo.host;
     epviz_create_echogram := epviz_create_echogram Demo.host;
     ep_compute_Sv := ep_compute_Sv Demo.host;
     ep_swap_dims_channel_frequency := ep_swap_dims_channel_frequency Demo.host;
     nc_Dataset := nc_Dataset Demo.host;
     nc_getitem := nc_getitem Demo.host;
     nc_getncattr := nc_getncattr Demo.host;
     nc_getall := nc_getall Demo.host;
     nc_take_rows := nc_take_rows Demo.host;
     nc_close := nc_close Demo.host;
     geos_distance := geos_distance Demo.host;
     geos_veto := geos_veto Demo.host;
     render := render Demo.host |}.

(** A notebook server: everything is installed, IPython too. *)
Definition notebook_server : Runtime :=
  {| site_packages := list_to_set ("IPython" :: Demo.all_packages);
     files := ∅; aws_credentials := None |}.

(** A machine on which Chapter 1 ran before: a raw file and the combined
    store of that run are still there, with other content, beside a file
    of the user. *)
Definition used : Runtime :=
  {| site_packages := list_to_set Demo.all_packages;
     files := {[ "SaKe2015-D20150719-T193412.raw" := [Byte.x01];
                 temp_zarr := [Byte.x02];
                 "notes.txt" := [Byte.x03] ]};
     aws_credentials := None |}.

(** A cruise without the 38 kHz channel. *)
Definition no_38_kHz : XArray.Dataset :=
  {| XArray.ds_dtype := float32;
     XArray.ds_depth_dtype := float64;
     XArray.ds_frequency := [18000; 120000; 200000];
     XArray.ds_depth := XArray.ds_depth Demo.cruise;
     XArray.ds_time := XArray.ds_time Demo.cruise;
     XArray.ds_Sv := map (map (λ cell, take 1 cell ++ drop 2 cell)) (XArray.ds_Sv Demo.cruise);
     XArray.ds_latitude := XArray.ds_latitude Demo.cruise;
     XArray.ds_longitude := XArray.ds_longitude Demo.cruise |}.

End Elsewhere.

(** * Properties *)

(** ** Lists, masks and labels *)

Section Masks.
Context {A : Type}.

Lemma isel_mask_map (p : A → bool) (l : list A) :
  XArray.isel_mask (map p l) l = List.filter p l.
Proof.
  induction l as [|x l IH]; simpl; [reflexivity|].
  destruct (p x); simpl; by rewrite IH.
Qed.

Lemma isel_mask_map_ext {B} (p : B → bool) (g : B → A) (l : list B) :
  XArray.isel_mask (map p l) (map g l) = map g (List.filter p l).
Proof.
  induction l as [|x l IH]; simpl; [reflexivity|].
  destruct (p x); simpl; by rewrite IH.
Qed.

Lemma elem_of_isel_mask (m : list bool) (l : list A) (x : A) :
  x ∈ XArray.isel_mask m l →
  ∃ i, m !! i = Some true ∧ l !! i = Some x.
Proof.
  revert l. induction m as [|b m IH]; intros [|y l]; simpl; try by inversion 1.
  destruct b.
  - intros [->|Hx]%elem_of_cons.
    + by exists O.
    + destruct (IH _ Hx) as (i & ? & ?). by exists (S i).
  - intros Hx. destruct (IH _ Hx) as (i & ? & ?). by exists (S i).
Qed.

Lemma isel_mask_subseteq (m : list bool) (l : list A) (x : A) :
  x ∈ XArray.isel_mask m l → x ∈ l.
Proof.
  intros (i & _ & Hi)%elem_of_isel_mask. by eapply list_elem_of_lookup_2.
Qed.

Lemma length_isel_mask {B} (m : list bool) (l : list A) (k : list B) :
  length l = length k →
  length (XArray.isel_mask m l) = length (XArray.isel_mask m k).
Proof.
  revert l k. induction m as [|b m IH]; intros [|x l] [|y k]; simpl; try done.
  intros [= E]. destruct b; simpl; by rewrite (IH l k E).
Qed.

Lemma isel_mask_zip {B} (m : list bool) (l : list A) (k : list B) :
  XArray.isel_mask m (zip l k) = zip (XArray.isel_mask m l) (XArray.isel_mask m k).
Proof.
  revert l k. induction m as [|b m IH]; intros [|x l] [|y k]; simpl; try done.
  - by destruct b, (XArray.isel_mask m l).
  - by destruct b; simpl; rewrite IH.
Qed.

Lemma nth_zip_with {B C} (f : A → B → C) (dA : A) (dB : B) (dC : C) :
  (∀ y, f dA y = dC) → (∀ x, f x dB = dC) →
  ∀ (l : list A) (k : list B) (i : nat),
    nth i (zip_with f l k) dC = f (nth i l dA) (nth i k dB).
Proof.
  intros Hl Hr l. induction l as [|x l IH]; intros k i.
  - destruct i; simpl; by rewrite Hl.
  - destruct k as [|y k]; [destruct i; simpl; by rewrite Hr|].
    destruct i; simpl; [reflexivity | apply IH].
Qed.
End Masks.

Section Labels.
Context `{EqDecision L}.

Lemma get_loc_lt (x : L) (l : list L) : x ∈ l → (XArray.get_loc x l < length l)%nat.
Proof.
  induction l as [|y l IH]; [by inversion 1|]. simpl.
  destruct (decide (x = y)); [lia|].
  intros [->|Hx]%elem_of_cons; [done|]. specialize (IH Hx). lia.
Qed.

Lemma nth_get_loc_map {B} (f : L → B) (x : L) (l : list L) (d : B) :
  x ∈ l → nth (XArray.get_loc x l) (map f l) d = f x.
Proof.
  induction l as [|y l IH]; [by inversion 1|]. simpl.
  destruct (decide (x = y)) as [->|]; [done|].
  intros [->|Hx]%elem_of_cons; [done|]. by apply IH.
Qed.

(** What alignment keeps: the labels both sides have. *)
Lemma align_index_elem_of (ia ib j : list L) (x : L) :
  XArray.align_index ia ib = Ok j → x ∈ j ↔ x ∈ ia ∧ x ∈ ib.
Proof.
  unfold XArray.align_index. destruct (decide (ia = ib)) as [->|].
  - intros [= <-]. tauto.
  - destruct (_ && _); [|done]. intros [= <-].
    rewrite list_elem_of_filter. tauto.
Qed.

(** Reading a reindexed list under a label is reading the original. *)
Lemma nth_reindex {B} (joined idx : list L) (xs : list B) (fill : B) (x : L) :
  x ∈ joined →
  nth (XArray.get_loc x joined) (XArray.reindex joined idx xs fill) fill
  = nth (XArray.get_loc x idx) xs fill.
Proof.
  intros Hx. unfold XArray.reindex. destruct (decide (idx = joined)) as [->|]; [done|].
  by rewrite (nth_get_loc_map (λ y, nth (XArray.get_loc y idx) xs fill)).
Qed.

(** A condition computed from the labels stays so under reindexing. *)
Lemma reindex_map {B} (p : L → B) (joined idx : list L) (fill : B) :
  (∀ x, x ∈ joined → x ∈ idx) →
  XArray.reindex joined idx (map p idx) fill = map p joined.
Proof.
  intros Hsub. unfold XArray.reindex. destruct (decide (idx = joined)) as [->|]; [done|].
  apply map_ext_in. intros x Hx%list_elem_of_In.
  by apply nth_get_loc_map, Hsub.
Qed.

Lemma length_reindex {B} (joined idx : list L) (xs : list B) (fill : B) :
  length xs = length idx →
  length (XArray.reindex joined idx xs fill) = length joined.
Proof.
  intros E. unfold XArray.reindex. destruct (decide (idx = joined)) as [<-|]; [done|].
  by rewrite length_map.
Qed.
End Labels.

(** ** Arrays *)

Section Arrays.
Import XArray.

Lemma fsub_nan_l (t : dtype) (y : float) : fsub t NaN y = NaN.
Proof. reflexivity. Qed.

Lemma fsub_nan_r (t : dtype) (x : float) : fsub t x NaN = NaN.
Proof. by destruct x. Qed.

Lemma isnull_fsub (t : dtype) (x y : float) :
  isnull x || isnull y = true → isnull (fsub t x y) = true.
Proof.
  destruct x, y; simpl; try done; intros _; by rewrite ?fsub_nan_r.
Qed.

(** Reading a reindexed array under a pair of labels. *)
Lemma reindex_like_loc (a : DataArray) (ds : list float) (ts : list Z) d t :
  d ∈ ds → t ∈ ts →
  nth (get_loc t ts) (nth (get_loc d ds) (reindex_like a ds ts) []) NaN = loc a d t.
Proof.
  intros Hd Ht. unfold reindex_like, loc.
  set (R := reindex ds (depth a) (values a) []).
  assert (HR : nth (get_loc d ds) R [] = nth (get_loc d (depth a)) (values a) [])
    by by apply nth_reindex.
  destruct (decide (get_loc d ds < length R)%nat) as [Hlt|Hge].
  - rewrite (nth_indep _ [] (reindex ts (time a) [] NaN)) by by rewrite length_map.
    rewrite (map_nth (λ row, reindex ts (time a) row NaN)), HR.
    by apply nth_reindex.
  - rewrite (nth_overflow (map _ R)) by (rewrite length_map; lia).
    rewrite <- HR, (nth_overflow R) by lia. by destruct (get_loc t ts), (get_loc t (time a)).
Qed.

(** The difference, label by label. *)
Lemma sub_loc (a b c : DataArray) d t :
  sub a b = Ok c →
  d ∈ depth a → d ∈ depth b → t ∈ time a → t ∈ time b →
  d ∈ depth c ∧ t ∈ time c ∧
  loc c d t = fsub (da_dtype c) (loc a d t) (loc b d t).
Proof.
  unfold sub. destruct (align_index (depth a) (depth b)) as [ds|] eqn:Eds; [|done].
  destruct (align_index (time a) (time b)) as [ts|] eqn:Ets; [|done].
  simpl. intros [= <-] Hda Hdb Hta Htb. simpl.
  assert (Hd : d ∈ ds) by by apply (align_index_elem_of _ _ _ _ Eds).
  assert (Ht : t ∈ ts) by by apply (align_index_elem_of _ _ _ _ Ets).
  split_and!; [done..|].
  unfold loc at 1. simpl.
  rewrite (nth_zip_with _ [] [] []) by (intros; by rewrite ?zip_with_nil_r).
  rewrite (nth_zip_with _ NaN NaN NaN) by (intros; by rewrite ?fsub_nan_r).
  by rewrite !reindex_like_loc.
Qed.

(** Shapes. *)
Lemma reindex_like_shaped (a : DataArray) (ds : list float) (ts : list Z) :
  well_shaped a → (∀ x, x ∈ ds → x ∈ depth a) →
  length (reindex_like a ds ts) = length ds ∧
  Forall (λ row, length row = length ts) (reindex_like a ds ts).
Proof.
  intros [Hn Hrows] Hsub. unfold reindex_like. split.
  - rewrite length_map. by apply length_reindex.
  - apply Forall_map.
    assert (Forall (λ row, length row = length (time a))
              (reindex ds (depth a) (values a) [])) as HR.
    { unfold reindex. destruct (decide (depth a = ds)); [done|].
      apply Forall_map, Forall_forall. intros x Hx. simpl.
      rewrite Forall_forall in Hrows. apply Hrows, list_elem_of_In, nth_In.
      rewrite Hn. by apply get_loc_lt, Hsub. }
    eapply Forall_impl; [exact HR|]. intros row Hrow. simpl.
    by apply length_reindex.
Qed.

Lemma sel_shaped (cruise : Dataset) f a :
  ds_well_shaped cruise → sel cruise f = Ok a →
  well_shaped a ∧ depth a = ds_depth cruise ∧ time a = ds_time cruise
  ∧ frequency a = Some f ∧ da_dtype a = ds_dtype cruise.
Proof.
  intros [Hn Hp]. unfold sel. case_bool_decide; [|done]. intros [= <-].
  split_and!; try done. split; simpl.
  - by rewrite length_map.
  - apply Forall_map. eapply Forall_impl; [exact Hp|]. intros plane E. simpl.
    by rewrite length_map.
Qed.

Lemma sub_shaped (a b c : DataArray) :
  well_shaped a → well_shaped b → sub a b = Ok c → well_shaped c.
Proof.
  intros Ha Hb. unfold sub.
  destruct (align_index (depth a) (depth b)) as [ds|] eqn:Eds; [|done].
  destruct (align_index (time a) (time b)) as [ts|] eqn:Ets; [|done].
  simpl. intros [= <-].
  destruct (reindex_like_shaped a ds ts Ha) as [HaN HaR].
  { intros x Hx. by apply (align_index_elem_of _ _ _ _ Eds) in Hx as [? ?]. }
  destruct (reindex_like_shaped b ds ts Hb) as [HbN HbR].
  { intros x Hx. by apply (align_index_elem_of _ _ _ _ Eds) in Hx as [? ?]. }
  split; simpl.
  - rewrite length_zip_with. lia.
  - revert HaR HbR. generalize (reindex_like a ds ts) (reindex_like b ds ts).
    intros l. induction l as [|x l IH]; intros [|y k] Hl Hk; simpl; try constructor.
    + apply Forall_cons_1 in Hl as [Hx _]. apply Forall_cons_1 in Hk as [Hy _].
      rewrite length_zip_with. lia.
    + apply Forall_cons_1 in Hl as [_ Hl]. apply Forall_cons_1 in Hk as [_ Hk].
      by apply IH.
Qed.

(** Counting the values that are there is asking whether all are. *)
Lemma count_notnull_all (row : list float) :
  Nat.eqb (count_notnull row) (length row) = forallb notnull row.
Proof.
  unfold count_notnull.
  assert (length (List.filter notnull row) ≤ length row)%nat as Hle
    by apply List.filter_length_le.
  induction row as [|x row IH]; [done|]. simpl in *.
  destruct (notnull x); simpl in *.
  - apply IH. lia.
  - pose proof (List.filter_length_le notnull row).
    apply Nat.eqb_neq. lia.
Qed.

(** [dropna] keeps the depth levels whose row has no NaN, and only
    those. *)
Lemma dropna_depth_levels (a : DataArray) :
  well_shaped a →
  time (dropna_depth a) = time a ∧
  zip (depth (dropna_depth a)) (values (dropna_depth a))
  = List.filter (λ level, forallb notnull level.2) (zip (depth a) (values a)).
Proof.
  intros [Hn Hrows]. split; [done|]. unfold dropna_depth. simpl.
  rewrite <- isel_mask_zip.
  revert Hn Hrows. generalize (depth a) (values a) (length (time a)).
  intros ds vs n. revert ds. induction vs as [|row vs IH]; intros [|d ds]; simpl; try done.
  intros [= Hn]. inversion 1 as [|?? Hrow Hrest]; subst.
  rewrite count_notnull_all. destruct (forallb notnull row); simpl; by rewrite IH.
Qed.

(** ** Selections *)

Lemma Forall_isel_mask {A} (P : A → Prop) (m : list bool) (l : list A) :
  Forall P l → Forall P (isel_mask m l).
Proof.
  intros Hl. apply Forall_forall. intros x Hx%isel_mask_subseteq.
  rewrite Forall_forall in Hl. by apply Hl.
Qed.

(** [where] along time with a condition computed from the labels. *)
Lemma where_drop_time_facts (a b : DataArray) (cond : Cond Z) (p : Z → bool) :
  c_values cond = map p (c_index cond) →
  where_drop_time a cond = Ok b →
  depth b = depth a ∧ da_dtype b = da_dtype a ∧ frequency b = frequency a ∧
  (∀ t, t ∈ time b → t ∈ time a ∧ p t = true) ∧
  (time a = c_index cond → time b = List.filter p (time a)) ∧
  (well_shaped a → well_shaped b).
Proof.
  intros Hc. unfold where_drop_time.
  destruct (align_index (time a) (c_index cond)) as [ts|] eqn:Ets; [|done].
  simpl. intros [= <-]. simpl.
  assert (Hsub : ∀ x, x ∈ ts → x ∈ time a ∧ x ∈ c_index cond)
    by (intros x; by apply align_index_elem_of).
  rewrite Hc, reindex_map by (intros x Hx; by apply Hsub).
  rewrite isel_mask_map.
  split_and!; try done.
  - intros t [Ht Hp]%list_elem_of_In%filter_In. split; [|done].
    by apply Hsub, list_elem_of_In.
  - intros E. unfold align_index in Ets. rewrite E in Ets.
    rewrite decide_True in Ets by done. injection Ets as <-. by rewrite E.
  - intros Ha. destruct (reindex_like_shaped a (depth a) ts Ha) as [Hn Hrows]; [done|].
    split; simpl.
    + by rewrite length_map.
    + apply Forall_map. eapply Forall_impl; [exact Hrows|]. intros row Hrow. simpl.
      rewrite length_zip_with, <- isel_mask_map.
      rewrite (length_isel_mask _ _ ts) by by rewrite length_map.
      rewrite (length_isel_mask _ row ts) by done. lia.
Qed.

(** [where] along depth. *)
Lemma where_drop_depth_facts (a b : DataArray) (cond : Cond float) (p : float → bool) :
  c_values cond = map p (c_index cond) →
  where_drop_depth a cond = Ok b →
  time b = time a ∧
  (∀ d, d ∈ depth b → d ∈ depth a ∧ p d = true) ∧
  (depth a = c_index cond → depth b = List.filter p (depth a)).
Proof.
  intros Hc. unfold where_drop_depth.
  destruct (align_index (depth a) (c_index cond)) as [ds|] eqn:Eds; [|done].
  simpl. intros [= <-]. simpl.
  assert (Hsub : ∀ x, x ∈ ds → x ∈ depth a ∧ x ∈ c_index cond)
    by (intros x; by apply align_index_elem_of).
  rewrite Hc, reindex_map by (intros x Hx; by apply Hsub).
  rewrite isel_mask_map.
  split_and!; try done.
  - intros t [Ht Hp]%list_elem_of_In%filter_In. split; [|done].
    by apply Hsub, list_elem_of_In.
  - intros E. unfold align_index in Eds. rewrite E in Eds.
    rewrite decide_True in Eds by done. injection Eds as <-. by rewrite E.
Qed.

(** [where] along time and depth with the conjunction of two conditions
    computed from the labels. *)
Lemma where_drop_2d_facts (a b : DataArray) (ct : Cond Z) (cd : Cond float)
    (pt : Z → bool) (pd : float → bool) :
  c_values ct = map pt (c_index ct) →
  c_values cd = map pd (c_index cd) →
  where_drop_2d a (and_broadcast ct cd) = Ok b →
  da_dtype b = da_dtype a ∧ frequency b = frequency a ∧
  (∀ t, t ∈ time b → t ∈ time a ∧ pt t = true) ∧
  (∀ d, d ∈ depth b → d ∈ depth a ∧ pd d = true) ∧
  (well_shaped a → well_shaped b).
Proof.
  intros Hct Hcd. unfold where_drop_2d, and_broadcast. simpl.
  destruct (align_index (depth a) (c_index cd)) as [ds|] eqn:Eds; [|done].
  destruct (align_index (time a) (c_index ct)) as [ts|] eqn:Ets; [|done].
  simpl. intros [= <-]. simpl.
  assert (Hds : ∀ x, x ∈ ds → x ∈ depth a ∧ x ∈ c_index cd)
    by (intros x; by apply align_index_elem_of).
  assert (Hts : ∀ x, x ∈ ts → x ∈ time a ∧ x ∈ c_index ct)
    by (intros x; by apply align_index_elem_of).
  rewrite Hct, Hcd, map_map.
  rewrite (reindex_map (λ t, map (andb (pt t)) (map pd (c_index cd))))
    by (intros x Hx; by apply Hts).
  rewrite map_map.
  erewrite (map_ext _ (λ t, map (λ d, pt t && pd d) ds)); last first.
  { intros t. rewrite map_map.
    by rewrite (reindex_map (λ d, pt t && pd d)) by (intros x Hx; by apply Hds). }
  set (c := map (λ t, map (λ d, pt t && pd d) ds) ts).
  split_and!; try done.
  - intros t Ht. unfold any_over_depth, c in Ht. rewrite map_map, isel_mask_map in Ht.
    apply list_elem_of_In, filter_In in Ht as [Ht Hq]. split.
    + by apply Hts, list_elem_of_In.
    + apply existsb_exists in Hq as (x & Hx & Hid).
      apply in_map_iff in Hx as (d & <- & _). unfold id in Hid.
      by apply andb_true_iff in Hid as [? _].
  - intros d (i & Hm & Hd)%elem_of_isel_mask. split.
    + by apply Hds, (list_elem_of_lookup_2 _ i).
    + unfold any_over_time in Hm. rewrite list_lookup_fmap in Hm.
      destruct (seq 0 (length ds) !! i) as [i'|] eqn:Ei; [|done].
      apply lookup_seq in Ei as [-> Hi]. simpl in Hm. injection Hm as Hm.
      apply existsb_exists in Hm as (row & Hrow & Hnth).
      apply in_map_iff in Hrow as (t & <- & _).
      rewrite (nth_lookup_Some _ _ _ (pt t && pd d)) in Hnth
        by by rewrite list_lookup_fmap, Hd.
      by apply andb_true_iff in Hnth as [_ ?].
  - intros Ha. destruct (reindex_like_shaped a ds ts Ha) as [Hn Hrows].
    { intros x Hx. by apply Hds. }
    split; simpl.
    + rewrite length_imap, length_map. apply length_isel_mask. by rewrite Hn.
    + apply Forall_forall. intros row' (i & row & -> & Hrow)%elem_of_lookup_imap.
      rewrite length_imap.
      apply list_lookup_fmap_Some in Hrow as (row0 & -> & Hrow0).
      apply list_elem_of_lookup_2, isel_mask_subseteq in Hrow0.
      rewrite Forall_forall in Hrows. apply length_isel_mask. by apply Hrows.
Qed.
End Arrays.

(** ** Runs *)

Section Runs.
Context {A B : Type}.

Lemma bind_run (m : Py A) (k : A → Py B) (s : Runtime) :
  (m ≫= k) s =
  match m s with
  | (t1, s1, Ok a) => match k a s1 with (t2, s2, r) => (t1 ++ t2, s2, r) end
  | (t1, s1, Raise e) => (t1, s1, Raise e)
  end.
Proof. reflexivity. Qed.

(** A sequence that ends well was two runs that ended well. *)
Lemma bind_ok (m : Py A) (k : A → Py B) s t s' b :
  (m ≫= k) s = (t, s', Ok b) →
  ∃ t1 s1 a t2, m s = (t1, s1, Ok a) ∧ k a s1 = (t2, s', Ok b) ∧ t = t1 ++ t2.
Proof.
  rewrite bind_run. destruct (m s) as [[t1 s1] [a|e]]; [|done].
  destruct (k a s1) as [[t2 s2] r] eqn:Ek. intros [= <- <- ->].
  by exists t1, s1, a, t2.
Qed.

Lemma call_ok (function : string) (r : result A) s t s' a :
  call function r s = (t, s', Ok a) →
  r = Ok a ∧ s' = s ∧ t = [EvCall function None].
Proof. unfold call. destruct r; simpl; by intros [= <- <- <-]. Qed.

Lemma ret_ok (a a' : A) s t s' :
  mret (M := Py) a s = (t, s', Ok a') → a' = a ∧ s' = s ∧ t = [].
Proof. by intros [= <- <- <-]. Qed.
End Runs.

(** Take a successful run apart, step by step. *)
Ltac run_ok H :=
  lazymatch type of H with
  | (_ ≫= _) _ = (_, _, Ok _) =>
      let t1 := fresh "t" in let s1 := fresh "s" in let a := fresh "x" in
      let t2 := fresh "t" in let H1 := fresh "Hrun" in let Ht := fresh "Ht" in
      apply bind_ok in H as (t1 & s1 & a & t2 & H1 & H & Ht);
      run_ok H1; run_ok H
  | call _ _ ?s = (?t, ?s', Ok _) =>
      tryif is_var s' then apply call_ok in H as (H & -> & ->) else idtac
  | _ => idtac
  end.

(** Decide a closed proposition by evaluation. *)
Ltac by_compute := apply (bool_decide_unpack _); vm_compute; exact I.

(** ** Chapter 2: the analysis *)

Section Chapter2.
Import XArray Echofish2.
Context {obj : Type} (H : Host obj).

Lemma select_times_values (cruise : Dataset) :
  c_values (select_times cruise) = map in_time_window (c_index (select_times cruise)).
Proof. reflexivity. Qed.

Lemma select_depths_values (cruise : Dataset) :
  c_values (select_depths cruise)
  = map (in_depth_range (ds_depth_dtype cruise)) (c_index (select_depths cruise)).
Proof. reflexivity. Qed.

Lemma select_Sv_time_ok (cruise : Dataset) f cond s t s' a :
  select_Sv_time cruise f cond s = (t, s', Ok a) →
  ∃ ds, sel cruise f = Ok ds ∧ where_drop_time ds cond = Ok a.
Proof.
  unfold select_Sv_time. intros Hrun. run_ok Hrun. eauto.
Qed.

Lemma select_Sv_ok (cruise : Dataset) f cond s t s' a :
  select_Sv cruise f cond s = (t, s', Ok a) →
  ∃ ds, sel cruise f = Ok ds ∧ where_drop_2d ds cond = Ok a.
Proof.
  unfold select_Sv. intros Hrun. run_ok Hrun. eauto.
Qed.

(** What a successful run of the analysis cells computed. *)
Lemma analysis_ok (cruise : Dataset) s tr s' v :
  analysis H cruise s = (tr, s', Ok v) →
  first_freq_array v = Sv_120 v ∧ second_freq_array v = Sv_38 v ∧
  (∃ ds, sel cruise 38000 = Ok ds ∧ where_drop_time ds (select_times cruise) = Ok (Sv_38 v)) ∧
  Sv_38_plot v = dropna_depth (Sv_38 v) ∧
  where_drop_depth (Sv_38 v) (select_depths cruise) = Ok (Sv_38_subset v) ∧
  (∃ ds, sel cruise 18000 = Ok ds ∧
         where_drop_2d ds (and_broadcast (select_times cruise) (select_depths cruise))
         = Ok (Sv_18 v)) ∧
  (∃ ds, sel cruise 120000 = Ok ds ∧
         where_drop_2d ds (and_broadcast (select_times cruise) (select_depths cruise))
         = Ok (Sv_120 v)) ∧
  (∃ ds, sel cruise 200000 = Ok ds ∧
         where_drop_2d ds (and_broadcast (select_times cruise) (select_depths cruise))
         = Ok (Sv_200 v)) ∧
  where_drop_depth (Sv_120 v) (select_depths cruise) = Ok (Sv_120_subset v) ∧
  sub (Sv_120 v) (Sv_38 v) = Ok (Sv_select_diff_0 v) ∧
  Sv_select_diff v = dropna_depth (Sv_select_diff_0 v).
Proof.
  unfold analysis. intros Hrun. run_ok Hrun.
  apply ret_ok in Hrun as (-> & _ & _). simpl.
  repeat match goal with
  | H : select_Sv_time _ _ _ _ = _ |- _ => apply select_Sv_time_ok in H
  | H : select_Sv _ _ _ _ = _ |- _ => apply select_Sv_ok in H
  | H : Ok _ = Ok _ |- _ => injection H as <-
  end.
  split_and!; done.
Qed.
End Chapter2.

Section Chapter2_claims.
Import XArray Echofish2.
Context {obj : Type} (H : Host obj).

Lemma SFltb_irrefl (x : float) : SFltb x x = false.
Proof.
  unfold SFltb, SFcompare. destruct x as [| [] | | [] m e]; try done;
    by rewrite Z.compare_refl, Pos.compare_cont_refl.
Qed.

Lemma in_time_window_strict (t : Z) :
  in_time_window t = true ↔ start_time < t < end_time.
Proof.
  unfold in_time_window, datetime64_lt.
  rewrite !andb_true_iff, !negb_true_iff, !Z.eqb_neq, !Z.ltb_lt.
  unfold NaT, start_time, end_time.
  change (- 2 ^ 63) with (-9223372036854775808). lia.
Qed.

Lemma result_type_same (t : dtype) : result_type t t = t.
Proof. unfold result_type. by destruct (_ <? _). Qed.

(** The shapes and the coordinates of the two operands of the
    difference. *)
Lemma operands_shaped (cruise : Dataset) s tr s' v :
  ds_well_shaped cruise →
  analysis H cruise s = (tr, s', Ok v) →
  well_shaped (Sv_120 v) ∧ well_shaped (Sv_38 v) ∧
  da_dtype (Sv_120 v) = ds_dtype cruise ∧ da_dtype (Sv_38 v) = ds_dtype cruise ∧
  frequency (Sv_120 v) = Some 120000 ∧ frequency (Sv_38 v) = Some 38000.
Proof.
  intros Hwf Hrun. apply analysis_ok in Hrun.
  destruct Hrun as (_ & _ & (a38 & Hs38 & Hw38) & _ & _ & _ & (a120 & Hs120 & Hw120) & _).
  apply (sel_shaped _ _ _ Hwf) in Hs38 as (W38 & _ & _ & F38 & T38).
  apply (sel_shaped _ _ _ Hwf) in Hs120 as (W120 & _ & _ & F120 & T120).
  apply (where_drop_time_facts _ _ _ _ (select_times_values cruise)) in Hw38
    as (_ & T38' & F38' & _ & _ & W38').
  apply (where_drop_2d_facts _ _ _ _ _ _ (select_times_values cruise)
           (select_depths_values cruise)) in Hw120 as (T120' & F120' & _ & _ & W120').
  split_and!; [by apply W120' | by apply W38' | congruence..].
Qed.
End Chapter2_claims.

(** C1.  Frequency differencing in Chapter 2 is the element-wise difference
    of the two selected arrays: [first_freq_array] is [Sv_120] (120000 Hz)
    and [second_freq_array] is [Sv_38] (38000 Hz); at every (depth, time)
    pair of labels that both arrays have, the difference holds the float
    difference of the two values, which is NaN as soon as one of them is;
    and [dropna] over depth keeps, in order and with their rows, exactly
    the depth levels whose row holds no NaN. *)
Theorem C1_frequency_differencing {obj : Type} (H : Host obj)
    (cruise : XArray.Dataset) (s s' : Runtime) (tr : list event)
    (v : Echofish2.Analysis) :
  XArray.ds_well_shaped cruise →
  Echofish2.analysis H cruise s = (tr, s', Ok v) →
  let Sv_120 := Echofish2.Sv_120 v in
  let Sv_38 := Echofish2.Sv_38 v in
  let diff := Echofish2.Sv_select_diff_0 v in
  let dropped := Echofish2.Sv_select_diff v in
  Echofish2.first_freq_array v = Sv_120 ∧
  Echofish2.second_freq_array v = Sv_38 ∧
  XArray.frequency Sv_120 = Some 120000 ∧
  XArray.frequency Sv_38 = Some 38000 ∧
  (∀ d t,
     d ∈ XArray.depth Sv_120 → d ∈ XArray.depth Sv_38 →
     t ∈ XArray.time Sv_120 → t ∈ XArray.time Sv_38 →
     d ∈ XArray.depth diff ∧ t ∈ XArray.time diff ∧
     XArray.loc diff d t
     = fsub (XArray.ds_dtype cruise) (XArray.loc Sv_120 d t) (XArray.loc Sv_38 d t) ∧
     (isnull (XArray.loc Sv_120 d t) || isnull (XArray.loc Sv_38 d t) = true →
      isnull (XArray.loc diff d t) = true)) ∧
  XArray.time dropped = XArray.time diff ∧
  zip (XArray.depth dropped) (XArray.values dropped)
  = List.filter (λ level, forallb notnull level.2)
      (zip (XArray.depth diff) (XArray.values diff)).
Proof.
  intros Hwf Hrun. simpl.
  destruct (operands_shaped H _ _ _ _ _ Hwf Hrun) as (W120 & W38 & T120 & T38 & F120 & F38).
  apply analysis_ok in Hrun.
  destruct Hrun as (E1 & E2 & _ & _ & _ & _ & _ & _ & _ & Hsub & Hdrop).
  assert (XArray.da_dtype (Echofish2.Sv_select_diff_0 v) = XArray.ds_dtype cruise) as Hdt.
  { revert Hsub. unfold XArray.sub.
    destruct (XArray.align_index _ _); [|done]. destruct (XArray.align_index _ _); [|done].
    simpl. intros [= <-]. simpl. by rewrite T120, T38, result_type_same. }
  split_and!; try done.
  - intros d t Hd1 Hd2 Ht1 Ht2.
    destruct (sub_loc _ _ _ d t Hsub Hd1 Hd2 Ht1 Ht2) as (? & ? & Hloc).
    rewrite Hdt in Hloc. split_and!; try done.
    rewrite Hloc. apply isnull_fsub.
  - rewrite Hdrop. by apply dropna_depth_levels, (sub_shaped _ _ _ W120 W38).
  - rewrite Hdrop. by apply dropna_depth_levels, (sub_shaped _ _ _ W120 W38).
Qed.

(** On the small cruise: the difference at 250 m, one nanosecond into the
    window, is -75 - (-73) = -2, and the level at 499 m, which misses a
    sample at 38 kHz, is dropped. *)
Lemma C1_frequency_differencing_witness :
  ∃ tr s' v,
    XArray.ds_well_shaped Demo.cruise ∧
    Echofish2.analysis Demo.host Demo.cruise Demo.bare = (tr, s', Ok v) ∧
    XArray.loc (Echofish2.Sv_select_diff_0 v) (Demo.f64 250) (Echofish2.start_time + 1)
    = fsub float32
        (XArray.loc (Echofish2.Sv_120 v) (Demo.f64 250) (Echofish2.start_time + 1))
        (XArray.loc (Echofish2.Sv_38 v) (Demo.f64 250) (Echofish2.start_time + 1)) ∧
    XArray.loc (Echofish2.Sv_select_diff_0 v) (Demo.f64 250) (Echofish2.start_time + 1)
    = Demo.f32 (-2) ∧
    XArray.depth (Echofish2.Sv_select_diff_0 v) = [Demo.f64 250; Demo.f64 499] ∧
    XArray.depth (Echofish2.Sv_select_diff v) = [Demo.f64 250].
Proof.
  assert (XArray.ds_well_shaped Demo.cruise) as Hwf.
  { split; [reflexivity|]. repeat constructor. }
  eexists _, _, _. split; [exact Hwf|].
  assert (Echofish2.analysis Demo.host Demo.cruise Demo.bare = (_, _, Ok _)) as Hrun
    by (vm_compute; reflexivity).
  split; [exact Hrun|].
  split; [|vm_compute; repeat split].
  destruct (C1_frequency_differencing Demo.host _ _ _ _ _ Hwf Hrun) as (_ & _ & _ & _ & Hpt & _ & _).
  refine (proj1 (proj2 (proj2 (Hpt _ _ _ _ _ _)))); clear; by_compute.
Defined.

(** C7.  The time and depth selections of Chapter 2 are strict at both
    ends.  [select_times] holds at a time exactly when it lies strictly
    between 19:00 and 20:00 of 2015-07-19, [select_depths] at a depth
    exactly when it is strictly above 0 and strictly below 500 in the
    order of floats; the four bounds themselves fail the tests.  Every
    array selected or plotted after [select_times] has only times that pass
    the time test, and every array selected or plotted after
    [select_depths] has only depths that pass the depth test, so that no
    sample on a bound is in any of them.  [Sv_38] and [Sv_38_subset] keep
    all the labels that pass. *)
Theorem C7_strict_selection {obj : Type} (H : Host obj)
    (cruise : XArray.Dataset) (s s' : Runtime) (tr : list event)
    (v : Echofish2.Analysis) :
  Echofish2.analysis H cruise s = (tr, s', Ok v) →
  let dt := XArray.ds_depth_dtype cruise in
  let by_time :=
    [Echofish2.Sv_38 v; Echofish2.Sv_38_plot v; Echofish2.Sv_38_subset v;
     Echofish2.Sv_18 v; Echofish2.Sv_120 v; Echofish2.Sv_200 v;
     Echofish2.Sv_120_subset v; Echofish2.Sv_select_diff_0 v;
     Echofish2.Sv_select_diff v] in
  let by_depth :=
    [Echofish2.Sv_38_subset v; Echofish2.Sv_18 v; Echofish2.Sv_120 v;
     Echofish2.Sv_200 v; Echofish2.Sv_120_subset v;
     Echofish2.Sv_select_diff_0 v; Echofish2.Sv_select_diff v] in
  XArray.c_values (Echofish2.select_times cruise)
  = map Echofish2.in_time_window (XArray.ds_time cruise) ∧
  XArray.c_values (Echofish2.select_depths cruise)
  = map (Echofish2.in_depth_range dt) (XArray.ds_depth cruise) ∧
  (∀ t, Echofish2.in_time_window t = true
        ↔ Echofish2.start_time < t < Echofish2.end_time) ∧
  (∀ d, Echofish2.in_depth_range dt d = true
        ↔ SFltb (float_of_int dt 0) d = true ∧ SFltb d (float_of_int dt 500) = true) ∧
  Echofish2.in_time_window Echofish2.start_time = false ∧
  Echofish2.in_time_window Echofish2.end_time = false ∧
  (∀ sign, Echofish2.in_depth_range dt (S754_zero sign) = false) ∧
  Echofish2.in_depth_range dt (float_of_int dt 500) = false ∧
  (∀ a t, a ∈ by_time → t ∈ XArray.time a → Echofish2.in_time_window t = true) ∧
  (∀ a d, a ∈ by_depth → d ∈ XArray.depth a → Echofish2.in_depth_range dt d = true) ∧
  XArray.time (Echofish2.Sv_38 v)
  = List.filter Echofish2.in_time_window (XArray.ds_time cruise) ∧
  XArray.depth (Echofish2.Sv_38_subset v)
  = List.filter (Echofish2.in_depth_range dt) (XArray.ds_depth cruise).
Proof.
  intros Hrun. simpl. apply analysis_ok in Hrun.
  destruct Hrun as (_ & _ & (a38 & Hs38 & Hw38) & Hplot & Hsub38 & (a18 & Hs18 & Hw18)
                    & (a120 & Hs120 & Hw120) & (a200 & Hs200 & Hw200) & Hsub120
                    & Hdiff & Hdrop).
  pose proof (select_times_values cruise) as Hct.
  pose proof (select_depths_values cruise) as Hcd.
  assert (∀ f a, XArray.sel cruise f = Ok a →
            XArray.depth a = XArray.ds_depth cruise ∧ XArray.time a = XArray.ds_time cruise)
    as Hsel.
  { intros f a. unfold XArray.sel. case_bool_decide; [|done]. by intros [= <-]. }
  apply Hsel in Hs38 as [D38 T38].
  apply (where_drop_time_facts _ _ _ _ Hct) in Hw38 as (D38' & _ & _ & HT38 & E38 & _).
  apply (where_drop_depth_facts _ _ _ _ Hcd) in Hsub38 as (T38s & HD38s & E38s).
  apply (where_drop_2d_facts _ _ _ _ _ _ Hct Hcd) in Hw18 as (_ & _ & HT18 & HD18 & _).
  apply (where_drop_2d_facts _ _ _ _ _ _ Hct Hcd) in Hw120 as (_ & _ & HT120 & HD120 & _).
  apply (where_drop_2d_facts _ _ _ _ _ _ Hct Hcd) in Hw200 as (_ & _ & HT200 & HD200 & _).
  apply (where_drop_depth_facts _ _ _ _ Hcd) in Hsub120 as (T120s & HD120s & _).
  assert (∀ t, t ∈ XArray.time (Echofish2.Sv_select_diff_0 v) →
               t ∈ XArray.time (Echofish2.Sv_120 v)) as HTd.
  { revert Hdiff. unfold XArray.sub.
    destruct (XArray.align_index (XArray.depth _) _) as [ds|] eqn:Eds; [|done].
    destruct (XArray.align_index (XArray.time _) _) as [ts|] eqn:Ets; [|done].
    simpl. intros [= <-] t. simpl. intros Ht.
    by apply (align_index_elem_of _ _ _ _ Ets) in Ht as [? _]. }
  assert (∀ d, d ∈ XArray.depth (Echofish2.Sv_select_diff_0 v) →
               d ∈ XArray.depth (Echofish2.Sv_120 v)) as HDd.
  { revert Hdiff. unfold XArray.sub.
    destruct (XArray.align_index (XArray.depth _) _) as [ds|] eqn:Eds; [|done].
    destruct (XArray.align_index (XArray.time _) _) as [ts|] eqn:Ets; [|done].
    simpl. intros [= <-] d. simpl. intros Hd.
    by apply (align_index_elem_of _ _ _ _ Eds) in Hd as [? _]. }
  split_and!.
  - done.
  - done.
  - apply in_time_window_strict.
  - intros d. unfold Echofish2.in_depth_range. by rewrite andb_true_iff.
  - by vm_compute.
  - by vm_compute.
  - by intros [].
  - unfold Echofish2.in_depth_range. by rewrite SFltb_irrefl, andb_false_r.
  - intros a t Ha Ht. repeat (apply elem_of_cons in Ha as [->|Ha]).
    + by apply HT38.
    + rewrite Hplot in Ht. by apply HT38.
    + rewrite T38s in Ht. by apply HT38.
    + by apply HT18.
    + by apply HT120.
    + by apply HT200.
    + rewrite T120s in Ht. by apply HT120.
    + by apply HT120, HTd.
    + rewrite Hdrop in Ht. by apply HT120, HTd.
    + by inversion Ha.
  - intros a d Ha Hd. repeat (apply elem_of_cons in Ha as [->|Ha]).
    + by apply HD38s.
    + by apply HD18.
    + by apply HD120.
    + by apply HD200.
    + by apply HD120s.
    + by apply HD120, HDd.
    + rewrite Hdrop in Hd. apply isel_mask_subseteq in Hd. by apply HD120, HDd.
    + by inversion Ha.
  - rewrite <- T38. apply E38. by rewrite T38.
  - rewrite <- D38, <- D38'. apply E38s. by rewrite D38', D38.
Qed.

(** On the small cruise, whose pings are at 19:00:00 and at one and two
    nanoseconds after it, at one nanosecond before 20:00:00 and at
    20:00:00, and whose depths are 0, 250, 499 and 500 m. *)
Lemma C7_strict_selection_witness :
  ∃ tr s' v,
    Echofish2.analysis Demo.host Demo.cruise Demo.bare = (tr, s', Ok v) ∧
    XArray.time (Echofish2.Sv_38 v)
    = List.filter Echofish2.in_time_window (XArray.ds_time Demo.cruise) ∧
    XArray.time (Echofish2.Sv_38 v)
    = [Echofish2.start_time + 1; Echofish2.start_time + 2; Echofish2.end_time - 1] ∧
    XArray.depth (Echofish2.Sv_120 v) = [Demo.f64 250; Demo.f64 499].
Proof.
  eexists _, _, _.
  assert (Echofish2.analysis Demo.host Demo.cruise Demo.bare = (_, _, Ok _)) as Hrun
    by (vm_compute; reflexivity).
  split; [exact Hrun|].
  split; [|vm_compute; repeat split].
  destruct (C7_strict_selection Demo.host _ _ _ _ _ Hrun)
    as (_ & _ & _ & _ & _ & _ & _ & _ & _ & _ & Htime & _).
  exact Htime.
Defined.

(** ** Composing runs *)

Section Composition.
Context {A B : Type}.

Lemma trace_bind (m : Py A) (k : A → Py B) (s : Runtime) :
  trace ((m ≫= k) s) =
  match outcome (m s) with
  | Ok a => trace (m s) ++ trace (k a (final (m s)))
  | Raise _ => trace (m s)
  end.
Proof.
  rewrite bind_run. destruct (m s) as [[t1 s1] [a|e]]; [|done].
  unfold trace, final, outcome. simpl. by destruct (k a s1) as [[t2 s2] r].
Qed.

Lemma outcome_bind (m : Py A) (k : A → Py B) (s : Runtime) :
  outcome ((m ≫= k) s) =
  match outcome (m s) with
  | Ok a => outcome (k a (final (m s)))
  | Raise e => Raise e
  end.
Proof.
  rewrite bind_run. destruct (m s) as [[t1 s1] [a|e]]; [|done].
  unfold trace, final, outcome. simpl. by destruct (k a s1) as [[t2 s2] r].
Qed.

Lemma final_bind (m : Py A) (k : A → Py B) (s : Runtime) :
  final ((m ≫= k) s) =
  match outcome (m s) with
  | Ok a => final (k a (final (m s)))
  | Raise e => final (m s)
  end.
Proof.
  rewrite bind_run. destruct (m s) as [[t1 s1] [a|e]]; [|done].
  unfold trace, final, outcome. simpl. by destruct (k a s1) as [[t2 s2] r].
Qed.

Lemma run_eta (m : Py A) (s : Runtime) :
  m s = (trace (m s), final (m s), outcome (m s)).
Proof. by destruct (m s) as [[t s'] r]. Qed.

(** Events of a sequence are events of its parts; the second part runs
    on what the first returned. *)
Lemma trace_in_bind (P : event → Prop) (m : Py A) (k : A → Py B) :
  trace_in P m →
  (∀ a s, outcome (m s) = Ok a → trace_in P (k a)) →
  trace_in P (m ≫= k).
Proof.
  intros Hm Hk s. rewrite trace_bind. destruct (outcome (m s)) as [a|e] eqn:E.
  - apply Forall_app. split; [apply Hm | by eapply Hk].
  - apply Hm.
Qed.

Lemma propagates_bind (m : Py A) (k : A → Py B) :
  propagates_uncaught m → (∀ a, propagates_uncaught (k a)) →
  propagates_uncaught (m ≫= k).
Proof.
  intros Hm Hk s ev e. rewrite trace_bind, outcome_bind.
  destruct (outcome (m s)) as [a|e0] eqn:E.
  - intros [Hin|Hin]%elem_of_app Hr Hc.
    + specialize (Hm s ev e Hin Hr Hc). congruence.
    + by eapply Hk.
  - intros Hin Hr Hc. specialize (Hm s ev e Hin Hr Hc). congruence.
Qed.

Lemma blind_bind (m : Py A) (k : A → Py B) :
  credential_blind m → (∀ a, credential_blind (k a)) →
  credential_blind (m ≫= k).
Proof.
  intros Hm Hk s c. rewrite trace_bind, outcome_bind, final_bind, bind_run, Hm.
  destruct (outcome (m s)) as [a|e]; [|done].
  by rewrite Hk.
Qed.
End Composition.

Lemma trace_in_ret {A} (P : event → Prop) (a : A) : trace_in P (mret a).
Proof. intros s. constructor. Qed.

Lemma propagates_ret {A} (a : A) : propagates_uncaught (mret a).
Proof. intros s ev e Hin. by inversion Hin. Qed.

Lemma blind_ret {A} (a : A) : credential_blind (mret a).
Proof. by intros s c. Qed.

Section Loops.
Context {X A : Type}.

Lemma trace_in_for_each (P : event → Prop) (xs : list X) (body : X → Py unit) :
  (∀ x, x ∈ xs → trace_in P (body x)) → trace_in P (for_each xs body).
Proof.
  induction xs as [|x xs IH]; intros Hb; simpl; [apply trace_in_ret|].
  apply trace_in_bind; [apply Hb; left|]. intros _ _ _. apply IH.
  intros y Hy. apply Hb. by right.
Qed.

Lemma propagates_for_each (xs : list X) (body : X → Py unit) :
  (∀ x, propagates_uncaught (body x)) → propagates_uncaught (for_each xs body).
Proof.
  intros Hb. induction xs as [|x xs IH]; simpl; [apply propagates_ret|].
  by apply propagates_bind.
Qed.

Lemma blind_for_each (xs : list X) (body : X → Py unit) :
  (∀ x, credential_blind (body x)) → credential_blind (for_each xs body).
Proof.
  intros Hb. induction xs as [|x xs IH]; simpl; [apply blind_ret|].
  by apply blind_bind.
Qed.

Lemma trace_in_for_collect (P : event → Prop) (xs : list X) (body : X → Py A) :
  (∀ x, x ∈ xs → trace_in P (body x)) → trace_in P (for_collect xs body).
Proof.
  induction xs as [|x xs IH]; intros Hb; simpl; [apply trace_in_ret|].
  apply trace_in_bind; [apply Hb; left|]. intros a _ _.
  apply trace_in_bind; [apply IH; intros y Hy; apply Hb; by right|].
  intros l _ _. apply trace_in_ret.
Qed.

Lemma propagates_for_collect (xs : list X) (body : X → Py A) :
  (∀ x, propagates_uncaught (body x)) → propagates_uncaught (for_collect xs body).
Proof.
  intros Hb. induction xs as [|x xs IH]; simpl; [apply propagates_ret|].
  apply propagates_bind; [done|]. intros a.
  apply propagates_bind; [done|]. intros l. apply propagates_ret.
Qed.

Lemma blind_for_collect (xs : list X) (body : X → Py A) :
  (∀ x, credential_blind (body x)) → credential_blind (for_collect xs body).
Proof.
  intros Hb. induction xs as [|x xs IH]; simpl; [apply blind_ret|].
  apply blind_bind; [done|]. intros a.
  apply blind_bind; [done|]. intros l. apply blind_ret.
Qed.
End Loops.

(** ** The calls that leave the notebook *)

Ltac unfold_calls :=
  unfold call, single_call, dunder_import, import_, check_call, boto3_client,
    download_file, s3fs_S3FileSystem, s3fs_S3Map, open_zarr, requests_get,
    os_listdir, open_raw, rm_rf, combine_echodata, try_except_ImportError,
    trace, final, outcome in *.

(** Every event of a call satisfies [P]; [leaf] proves [P] of one event. *)
Ltac call_trace_in leaf :=
  let s := fresh "s" in
  intros s; unfold_calls; simpl; repeat case_match; simplify_eq/=;
  repeat first [apply Forall_nil_2 | apply Forall_cons_2]; leaf.

(** A call raises what its event says it raised. *)
Ltac call_propagates :=
  let s := fresh "s" in let ev := fresh "ev" in let e := fresh "e" in
  let Hin := fresh "Hin" in let Hr := fresh "Hr" in let Hc := fresh "Hc" in
  intros s ev e Hin Hr Hc; unfold_calls; simpl in *;
  repeat case_match; simplify_eq/=;
  repeat (apply elem_of_cons in Hin as [->|Hin]); try (by inversion Hin);
  simpl in *; simplify_eq/=;
  repeat match goal with
         | H : raised ?r = Some _ |- _ => destruct r; simplify_eq/=
         | H : from_option _ _ ?r = _ |- _ => destruct r; simplify_eq/=
         end;
  try (rewrite Hr; simpl); try done.

(** A call does not look at the credentials. *)
Ltac call_blind :=
  let s := fresh "s" in let c := fresh "c" in
  intros s c; unfold_calls; simpl; repeat case_match; simplify_eq/=; try done.

Section Setup_facts.
Context {obj : Type} (H : Host obj).

(** One turn of the set-up loop, case by case. *)
Lemma install_step_run (pin : string → string) (package : string) (s : Runtime) :
  install_step H pin package s =
  match import_module H (site_packages s) package with
  | None => ([EvDunderImport package None], s, Ok tt)
  | Some ImportError =>
      let argv := pip_install_argv (sys_executable H) (pin package) in
      let run := pip H (site_packages s) argv in
      ([EvDunderImport package (Some ImportError); EvSubprocess argv run.2],
       set_site_packages run.1 s, from_option Raise (Ok tt) run.2)
  | Some e => ([EvDunderImport package (Some e)], s, Raise e)
  end.
Proof.
  unfold install_step, try_except_ImportError, dunder_import, check_call.
  destruct (import_module H (site_packages s) package) as [[]|]; simpl; try done.
  by destruct (pip H _ _).
Qed.

Lemma propagates_install_step pin package :
  propagates_uncaught (install_step H pin package).
Proof.
  intros s ev e. rewrite install_step_run. unfold trace, outcome.
  destruct (import_module H (site_packages s) package) as [[]|]; simpl;
    intros Hin Hr Hc;
    repeat (apply elem_of_cons in Hin as [->|Hin]); try (by inversion Hin);
    simpl in Hr; first [discriminate Hr | injection Hr as <- | idtac]; try done.
  - destruct Hc. by eexists.
  - by rewrite Hr.
Qed.

Lemma blind_install_step pin package :
  credential_blind (install_step H pin package).
Proof.
  intros s c. rewrite !install_step_run. unfold trace, final, outcome. simpl.
  destruct (import_module H (site_packages s) package) as [[]|]; done.
Qed.

Lemma trace_in_install_step (P : event → Prop) pin package :
  (∀ r, P (EvDunderImport package r)) →
  (∀ r, P (EvSubprocess (pip_install_argv (sys_executable H) (pin package)) r)) →
  trace_in P (install_step H pin package).
Proof.
  intros Hi Hp s. rewrite install_step_run. unfold trace.
  destruct (import_module H (site_packages s) package) as [[]|]; simpl;
    repeat constructor; done.
Qed.

Lemma propagates_import_ module : propagates_uncaught (import_ H module).
Proof. call_propagates. Qed.

Lemma blind_import_ module : credential_blind (import_ H module).
Proof. call_blind. Qed.

Lemma propagates_setup_cell imports pin PACKAGES :
  propagates_uncaught (setup_cell H imports pin PACKAGES).
Proof.
  apply propagates_bind; [apply propagates_for_each, propagates_import_|].
  intros _. apply propagates_for_each, propagates_install_step.
Qed.

Lemma blind_setup_cell imports pin PACKAGES :
  credential_blind (setup_cell H imports pin PACKAGES).
Proof.
  apply blind_bind; [apply blind_for_each, blind_import_|].
  intros _. apply blind_for_each, blind_install_step.
Qed.

Lemma trace_in_setup_cell (P : event → Prop) imports pin PACKAGES :
  (∀ module r, module ∈ imports → P (EvImport module r)) →
  (∀ package r, package ∈ PACKAGES → P (EvDunderImport package r)) →
  (∀ package r, package ∈ PACKAGES →
     P (EvSubprocess (pip_install_argv (sys_executable H) (pin package)) r)) →
  trace_in P (setup_cell H imports pin PACKAGES).
Proof.
  intros Hi Hd Hp. apply trace_in_bind.
  - apply trace_in_for_each. intros module Hm. call_trace_in ltac:(by apply Hi).
  - intros _ _ _. apply trace_in_for_each. intros package Hpk.
    apply trace_in_install_step; intros r; auto.
Qed.
End Setup_facts.

(** ** The set-up cells *)

Section Setup_claims.
Context {obj : Type} (H : Host obj).

(** pip runs in a turn only after the import of that turn raised
    [ImportError], and then it does run, on the pinned requirement. *)
Lemma install_step_events pin package s :
  let run := install_step H pin package s in
  let argv := pip_install_argv (sys_executable H) (pin package) in
  (∀ argv' r, EvSubprocess argv' r ∈ trace run →
     argv' = argv ∧ EvDunderImport package (Some ImportError) ∈ trace run) ∧
  (∀ package', EvDunderImport package' (Some ImportError) ∈ trace run →
     package' = package ∧ ∃ r, EvSubprocess argv r ∈ trace run).
Proof.
  simpl. rewrite install_step_run. unfold trace.
  destruct (import_module H (site_packages s) package) as [[]|]; simpl;
    (split; [intros argv' r Hin | intros package' Hin]);
    repeat (apply elem_of_cons in Hin as [Hin|Hin]); try (by inversion Hin);
    try discriminate Hin; injection Hin as ?; subst; split; try done.
  - left.
  - eexists. right. left.
Qed.

Lemma install_packages_events pin PACKAGES s :
  let run := install_packages H pin PACKAGES s in
  (∀ argv r, EvSubprocess argv r ∈ trace run →
     ∃ package, package ∈ PACKAGES ∧
       argv = pip_install_argv (sys_executable H) (pin package) ∧
       EvDunderImport package (Some ImportError) ∈ trace run) ∧
  (∀ package, EvDunderImport package (Some ImportError) ∈ trace run →
     package ∈ PACKAGES ∧
     ∃ r, EvSubprocess (pip_install_argv (sys_executable H) (pin package)) r ∈ trace run).
Proof.
  simpl. revert s. unfold install_packages.
  induction PACKAGES as [|package PACKAGES IH]; intros s; simpl.
  { split; intros; by match goal with Hin : _ ∈ trace _ |- _ => inversion Hin end. }
  rewrite trace_bind.
  destruct (install_step_events pin package s) as [Hpip Himp].
  destruct (outcome (install_step H pin package s)) as [[]|e].
  - destruct (IH (final (install_step H pin package s))) as [IHpip IHimp].
    split.
    + intros argv r [Hin|Hin]%elem_of_app.
      * destruct (Hpip _ _ Hin) as [-> ?]. exists package.
        split_and!; [left | done | apply elem_of_app; by left].
      * destruct (IHpip _ _ Hin) as (p & ? & ? & ?). exists p.
        split_and!; [by right | done | apply elem_of_app; by right].
    + intros p [Hin|Hin]%elem_of_app.
      * destruct (Himp _ Hin) as [-> [r ?]].
        split; [left | exists r; apply elem_of_app; by left].
      * destruct (IHimp _ Hin) as [? [r ?]].
        split; [by right | exists r; apply elem_of_app; by right].
  - split.
    + intros argv r Hin. destruct (Hpip _ _ Hin) as [-> ?]. exists package.
      split_and!; [left | done | done].
    + intros p Hin. destruct (Himp _ Hin) as [-> [r ?]]. split; [left | by exists r].
Qed.

(** Nothing to install: nothing is run and nothing changes. *)
Lemma install_packages_importable pin PACKAGES s :
  (∀ package, package ∈ PACKAGES → import_module H (site_packages s) package = None) →
  install_packages H pin PACKAGES s
  = (map (λ package, EvDunderImport package None) PACKAGES, s, Ok tt).
Proof.
  unfold install_packages. induction PACKAGES as [|package PACKAGES IH]; intros Hok; [done|].
  simpl. rewrite bind_run, install_step_run, Hok by left.
  rewrite IH; [done|]. intros p Hp. apply Hok. by right.
Qed.
End Setup_claims.

(** C8.  In the set-up cell of every notebook, one turn of the loop first
    tries the import; it calls pip exactly when that import raised
    [ImportError], and then on the requirement the notebook pins; a turn
    whose import succeeds makes no subprocess call and leaves the runtime
    as it was.  Over the whole loop every pip call answers an
    [ImportError] of the import of a listed package and every such
    [ImportError] is answered by a pip call, and when all packages import,
    the cell runs nothing and changes nothing.  Chapter 1 installs a missing
    echopype as [echopype==0.8.4]. *)
Theorem C8_install_on_ImportError {obj : Type} (H : Host obj) :
  Echofish1.setup H = setup_cell H ["sys"; "subprocess"] Echofish1.pin Echofish1.PACKAGES ∧
  Echofish2.setup H = setup_cell H ["sys"; "subprocess"] id Echofish2.PACKAGES ∧
  Echofish3.setup H = setup_cell H ["sys"; "subprocess"] Echofish3.pin Echofish3.PACKAGES ∧
  TCPrimed1a.setup H = setup_cell H ["subprocess"; "sys"] id TCPrimed1a.packages ∧
  (∀ pin package s,
     let run := install_step H pin package s in
     let imported := import_module H (site_packages s) package in
     let argv := pip_install_argv (sys_executable H) (pin package) in
     head (trace run) = Some (EvDunderImport package imported) ∧
     ((∃ argv' r, EvSubprocess argv' r ∈ trace run) ↔ imported = Some ImportError) ∧
     (∀ argv' r, EvSubprocess argv' r ∈ trace run → argv' = argv) ∧
     (imported = None → run = ([EvDunderImport package None], s, Ok tt))) ∧
  (∀ pin PACKAGES s,
     let run := install_packages H pin PACKAGES s in
     (∀ argv r, EvSubprocess argv r ∈ trace run →
        ∃ package, package ∈ PACKAGES ∧
          argv = pip_install_argv (sys_executable H) (pin package) ∧
          EvDunderImport package (Some ImportError) ∈ trace run) ∧
     (∀ package, EvDunderImport package (Some ImportError) ∈ trace run →
        package ∈ PACKAGES ∧
        ∃ r, EvSubprocess (pip_install_argv (sys_executable H) (pin package)) r
               ∈ trace run) ∧
     ((∀ package, package ∈ PACKAGES →
         import_module H (site_packages s) package = None) →
      run = (map (λ package, EvDunderImport package None) PACKAGES, s, Ok tt))) ∧
  Echofish1.pin "echopype" = "echopype==0.8.4" ∧
  (∀ s, import_module H (site_packages s) "echopype" = Some ImportError →
        ∃ r, trace (install_step H Echofish1.pin "echopype" s)
             = [EvDunderImport "echopype" (Some ImportError);
                EvSubprocess [sys_executable H; "-m"; "pip"; "install"; "echopype==0.8.4"] r]).
Proof.
  split_and!; try reflexivity.
  - intros pin package s. simpl.
    destruct (install_step_events H pin package s) as [Hpip Himp].
    split_and!.
    + rewrite install_step_run.
      by destruct (import_module H (site_packages s) package) as [[]|].
    + split.
      * intros (argv & r & Hin). destruct (Hpip _ _ Hin) as [_ Hi]. revert Hi.
        rewrite install_step_run. unfold trace.
        destruct (import_module H (site_packages s) package) as [[]|]; simpl;
          intros Hi; repeat (apply elem_of_cons in Hi as [Hi|Hi]);
          try (by inversion Hi); by simplify_eq.
      * intros E. rewrite install_step_run, E. unfold trace. simpl.
        do 2 eexists. right. left.
    + intros argv r Hin. by destruct (Hpip _ _ Hin).
    + intros E. by rewrite install_step_run, E.
  - intros pin PACKAGES s. simpl.
    destruct (install_packages_events H pin PACKAGES s) as [? ?].
    split_and!; [done | done | apply install_packages_importable].
  - intros s E. rewrite install_step_run, E. unfold trace. simpl. by eexists.
Qed.

(** ** Exceptions *)

(** Walk down a notebook: sequences, loops, the set-up cell, calls. *)
Ltac propagates_tac :=
  repeat first
    [ apply propagates_ret
    | apply propagates_setup_cell
    | apply propagates_for_each; intros ?
    | apply propagates_for_collect; intros ?
    | apply propagates_bind; [|intros ?]
    | progress unfold shows
    | progress call_propagates ].

Section Exceptions.
Context {obj : Type} (H : Host obj).

Lemma propagates_analysis cruise : propagates_uncaught (Echofish2.analysis H cruise).
Proof.
  unfold Echofish2.analysis, Echofish2.select_Sv_time, Echofish2.select_Sv.
  cbv zeta. propagates_tac.
Qed.

Lemma propagates_Echofish1 : propagates_uncaught (Echofish1.notebook H).
Proof.
  unfold Echofish1.notebook, Echofish1.setup, Echofish1.download, Echofish1.open_all,
    Echofish1.compute_Sv.
  propagates_tac.
Qed.

Lemma propagates_Echofish2 : propagates_uncaught (Echofish2.notebook H).
Proof.
  unfold Echofish2.notebook, Echofish2.setup, Echofish2.acquire.
  propagates_tac.
Qed.

Lemma propagates_Echofish3 : propagates_uncaught (Echofish3.notebook H).
Proof.
  unfold Echofish3.notebook, Echofish3.setup, Echofish3.acquire, Echofish3.simplify_cell.
  propagates_tac.
Qed.

Lemma propagates_TCPrimed1a : propagates_uncaught (TCPrimed1a.notebook H).
Proof.
  unfold TCPrimed1a.notebook, TCPrimed1a.setup, TCPrimed1a.read_file_online,
    TCPrimed1a.passive_microwave_group, TCPrimed1a.getitem.
  propagates_tac.
Qed.
End Exceptions.

(** C3, as stated, fails: on a machine without boto3 the set-up cell of
    Chapter 2 sees [__import__("boto3")] raise [ImportError], catches it,
    installs the package and ends without an error. *)
Lemma C3_counterexample :
  ¬ propagates_every_error (Echofish2.setup Demo.host).
Proof.
  intros Hp.
  specialize (Hp Demo.bare (EvDunderImport "boto3" (Some ImportError)) ImportError).
  assert (outcome (Echofish2.setup Demo.host Demo.bare) = Ok tt) as E
    by (vm_compute; reflexivity).
  rewrite E in Hp. discriminate Hp; [by_compute | reflexivity].
Qed.

(** C3, amended.  The one handler the notebooks have is the
    [except ImportError] around [__import__] in the set-up loop.  Whatever
    else a call raises, in a set-up cell (another exception of the import,
    a failing pip, an import statement) or anywhere else in the four
    notebooks, is what the run raises. *)
Theorem C3_only_ImportError_is_caught {obj : Type} (H : Host obj) :
  (∀ imports pin PACKAGES, propagates_uncaught (setup_cell H imports pin PACKAGES)) ∧
  propagates_uncaught (Echofish1.notebook H) ∧
  propagates_uncaught (Echofish2.notebook H) ∧
  propagates_uncaught (Echofish3.notebook H) ∧
  propagates_uncaught (TCPrimed1a.notebook H).
Proof.
  split_and!.
  - apply propagates_setup_cell.
  - apply propagates_Echofish1.
  - apply propagates_Echofish2.
  - apply propagates_Echofish3.
  - apply propagates_TCPrimed1a.
Qed.

(** ** Credentials *)

Ltac blind_tac :=
  repeat first
    [ apply blind_ret
    | apply blind_setup_cell
    | apply blind_for_each; intros ?
    | apply blind_for_collect; intros ?
    | apply blind_bind; [|intros ?]
    | progress unfold shows
    | progress call_blind ].

(** What a client constructor returned, when the next cells depend on it. *)
Ltac returned Hout :=
  try (cbv [outcome boto3_client s3fs_S3FileSystem s3fs_S3Map call snd] in Hout;
       injection Hout as <-);
  try clear Hout.

(** Every event of a notebook satisfies [P]: [setup] proves it of the
    events of the set-up cell, [leaf] of the event of a call. *)
Ltac trace_in_tac setup leaf :=
  repeat first
    [ apply trace_in_ret
    | apply trace_in_setup_cell; [setup..]
    | apply trace_in_for_each; intros ? ?
    | apply trace_in_for_collect; intros ? ?
    | apply trace_in_bind;
      [|let a := fresh "a" in let s := fresh "s" in let Hout := fresh "Hout" in
        intros a s Hout; returned Hout]
    | progress unfold shows
    | progress (call_trace_in leaf) ].

Section Credentials.
Context {obj : Type} (H : Host obj).

Lemma blind_Echofish1 : credential_blind (Echofish1.notebook H).
Proof.
  unfold Echofish1.notebook, Echofish1.setup, Echofish1.download, Echofish1.open_all,
    Echofish1.compute_Sv.
  blind_tac.
Qed.

Lemma blind_Echofish2 : credential_blind (Echofish2.notebook H).
Proof.
  unfold Echofish2.notebook, Echofish2.setup, Echofish2.acquire, Echofish2.analysis,
    Echofish2.select_Sv_time, Echofish2.select_Sv.
  cbv zeta. blind_tac.
Qed.

Lemma blind_Echofish3 : credential_blind (Echofish3.notebook H).
Proof.
  unfold Echofish3.notebook, Echofish3.setup, Echofish3.acquire, Echofish3.simplify_cell.
  blind_tac.
Qed.

Lemma blind_TCPrimed1a : credential_blind (TCPrimed1a.notebook H).
Proof.
  unfold TCPrimed1a.notebook, TCPrimed1a.setup, TCPrimed1a.read_file_online,
    TCPrimed1a.passive_microwave_group, TCPrimed1a.getitem.
  blind_tac.
Qed.

Ltac anonymous_tac := trace_in_tac ltac:(by intros) ltac:(by simpl).

Lemma anonymous_Echofish1 : trace_in anonymous (Echofish1.notebook H).
Proof.
  unfold Echofish1.notebook, Echofish1.setup, Echofish1.download, Echofish1.open_all,
    Echofish1.compute_Sv.
  anonymous_tac.
Qed.

Lemma anonymous_Echofish2 : trace_in anonymous (Echofish2.notebook H).
Proof.
  unfold Echofish2.notebook, Echofish2.setup, Echofish2.acquire, Echofish2.analysis,
    Echofish2.select_Sv_time, Echofish2.select_Sv.
  cbv zeta. anonymous_tac.
Qed.

Lemma anonymous_Echofish3 : trace_in anonymous (Echofish3.notebook H).
Proof.
  unfold Echofish3.notebook, Echofish3.setup, Echofish3.acquire, Echofish3.simplify_cell.
  anonymous_tac.
Qed.

Lemma anonymous_TCPrimed1a : trace_in anonymous (TCPrimed1a.notebook H).
Proof.
  unfold TCPrimed1a.notebook, TCPrimed1a.setup, TCPrimed1a.read_file_online,
    TCPrimed1a.passive_microwave_group, TCPrimed1a.getitem.
  anonymous_tac.
Qed.
End Credentials.

(** C6.  Every retrieval of remote data in the four notebooks goes through
    a client configured to be anonymous (boto3 with
    [signature_version=UNSIGNED], s3fs with [anon=True]) or is a plain
    [requests.get]: no download and no store is ever opened with a signer.
    A run on a machine with other credentials in its environment makes the
    same calls, leaves the same packages and files, and returns the same
    result. *)
Theorem C6_credentials_do_not_matter {obj : Type} (H : Host obj) :
  (trace_in anonymous (Echofish1.notebook H) ∧
   trace_in anonymous (Echofish2.notebook H) ∧
   trace_in anonymous (Echofish3.notebook H) ∧
   trace_in anonymous (TCPrimed1a.notebook H)) ∧
  (∀ s c,
     Echofish1.notebook H (set_credentials c s)
     = (trace (Echofish1.notebook H s),
        set_credentials c (final (Echofish1.notebook H s)),
        outcome (Echofish1.notebook H s))) ∧
  (∀ s c,
     Echofish2.notebook H (set_credentials c s)
     = (trace (Echofish2.notebook H s),
        set_credentials c (final (Echofish2.notebook H s)),
        outcome (Echofish2.notebook H s))) ∧
  (∀ s c,
     Echofish3.notebook H (set_credentials c s)
     = (trace (Echofish3.notebook H s),
        set_credentials c (final (Echofish3.notebook H s)),
        outcome (Echofish3.notebook H s))) ∧
  (∀ s c,
     TCPrimed1a.notebook H (set_credentials c s)
     = (trace (TCPrimed1a.notebook H s),
        set_credentials c (final (TCPrimed1a.notebook H s)),
        outcome (TCPrimed1a.notebook H s))).
Proof.
  split_and!.
  - apply anonymous_Echofish1.
  - apply anonymous_Echofish2.
  - apply anonymous_Echofish3.
  - apply anonymous_TCPrimed1a.
  - apply blind_Echofish1.
  - apply blind_Echofish2.
  - apply blind_Echofish3.
  - apply blind_TCPrimed1a.
Qed.

(** ** Local files *)

Lemma bind_assoc {A B C} (m : Py A) (k : A → Py B) (h : B → Py C) (s : Runtime) :
  (m ≫= (λ a, k a ≫= h)) s = ((m ≫= k) ≫= h) s.
Proof.
  rewrite !bind_run. destruct (m s) as [[t1 s1] [a|e]]; [|done].
  rewrite bind_run. destruct (k a s1) as [[t2 s2] [b|e]]; [|done].
  destruct (h b s2) as [[t3 s3] r]. by rewrite app_assoc.
Qed.

(** The trace of a sequence: the trace of its first part, then, if that
    ended well, the trace of the second. *)
Lemma trace_split {A B} (m : Py A) (k : A → Py B) (s : Runtime) :
  ∃ after,
    trace ((m ≫= k) s) = trace (m s) ++ after ∧
    (after = [] ∨ ∃ a, outcome (m s) = Ok a ∧ after = trace (k a (final (m s)))).
Proof.
  rewrite trace_bind. destruct (outcome (m s)) as [a|e].
  - eexists. split; [done|]. right. by exists a.
  - exists []. split; [by rewrite app_nil_r | by left].
Qed.

Lemma no_file_touched (t : list event) :
  Forall touches_no_file t →
  ∀ path, (File path ∉ written t) ∧ (File path ∉ read t).
Proof.
  unfold touches_no_file, written, read.
  induction 1 as [|ev t Hev _ IH]; intros path; simpl.
  - split; by inversion 1.
  - destruct (IH path) as [IHw IHr].
    assert (File path ∉ writes ev ++ reads ev) as Hno.
    { intros Hin. assert (File path ∈ List.filter is_file (writes ev ++ reads ev)) as Hf
        by by apply list_elem_of_In, filter_In; split; [apply list_elem_of_In|].
      rewrite Hev in Hf. by inversion Hf. }
    rewrite !elem_of_app in *. tauto.
Qed.

(** A loop that ended well ran its body on every element, and every run
    of the body ended well. *)
Lemma for_each_ok_runs {X} (xs : list X) (body : X → Py unit) (s : Runtime) :
  outcome (for_each xs body s) = Ok tt →
  ∀ x, x ∈ xs →
    ∃ s', outcome (body x s') = Ok tt ∧
          ∀ ev, ev ∈ trace (body x s') → ev ∈ trace (for_each xs body s).
Proof.
  revert s. induction xs as [|y xs IH]; intros s; [by inversion 2|].
  simpl. rewrite outcome_bind, trace_bind.
  destruct (outcome (body y s)) as [[]|e] eqn:E; [|done].
  intros Hrest x [->|Hx]%elem_of_cons.
  - exists s. split; [done|]. intros ev Hev. apply elem_of_app. by left.
  - destruct (IH _ Hrest x Hx) as (s' & ? & Hsub). exists s'. split; [done|].
    intros ev Hev. apply elem_of_app. right. by apply Hsub.
Qed.

Ltac no_file_tac := trace_in_tac ltac:(by intros) ltac:(by simpl).

Section Files.
Context {obj : Type} (H : Host obj).

Lemma no_file_Echofish2 : trace_in touches_no_file (Echofish2.notebook H).
Proof.
  unfold Echofish2.notebook, Echofish2.setup, Echofish2.acquire, Echofish2.analysis,
    Echofish2.select_Sv_time, Echofish2.select_Sv.
  cbv zeta. no_file_tac.
Qed.

Lemma no_file_Echofish3 : trace_in touches_no_file (Echofish3.notebook H).
Proof.
  unfold Echofish3.notebook, Echofish3.setup, Echofish3.acquire, Echofish3.simplify_cell.
  no_file_tac.
Qed.

Lemma no_file_TCPrimed1a : trace_in touches_no_file (TCPrimed1a.notebook H).
Proof.
  unfold TCPrimed1a.notebook, TCPrimed1a.setup, TCPrimed1a.read_file_online,
    TCPrimed1a.passive_microwave_group, TCPrimed1a.getitem.
  no_file_tac.
Qed.

Lemma Echofish1_in_two (s : Runtime) :
  Echofish1.notebook H s
  = (Echofish1.until_download H ≫= (λ _, Echofish1.after_download H)) s.
Proof. reflexivity. Qed.

(** Nothing is read from a local file before the downloads are over. *)
Lemma until_download_reads_nothing :
  trace_in (λ ev, ∀ path r, ev ≠ EvReadFile path r) (Echofish1.until_download H).
Proof.
  unfold Echofish1.until_download, Echofish1.setup, Echofish1.download.
  trace_in_tac ltac:(by intros) ltac:(by intros).
Qed.

(** What is read afterwards is one of the six raw files. *)
Lemma after_download_reads_raw_files :
  trace_in (λ ev, ∀ path r, ev = EvReadFile path r → path ∈ Echofish1.file_names)
    (Echofish1.after_download H).
Proof.
  unfold Echofish1.after_download, Echofish1.open_all, Echofish1.compute_Sv.
  trace_in_tac ltac:(by intros)
    ltac:(intros ? ? ?;
          match goal with
          | E : _ = EvReadFile _ _ |- _ =>
              first [discriminate E | by (injection E as ? ?; subst)]
          end).
Qed.

(** When the download cell ended well, each raw file was downloaded. *)
Lemma until_download_ok (s : Runtime) :
  outcome (Echofish1.until_download H s) = Ok tt →
  ∀ file_name, file_name ∈ Echofish1.file_names →
    EvDownload None Echofish1.bucket_name (Echofish1.key_of file_name) file_name None
    ∈ trace (Echofish1.until_download H s).
Proof.
  intros Hok file_name Hf.
  pose proof (run_eta (Echofish1.until_download H) s) as Hrun. rewrite Hok in Hrun.
  unfold Echofish1.until_download at 1, Echofish1.download in Hrun.
  run_ok Hrun.
  match goal with
  | Hc : boto3_client true _ = (_, _, Ok ?c) |- _ => injection Hc as _ _ <-
  end.
  match goal with
  | Hr : for_each _ ?body ?st = (_, _, Ok tt) |- _ =>
      assert (outcome (for_each Echofish1.file_names body st) = Ok tt) as Hloop
        by (by rewrite Hr);
      destruct (for_each_ok_runs _ _ _ Hloop file_name Hf) as (s' & Hdl & Hsub);
      rewrite Hr in Hsub
  end.
  subst. match goal with Ht : trace _ = _ |- _ => rewrite Ht end.
  repeat (apply elem_of_app; right). apply Hsub.
  assert (basename file_name = file_name) as Eb.
  { clear -Hf. repeat (apply elem_of_cons in Hf as [->|Hf]); try (by inversion Hf);
      by vm_compute. }
  revert Hdl. rewrite outcome_bind, trace_bind.
  destruct (outcome (download_file _ _ _ _ _ _)) as [[]|e] eqn:Ed; [|done].
  intros _. apply elem_of_app. left.
  revert Ed. unfold download_file, outcome, trace. simpl. rewrite Eb.
  destruct (s3_get_object H None _ _); [left | done].
Qed.
End Files.

(** C5, as stated, fails: the package environment is state of the machine
    that one notebook writes and another reads.  On a machine without
    boto3, Chapter 1 installs it, and Chapter 2 imports it. *)
Lemma C5_counterexample :
  ¬ isolated (λ s, trace (Echofish1.notebook Demo.host s))
             (λ s, trace (Echofish2.notebook Demo.host s)).
Proof.
  intros Hiso. apply (Hiso Demo.bare Demo.bare (Package "boto3")); by_compute.
Qed.

(** C5, amended.  No local data file is passed between notebooks: for two
    different notebooks, no file one of them writes is a file the other
    reads; Chapters 2 and 3 and TC PRIMED 1a neither read nor write a local
    file at all; and in Chapter 1 no file is read before the download cell
    is over, and every file read after it is a raw file that this same run
    downloaded, anonymously, in that cell. *)
Theorem C5_data_files_are_private {obj : Type} (H : Host obj) :
  (∀ a b, a ∈ notebooks H → b ∈ notebooks H → a.1 ≠ b.1 →
     ∀ s1 s2 path, File path ∈ written (a.2 s1) → File path ∉ read (b.2 s2)) ∧
  (∀ s path, (File path ∉ written (trace (Echofish2.notebook H s))) ∧
             (File path ∉ read (trace (Echofish2.notebook H s)))) ∧
  (∀ s path, (File path ∉ written (trace (Echofish3.notebook H s))) ∧
             (File path ∉ read (trace (Echofish3.notebook H s)))) ∧
  (∀ s path, (File path ∉ written (trace (TCPrimed1a.notebook H s))) ∧
             (File path ∉ read (trace (TCPrimed1a.notebook H s)))) ∧
  (∀ s, ∃ after,
     trace (Echofish1.notebook H s) = trace (Echofish1.until_download H s) ++ after ∧
     (∀ path r, EvReadFile path r ∉ trace (Echofish1.until_download H s)) ∧
     (∀ path r, EvReadFile path r ∈ after →
        EvDownload None Echofish1.bucket_name (Echofish1.key_of path) path None
        ∈ trace (Echofish1.until_download H s))).
Proof.
  assert (∀ s path, (File path ∉ written (trace (Echofish2.notebook H s))) ∧
                    (File path ∉ read (trace (Echofish2.notebook H s)))) as H2
    by (intros s; apply no_file_touched, no_file_Echofish2).
  assert (∀ s path, (File path ∉ written (trace (Echofish3.notebook H s))) ∧
                    (File path ∉ read (trace (Echofish3.notebook H s)))) as H3
    by (intros s; apply no_file_touched, no_file_Echofish3).
  assert (∀ s path, (File path ∉ written (trace (TCPrimed1a.notebook H s))) ∧
                    (File path ∉ read (trace (TCPrimed1a.notebook H s)))) as H4
    by (intros s; apply no_file_touched, no_file_TCPrimed1a).
  split_and!; try done.
  - intros a b Ha Hb Hne s1 s2 path.
    unfold notebooks in Ha, Hb.
    repeat (apply elem_of_cons in Ha as [->|Ha]); try (by inversion Ha);
      repeat (apply elem_of_cons in Hb as [->|Hb]); try (by inversion Hb);
      simpl in *; try done; intros Hw;
      first [ by apply H2 | by apply H3 | by apply H4
            | by apply H2 in Hw | by apply H3 in Hw | by apply H4 in Hw ].
  - intros s.
    destruct (trace_split (Echofish1.until_download H)
                (λ _, Echofish1.after_download H) s) as (after & Ht & Hafter).
    exists after. rewrite Echofish1_in_two. split; [done|]. split.
    + intros path r Hin.
      pose proof (until_download_reads_nothing H s) as Hno.
      rewrite Forall_forall in Hno. by apply (Hno _ Hin path r).
    + intros path r Hin. destruct Hafter as [->|([] & Hok & ->)]; [by inversion Hin|].
      apply until_download_ok; [done|].
      pose proof (after_download_reads_raw_files H
                    (final (Echofish1.until_download H s))) as Hraw.
      rewrite Forall_forall in Hraw. by apply (Hraw _ Hin path r).
Qed.

(** ** Remote data *)

Lemma fetches_app (t1 t2 : list event) : fetches (t1 ++ t2) = fetches t1 ++ fetches t2.
Proof. apply List.filter_app. Qed.

Lemma no_fetch (t : list event) :
  Forall (λ ev, is_fetch ev = false) t → fetches t = [].
Proof.
  induction t as [|ev t IH]; [done|]. intros [Hev Ht]%Forall_cons_1.
  unfold fetches in *. simpl. rewrite Hev. by apply IH.
Qed.

Lemma no_fetch_run {A} (m : Py A) s t s' r :
  trace_in (λ ev, is_fetch ev = false) m → m s = (t, s', r) → fetches t = [].
Proof.
  intros Hm Hrun. apply no_fetch. specialize (Hm s). by rewrite Hrun in Hm.
Qed.

(** The download loop, when it ends well, made one download per element,
    in order; what follows the download in the body fetches nothing. *)
Lemma for_each_download_ok {obj} (H : Host obj) (c : S3Client) (Bucket : string)
    (key name : string → string) (after : string → Py unit)
    (xs : list string) s t s' u :
  (∀ x, trace_in (λ ev, is_fetch ev = false) (after x)) →
  for_each xs (λ x, download_file H c Bucket (key x) (name x) ≫= λ _, after x) s
  = (t, s', Ok u) →
  fetches t = map (λ x, EvDownload (signer c) Bucket (key x) (name x) None) xs.
Proof.
  intros Hafter. destruct u. revert s t. induction xs as [|x xs IH]; intros s t; simpl.
  - by intros [= <- _].
  - intros (t1 & s1 & [] & t2 & Hx & Hrest & ->)%bind_ok.
    apply bind_ok in Hx as (t3 & s3 & [] & t4 & Hd & Ha & ->).
    rewrite !fetches_app, (IH _ _ Hrest), (no_fetch_run _ _ _ _ _ (Hafter x) Ha).
    revert Hd. unfold download_file.
    destruct (s3_get_object H _ _ _); intros Heq; [|discriminate Heq].
    by injection Heq as <- _.
Qed.

Lemma open_zarr_ok {obj} (H : Host obj) (store : S3Map) s t s' ds :
  open_zarr H store s = (t, s', Ok ds) →
  t = [EvOpenZarr (fs_signer (s3 store)) (root store) None].
Proof. unfold open_zarr. simpl. intros [= <- _ E]. by rewrite E. Qed.

Lemma requests_get_ok {obj} (H : Host obj) (url : string) s t s' content :
  requests_get H url s = (t, s', Ok content) → t = [EvHttpGet url None].
Proof. unfold requests_get. simpl. intros [= <- _ E]. by rewrite E. Qed.

(** What each step of a successful run fetched: nothing, for the steps
    that fetch nothing in any run; the event itself, for the others. *)
Ltac fetched :=
  repeat match goal with
  | Hr : open_zarr _ _ _ = (_, _, Ok _) |- _ => apply open_zarr_ok in Hr as ->
  | Hr : requests_get _ _ _ = (_, _, Ok _) |- _ => apply requests_get_ok in Hr as ->
  | Hr : boto3_client _ _ = (_, _, Ok _) |- _ => injection Hr as <- _ <-
  | Hr : s3fs_S3FileSystem _ _ = (_, _, Ok _) |- _ => injection Hr as <- _ <-
  | Hr : s3fs_S3Map _ _ _ = (_, _, Ok _) |- _ => injection Hr as <- _ <-
  | Hr : ?m ?s = (?t, _, Ok _) |- _ =>
      let Hno := fresh "Hno" in
      assert (fetches t = []) as Hno
        by (eapply (no_fetch_run m s t); [|exact Hr];
            trace_in_tac ltac:(by intros) ltac:(by simpl));
      clear Hr
  end.

Section Fetches.
Context {obj : Type} (H : Host obj).

Lemma Echofish1_fetches s a :
  outcome (Echofish1.notebook H s) = Ok a →
  fetches (trace (Echofish1.notebook H s))
  = map (λ file_name,
           EvDownload None Echofish1.bucket_name (Echofish1.key_of file_name)
             (basename file_name) None)
        Echofish1.file_names.
Proof.
  intros Hok. pose proof (run_eta (Echofish1.notebook H) s) as Hrun. rewrite Hok in Hrun.
  unfold Echofish1.notebook at 1, Echofish1.until_download, Echofish1.after_download,
    Echofish1.setup, Echofish1.download, Echofish1.open_all, Echofish1.compute_Sv in Hrun.
  run_ok Hrun.
  match goal with
  | Hc : boto3_client true _ = (_, _, Ok _) |- _ => injection Hc as <- _ <-
  end.
  match goal with
  | Hr : for_each Echofish1.file_names (λ _, download_file _ _ _ _ _ ≫= _) _ = _ |- _ =>
      apply (for_each_download_ok H {| signer := None |} Echofish1.bucket_name
               Echofish1.key_of basename
               (λ _, shows H ["print(os.path.basename(file_name))"])) in Hr as Hdl;
        [|intros ?; trace_in_tac ltac:(by intros) ltac:(by simpl)]
  end.
  fetched. subst. match goal with Ht : trace _ = _ |- _ => rewrite Ht end.
  rewrite !fetches_app, Hdl.
  repeat match goal with Hno : fetches _ = [] |- _ => rewrite Hno; clear Hno end.
  reflexivity.
Qed.

Lemma Echofish2_fetches s a :
  outcome (Echofish2.notebook H s) = Ok a →
  fetches (trace (Echofish2.notebook H s))
  = [EvOpenZarr None Echofish2.s3_zarr_store_path None].
Proof.
  intros Hok. pose proof (run_eta (Echofish2.notebook H) s) as Hrun. rewrite Hok in Hrun.
  unfold Echofish2.notebook at 1, Echofish2.setup, Echofish2.acquire in Hrun. run_ok Hrun.
  fetched. subst. match goal with Ht : trace _ = _ |- _ => rewrite Ht end.
  rewrite !fetches_app.
  repeat match goal with Hno : fetches _ = [] |- _ => rewrite Hno; clear Hno end.
  reflexivity.
Qed.

Lemma Echofish3_fetches s a :
  outcome (Echofish3.notebook H s) = Ok a →
  fetches (trace (Echofish3.notebook H s))
  = [EvOpenZarr None Echofish3.s3_zarr_store_path None].
Proof.
  intros Hok. pose proof (run_eta (Echofish3.notebook H) s) as Hrun. rewrite Hok in Hrun.
  unfold Echofish3.notebook at 1, Echofish3.setup, Echofish3.acquire,
    Echofish3.simplify_cell in Hrun. run_ok Hrun.
  fetched. subst. match goal with Ht : trace _ = _ |- _ => rewrite Ht end.
  rewrite !fetches_app.
  repeat match goal with Hno : fetches _ = [] |- _ => rewrite Hno; clear Hno end.
  reflexivity.
Qed.

Lemma TCPrimed1a_fetches s a :
  outcome (TCPrimed1a.notebook H s) = Ok a →
  fetches (trace (TCPrimed1a.notebook H s))
  = [EvHttpGet (TCPrimed1a.NODD_URL +:+ TCPrimed1a.FILE_NAME) None].
Proof.
  intros Hok. pose proof (run_eta (TCPrimed1a.notebook H) s) as Hrun. rewrite Hok in Hrun.
  unfold TCPrimed1a.notebook at 1, TCPrimed1a.setup, TCPrimed1a.read_file_online,
    TCPrimed1a.passive_microwave_group, TCPrimed1a.getitem in Hrun. run_ok Hrun.
  fetched. subst. match goal with Ht : trace _ = _ |- _ => rewrite Ht end.
  rewrite !fetches_app.
  repeat match goal with Hno : fetches _ = [] |- _ => rewrite Hno; clear Hno end.
  reflexivity.
Qed.
End Fetches.

(** C2, as stated, fails: a complete run of Chapter 1 downloads six raw
    files, one per entry of [file_names]. *)
Lemma C2_counterexample : ¬ fetches_one (Echofish1.notebook Demo.host).
Proof.
  intros Hone.
  assert (outcome (Echofish1.notebook Demo.host Demo.ready) = Ok "Dataset") as Hok
    by (vm_compute; reflexivity).
  specialize (Hone Demo.ready "Dataset" Hok). vm_compute in Hone. discriminate Hone.
Qed.

(** C2, amended.  A complete run of Chapter 2 and of Chapter 3 opens one
    remote Zarr store, the level-2 store of cruise SH1507, and a complete
    run of TC PRIMED 1a fetches one NetCDF file; Chapter 1 downloads the six
    raw files of [file_names], in that order, each under its own name. *)
Theorem C2_one_dataset_except_Chapter_1 {obj : Type} (H : Host obj) :
  fetches_one (Echofish2.notebook H) ∧
  fetches_one (Echofish3.notebook H) ∧
  fetches_one (TCPrimed1a.notebook H) ∧
  (∀ s a, outcome (Echofish2.notebook H s) = Ok a →
     fetches (trace (Echofish2.notebook H s))
     = [EvOpenZarr None
          "noaa-wcsd-zarr-pds/level_2/Bell_M._Shimada/SH1507/EK60/SH1507.zarr" None]) ∧
  (∀ s a, outcome (Echofish3.notebook H s) = Ok a →
     fetches (trace (Echofish3.notebook H s))
     = [EvOpenZarr None
          "noaa-wcsd-zarr-pds/level_2/Bell_M._Shimada/SH1507/EK60/SH1507.zarr" None]) ∧
  (∀ s a, outcome (TCPrimed1a.notebook H s) = Ok a →
     fetches (trace (TCPrimed1a.notebook H s))
     = [EvHttpGet (TCPrimed1a.NODD_URL +:+ TCPrimed1a.FILE_NAME) None]) ∧
  (∀ s a, outcome (Echofish1.notebook H s) = Ok a →
     fetches (trace (Echofish1.notebook H s))
     = map (λ file_name,
              EvDownload None "noaa-wcsd-pds"
                ("data/raw/Bell_M._Shimada/SH1507/EK60/" +:+ file_name) file_name None)
           Echofish1.file_names) ∧
  length Echofish1.file_names = 6%nat.
Proof.
  split_and!.
  - intros s a Hok. by rewrite (Echofish2_fetches H s a Hok).
  - intros s a Hok. by rewrite (Echofish3_fetches H s a Hok).
  - intros s a Hok. by rewrite (TCPrimed1a_fetches H s a Hok).
  - apply Echofish2_fetches.
  - apply Echofish3_fetches.
  - apply TCPrimed1a_fetches.
  - intros s a Hok. by rewrite (Echofish1_fetches H s a Hok).
  - reflexivity.
Qed.

(** On the small world, with every package installed. *)
Lemma C2_one_dataset_except_Chapter_1_witness :
  outcome (Echofish1.notebook Demo.host Demo.ready) = Ok "Dataset" ∧
  length (fetches (trace (Echofish1.notebook Demo.host Demo.ready))) = 6%nat ∧
  (∃ a, outcome (Echofish2.notebook Demo.host Demo.ready) = Ok a) ∧
  length (fetches (trace (Echofish2.notebook Demo.host Demo.ready))) = 1%nat.
Proof.
  assert (outcome (Echofish1.notebook Demo.host Demo.ready) = Ok "Dataset") as Hok1
    by (vm_compute; reflexivity).
  assert (∃ a, outcome (Echofish2.notebook Demo.host Demo.ready) = Ok a) as [a Hok2]
    by (eexists; vm_compute; reflexivity).
  destruct (C2_one_dataset_except_Chapter_1 Demo.host)
    as (Hone & _ & _ & _ & _ & _ & Hsix & _).
  split_and!.
  - exact Hok1.
  - by rewrite (Hsix _ _ Hok1).
  - by exists a.
  - exact (Hone _ _ Hok2).
Defined.

(** ** Single calls *)

(** C4, as stated, fails for the Zarr slice: it is not one application of
    one library function but [sel] followed by [where]. *)
Lemma C4_counterexample :
  ¬ ∃ (function : string) (application : result XArray.DataArray),
      ∀ s, Echofish2.select_Sv_time Demo.cruise 38000 (Echofish2.select_times Demo.cruise) s
           = single_call function application s.
Proof.
  intros (function & application & Heq). specialize (Heq Demo.bare).
  apply (f_equal (λ run, length (trace run))) in Heq.
  vm_compute in Heq. discriminate Heq.
Qed.

(** C4, amended.  Computing Sv, simplifying the line and opening the
    NetCDF group are each one application of one library function
    (echopype's [compute_Sv], Shapely's [simplify], netCDF4's indexing of a
    dataset): the cell makes that one call and returns, or raises, what the
    call does.  Selecting a slice of the Zarr store is two calls into
    xarray, [sel] and then [where] with [drop=True] on its result, and
    nothing else. *)
Theorem C4_library_calls {obj : Type} (H : Host obj) :
  (∀ combined_echodata s,
     Echofish1.compute_Sv H combined_echodata s
     = single_call "echopype.calibrate.compute_Sv"
         (ep_compute_Sv H combined_echodata) s) ∧
  (∀ linestring s,
     Echofish3.simplify_cell H linestring s
     = single_call "shapely.LineString.simplify"
         (Ok (Shapely.simplify (geos_distance H) (geos_veto H) linestring
                Shapely.tolerance_001 true)) s) ∧
  (∀ DS s,
     TCPrimed1a.passive_microwave_group H DS s
     = single_call "netCDF4.Dataset.__getitem__" (nc_getitem H DS "passive_microwave") s) ∧
  (∀ cruise f cond s,
     Echofish2.select_Sv_time cruise f cond s
     = (single_call "xarray.Dataset.sel" (XArray.sel cruise f)
          ≫= λ ds, single_call "xarray.Dataset.where" (XArray.where_drop_time ds cond)) s
     ∧ outcome (Echofish2.select_Sv_time cruise f cond s)
       = result_bind (XArray.sel cruise f) (λ ds, XArray.where_drop_time ds cond)) ∧
  (∀ cruise f cond s,
     Echofish2.select_Sv cruise f cond s
     = (single_call "xarray.Dataset.sel" (XArray.sel cruise f)
          ≫= λ ds, single_call "xarray.Dataset.where" (XArray.where_drop_2d ds cond)) s
     ∧ outcome (Echofish2.select_Sv cruise f cond s)
       = result_bind (XArray.sel cruise f) (λ ds, XArray.where_drop_2d ds cond)).
Proof.
  split_and!; try done.
  - intros cruise f cond s. split; [done|].
    unfold Echofish2.select_Sv_time. rewrite outcome_bind. unfold call, outcome. simpl.
    by destruct (XArray.sel cruise f).
  - intros cruise f cond s. split; [done|].
    unfold Echofish2.select_Sv. rewrite outcome_bind. unfold call, outcome. simpl.
    by destruct (XArray.sel cruise f).
Qed.

(** ** Line simplification *)

Section Simplification.
Import Shapely.
Variable distance : point → point → point → float.
Variable veto : list point → point → point → bool.
Variable line : list point.
Variable tolerance : float.
Variable preserve_topology : bool.

Local Abbreviation rdp := (rdp distance veto line tolerance preserve_topology).

Lemma last_cons_default (q d : point) (rest : list point) :
  List.last (q :: rest) d = List.last rest q.
Proof.
  revert q d. induction rest as [|r rest IH]; intros q d; [done|].
  change (List.last (r :: rest) d = List.last (r :: rest) q).
  by rewrite !IH.
Qed.

(** A line of two points or more is its interior between its two ends. *)
Lemma interior_and_end (p q : point) (rest : list point) :
  p :: q :: rest = removelast (p :: q :: rest) ++ [List.last rest q].
Proof.
  rewrite <- (last_cons_default q p rest).
  change (List.last (q :: rest) p) with (List.last (p :: q :: rest) p).
  by apply app_removelast_last.
Qed.

(** The furthest point is a point of the interior. *)
Lemma furthest_lt (a b : point) (interior : list point) (i : nat) (best : nat * float) :
  (best.1 < i + length interior)%nat →
  ((furthest distance a b interior i best).1 < i + length interior)%nat.
Proof.
  revert i best. induction interior as [|p interior IH]; intros i best Hbest; [done|].
  simpl. replace (i + S (length interior))%nat with (S i + length interior)%nat by lia.
  apply IH. destruct (SFltb _ _); simpl in *; lia.
Qed.

Lemma sublist_tail (x : point) (l k : list point) :
  x :: l `sublist_of` x :: k → l `sublist_of` k.
Proof.
  intros [Hs|(l' & [= <-] & Hs)]%sublist_cons_r; [|done].
  apply sublist_cons_l in Hs as (k1 & k2 & -> & Hs).
  by apply sublist_inserts_l, sublist_cons.
Qed.

(** The simplified line is a subsequence of the line, with the same first
    and the same last point. *)
Lemma rdp_subsequence (pts : list point) :
  rdp pts `sublist_of` pts ∧ head (rdp pts) = head pts ∧ last (rdp pts) = last pts.
Proof.
  induction pts as [pts IH] using (induction_ltof1 _ (@length point)).
  unfold ltof in IH.
  destruct pts as [|a [|p [|q rest]]]; simp rdp; [done..|].
  cbv zeta.
  set (b := List.last rest q). set (interior := removelast (p :: q :: rest)).
  set (kd := furthest distance a b interior 0 (O, minus_one)).
  assert (p :: q :: rest = interior ++ [b]) as Hpts by apply interior_and_end.
  assert (length interior = S (length rest)) as Hlen.
  { pose proof (f_equal length Hpts) as Hl. rewrite length_app in Hl.
    change (S (S (length rest)) = length interior + 1)%nat in Hl. lia. }
  rewrite Hpts.
  destruct (flatten _ _ _ _ _ _ _).
  { split_and!; [|done|by rewrite app_comm_cons, last_snoc].
    apply sublist_skip, sublist_inserts_l. done. }
  assert (kd.1 < length interior)%nat as Hk.
  { apply (furthest_lt a b interior 0). simpl. lia. }
  destruct (lookup_lt_is_Some_2 interior kd.1 Hk) as [x Hx].
  destruct (IH (a :: take (S kd.1) interior)) as (HLs & HLh & HLl).
  { cbn [length]. rewrite length_take. lia. }
  destruct (IH (drop kd.1 interior ++ [b])) as (HRs & HRh & HRl).
  { rewrite length_app, length_drop. cbn [length]. lia. }
  assert (last (a :: take (S kd.1) interior) = Some x) as EL
    by by rewrite (take_S_r _ _ _ Hx), app_comm_cons, last_snoc.
  assert (drop kd.1 interior ++ [b] = x :: (drop (S kd.1) interior ++ [b])) as ER
    by by rewrite (drop_S _ _ _ Hx).
  rewrite EL in HLl. rewrite last_snoc in HRl.
  destruct (rdp (drop kd.1 interior ++ [b])) as [|x' R']; [by rewrite ER in HRh|].
  rewrite ER in HRs, HRh. injection HRh as ->. simpl tail.
  split_and!.
  - rewrite <- (take_drop (S kd.1) interior) at 2.
    rewrite <- app_assoc. apply (sublist_app _ (a :: _)); [done|].
    by apply (sublist_tail x).
  - by destruct (rdp (a :: take (S kd.1) interior)).
  - rewrite (app_comm_cons interior), last_snoc, last_app.
    rewrite last_cons in HRl. destruct (last R'); [done|]. congruence.
Qed.
End Simplification.

(** C9.  Line simplification in Chapter 3 never adds points: the
    simplified line has at most as many coordinates as the line, its
    coordinates are a subsequence of the line's, in the same order, and the
    first and the last coordinate of the line are kept. *)
Theorem C9_simplify_never_adds_points {obj : Type} (H : Host obj)
    (linestring : list Shapely.point) :
  let lineSimplified := Echofish3.lineSimplified H linestring in
  (length lineSimplified ≤ length linestring)%nat ∧
  lineSimplified `sublist_of` linestring ∧
  head lineSimplified = head linestring ∧
  last lineSimplified = last linestring.
Proof.
  simpl. unfold Echofish3.lineSimplified, Shapely.simplify.
  destruct (rdp_subsequence (geos_distance H) (geos_veto H) linestring
              Shapely.tolerance_001 true linestring) as (Hsub & Hhead & Hlast).
  split_and!; try done. by apply sublist_length.
Qed.

(** * Further properties *)

(** ** The set-up loop, when pip fails and when it is run again *)

Lemma for_each_app {X} (xs ys : list X) (body : X → Py unit) (s : Runtime) :
  for_each (xs ++ ys) body s = (for_each xs body ≫= λ _, for_each ys body) s.
Proof.
  revert s. induction xs as [|x xs IH]; intros s; simpl.
  - rewrite bind_run. simpl. by destruct (for_each ys body s) as [[t s'] r].
  - rewrite <- bind_assoc, !(bind_run (body x)).
    destruct (body x s) as [[t1 s1] [[]|e]]; [|done]. by rewrite IH.
Qed.

(** X1.  The set-up loop stops at the first package that pip fails to
    install: when the turns for the packages before it ended well, its
    import raises [ImportError] and pip fails with [e], the loop raises [e]
    right there, whatever packages come after it; they are neither imported
    nor installed, and the environment is as pip left it. *)
Theorem setup_stops_at_the_first_failure {obj : Type} (H : Host obj)
    (pin : string → string) (before after : list string) (package : string)
    (s s1 : Runtime) (t1 : list event) (e : exn) :
  let argv := pip_install_argv (sys_executable H) (pin package) in
  install_packages H pin before s = (t1, s1, Ok tt) →
  import_module H (site_packages s1) package = Some ImportError →
  (pip H (site_packages s1) argv).2 = Some e →
  install_packages H pin (before ++ package :: after) s
  = (t1 ++ [EvDunderImport package (Some ImportError); EvSubprocess argv (Some e)],
     set_site_packages (pip H (site_packages s1) argv).1 s1,
     Raise e).
Proof.
  intros argv Hbefore Himport Hpip. unfold install_packages in *.
  rewrite for_each_app, bind_run, Hbefore. simpl.
  rewrite bind_run, install_step_run, Himport. simpl. fold argv. by rewrite Hpip.
Qed.

(** Chapter 2 on a fresh machine without a network: boto3 is the first
    package and the last event. *)
Lemma setup_stops_at_the_first_failure_witness :
  install_packages Elsewhere.offline id Echofish2.PACKAGES Demo.bare
  = ([EvDunderImport "boto3" (Some ImportError);
      EvSubprocess ["/usr/bin/python3"; "-m"; "pip"; "install"; "boto3"]
        (Some CalledProcessError)],
     Demo.bare, Raise CalledProcessError).
Proof.
  exact (setup_stops_at_the_first_failure Elsewhere.offline id [] (tail Echofish2.PACKAGES)
           "boto3" Demo.bare Demo.bare [] CalledProcessError
           eq_refl eq_refl eq_refl).
Defined.

Section Setup_again.
Context {obj : Type} (H : Host obj).
Variable pin : string → string.
Variable all : list string.

(** pip, when it succeeds, makes the package importable and breaks no
    package of the list. *)
Hypothesis pip_installs : ∀ site package,
  package ∈ all →
  let run := pip H site (pip_install_argv (sys_executable H) (pin package)) in
  run.2 = None →
  import_module H run.1 package = None ∧
  ∀ other, other ∈ all → import_module H site other = None →
           import_module H run.1 other = None.

Lemma install_packages_then_importable (PACKAGES : list string) s t s' :
  (∀ package, package ∈ PACKAGES → package ∈ all) →
  install_packages H pin PACKAGES s = (t, s', Ok tt) →
  (∀ other, other ∈ all → import_module H (site_packages s) other = None →
            import_module H (site_packages s') other = None) ∧
  (∀ package, package ∈ PACKAGES → import_module H (site_packages s') package = None).
Proof.
  unfold install_packages. revert s t.
  induction PACKAGES as [|package PACKAGES IH]; intros s t Hall; simpl.
  { intros [= _ <-]. split; [done|]. by inversion 1. }
  intros (t1 & s1 & [] & t2 & Hstep & Hrest & _)%bind_ok.
  destruct (IH s1 t2) as [IHkeeps IHall]; [intros p Hp; apply Hall; by right | done |].
  assert (package ∈ all) as Hpk by (apply Hall; left).
  rewrite install_step_run in Hstep.
  assert ((∀ other, other ∈ all → import_module H (site_packages s) other = None →
                    import_module H (site_packages s1) other = None) ∧
          import_module H (site_packages s1) package = None) as [Hkeeps Hnow].
  { destruct (import_module H (site_packages s) package) as [[]|] eqn:Ei;
      try discriminate Hstep.
    - simpl in Hstep. pose proof (pip_installs (site_packages s) package Hpk) as K.
      simpl in K.
      destruct (pip H (site_packages s) _) as [site [e|]]; [discriminate Hstep|].
      injection Hstep as _ <-. simpl in *. destruct (K eq_refl) as [K1 K2].
      split; [|done]. intros other Ho Hi. by apply K2.
    - by injection Hstep as _ <-. }
  split.
  - intros other Ho Hi. by apply IHkeeps, Hkeeps.
  - intros p [->|Hp]%elem_of_cons; [|by apply IHall].
    by apply IHkeeps.
Qed.
End Setup_again.

(** X2.  Running the set-up loop again installs nothing.  If a pip that
    succeeds makes its package importable and leaves the other packages of
    the list importable, then after a run of the loop that ended well a
    second run finds every package, makes no subprocess call and changes
    nothing. *)
Theorem setup_again_installs_nothing {obj : Type} (H : Host obj)
    (pin : string → string) (PACKAGES : list string) (s s' : Runtime) (t : list event) :
  (∀ site package, package ∈ PACKAGES →
     let run := pip H site (pip_install_argv (sys_executable H) (pin package)) in
     run.2 = None →
     import_module H run.1 package = None ∧
     ∀ other, other ∈ PACKAGES → import_module H site other = None →
              import_module H run.1 other = None) →
  install_packages H pin PACKAGES s = (t, s', Ok tt) →
  install_packages H pin PACKAGES s'
  = (map (λ package, EvDunderImport package None) PACKAGES, s', Ok tt).
Proof.
  intros Hpip Hrun. apply install_packages_importable.
  by apply (install_packages_then_importable H pin PACKAGES Hpip PACKAGES s t s').
Qed.

(** Chapter 1 on a fresh machine: three failed imports and three
    installations the first time, three imports the second. *)
Lemma setup_again_installs_nothing_witness :
  ∃ t s',
    install_packages Demo.host Echofish1.pin Echofish1.PACKAGES Demo.bare = (t, s', Ok tt) ∧
    length t = 6%nat ∧
    install_packages Demo.host Echofish1.pin Echofish1.PACKAGES s'
    = (map (λ package, EvDunderImport package None) Echofish1.PACKAGES, s', Ok tt).
Proof.
  eexists _, _.
  assert (install_packages Demo.host Echofish1.pin Echofish1.PACKAGES Demo.bare
          = (_, _, Ok tt)) as Hrun by (vm_compute; reflexivity).
  split; [exact Hrun|]. split; [reflexivity|].
  refine (setup_again_installs_nothing Demo.host Echofish1.pin Echofish1.PACKAGES
            _ _ _ _ Hrun).
  clear. intros site package Hp. simpl. intros _.
  unfold Demo.imports_ok, Demo.pip_ok. simpl.
  assert (∀ q, q ∈ Echofish1.PACKAGES →
            requirement_name (Echofish1.pin q) = q ∧ module_package q = q) as Hq.
  { clear. intros q Hq. repeat (apply elem_of_cons in Hq as [->|Hq]);
      [by vm_compute.. | by inversion Hq]. }
  destruct (Hq _ Hp) as [-> ->]. split.
  - case_bool_decide; [done|]. rewrite bool_decide_true; [done|].
    apply elem_of_union. left. by apply elem_of_singleton.
  - intros other Ho. destruct (Hq _ Ho) as [_ ->].
    case_bool_decide; [done|]. case_bool_decide as Hin; [|done]. intros _.
    rewrite bool_decide_true; [done|]. apply elem_of_union. by right.
Defined.

(** ** Local files *)

Lemma keeps_ret {A} (P : string → Prop) (a : A) : keeps_files P (mret a).
Proof. by intros s path _. Qed.

Section Keeping.
Context {A B : Type} (P : string → Prop).

Lemma keeps_bind (m : Py A) (k : A → Py B) :
  keeps_files P m → (∀ a, keeps_files P (k a)) → keeps_files P (m ≫= k).
Proof.
  intros Hm Hk s path HP. rewrite final_bind.
  destruct (outcome (m s)) as [a|e]; [|by apply Hm].
  by rewrite Hk, Hm.
Qed.
End Keeping.

Section Keeping_loops.
Context {X A : Type} (P : string → Prop).

Lemma keeps_for_each (xs : list X) (body : X → Py unit) :
  (∀ x, x ∈ xs → keeps_files P (body x)) → keeps_files P (for_each xs body).
Proof.
  induction xs as [|x xs IH]; intros Hb; simpl; [apply keeps_ret|].
  apply keeps_bind; [apply Hb; left|]. intros _. apply IH.
  intros y Hy. apply Hb. by right.
Qed.

Lemma keeps_for_collect (xs : list X) (body : X → Py A) :
  (∀ x, x ∈ xs → keeps_files P (body x)) → keeps_files P (for_collect xs body).
Proof.
  induction xs as [|x xs IH]; intros Hb; simpl; [apply keeps_ret|].
  apply keeps_bind; [apply Hb; left|]. intros a.
  apply keeps_bind; [apply IH; intros y Hy; apply Hb; by right|].
  intros l. apply keeps_ret.
Qed.
End Keeping_loops.

(** A call keeps the files: [leaf] shows that the one path a download, a
    removal or a store writes is not a path to keep. *)
Ltac call_keeps leaf :=
  let s := fresh "s" in let path := fresh "path" in let HP := fresh "HP" in
  intros s path HP; unfold_calls; simpl; repeat case_match; simpl;
  first [ reflexivity
        | apply lookup_insert_ne; leaf
        | apply lookup_delete_ne; leaf ].

Section Keeping_setup.
Context {obj : Type} (H : Host obj) (P : string → Prop).

Lemma keeps_install_step pin package : keeps_files P (install_step H pin package).
Proof.
  intros s path _. rewrite install_step_run. unfold final.
  by destruct (import_module H (site_packages s) package) as [[]|].
Qed.

Lemma keeps_setup_cell imports pin PACKAGES :
  keeps_files P (setup_cell H imports pin PACKAGES).
Proof.
  apply keeps_bind.
  - apply keeps_for_each. intros module _. call_keeps idtac.
  - intros _. apply keeps_for_each. intros package _. apply keeps_install_step.
Qed.
End Keeping_setup.

Ltac keeps_tac leaf :=
  repeat first
    [ apply keeps_ret
    | apply keeps_setup_cell
    | apply keeps_for_each; intros ? ?
    | apply keeps_for_collect; intros ? ?
    | apply keeps_bind; [|intros ?]
    | progress unfold shows
    | progress (call_keeps leaf) ].

Lemma keeps_all {A} (m : Py A) (s : Runtime) :
  keeps_files (λ _, True) m → files (final (m s)) = files s.
Proof. intros Hm. apply map_eq. intros path. by apply Hm. Qed.

Section Chapter1_files.
Context {obj : Type} (H : Host obj).

(** A statement that only shows something leaves the runtime alone. *)
Lemma shows_final (what : list string) (s : Runtime) : final (shows H what s) = s.
Proof.
  unfold shows. revert s. induction what as [|statement what IH]; intros s; [done|].
  simpl. rewrite final_bind. unfold call at 1 2, outcome, final at 2. simpl.
  destruct (render H statement); [apply IH | done].
Qed.


(** The files after a download loop that ended well. *)
Lemma download_loop_files (c : S3Client) (Bucket : string) (key name : string → string)
    (after : string → Py unit) (xs : list string) s t s' :
  (∀ x s0, final (after x s0) = s0) →
  for_each xs (λ x, download_file H c Bucket (key x) (name x) ≫= λ _, after x) s
  = (t, s', Ok tt) →
  NoDup (map name xs) →
  ∀ x, x ∈ xs →
    ∃ content, s3_get_object H (signer c) Bucket (key x) = Ok content ∧
               files s' !! name x = Some content.
Proof.
  intros Hafter. revert s t. induction xs as [|x xs IH]; intros s t; simpl.
  { intros _ _ x Hx. by inversion Hx. }
  intros (t1 & s1 & [] & t2 & Hx & Hrest & _)%bind_ok [Hnew Hnd]%NoDup_cons.
  apply bind_ok in Hx as (t3 & s3 & [] & t4 & Hd & Ha & _).
  assert (s1 = s3) as -> by (by rewrite <- (Hafter x s3), Ha).
  assert (∀ path, path ∉ map name xs → files s' !! path = files s3 !! path) as Hframe.
  { clear -Hafter Hrest. revert s3 t2 Hrest.
    induction xs as [|y xs IH]; intros s3 t2; simpl; [by intros [= _ <-]|].
    intros (t1 & s1 & [] & t5 & Hy & Hrest & _)%bind_ok path Hpath.
    apply bind_ok in Hy as (t3 & s4 & [] & t4 & Hd & Ha & _).
    assert (s1 = s4) as -> by (by rewrite <- (Hafter y s4), Ha).
    rewrite (IH _ _ Hrest) by (intros Hin; apply Hpath; by right).
    unfold download_file in Hd. destruct (s3_get_object H _ _ _); [|discriminate Hd].
    injection Hd as _ <-. simpl. apply lookup_insert_ne. intros <-. apply Hpath. left. }
  unfold download_file in Hd.
  destruct (s3_get_object H (signer c) Bucket (key x)) as [content|e] eqn:Eget;
    [|discriminate Hd].
  injection Hd as _ E. intros y [->|Hy]%elem_of_cons.
  - exists content. split; [done|]. rewrite Hframe by done. subst s3. simpl.
    apply lookup_insert_eq.
  - by apply (IH _ _ Hrest).
Qed.

Lemma basename_file_names (file_name : string) :
  file_name ∈ Echofish1.file_names → basename file_name = file_name.
Proof.
  intros Hf. repeat (apply elem_of_cons in Hf as [->|Hf]); try (by inversion Hf);
    by vm_compute.
Qed.



Lemma keeps_until_download :
  keeps_files (λ path, path ∉ Echofish1.file_names) (Echofish1.until_download H).
Proof.
  unfold Echofish1.until_download, Echofish1.setup, Echofish1.download.
  keeps_tac ltac:(
    idtac;
    match goal with
    | Hin : ?x ∈ Echofish1.file_names |- basename ?x ≠ _ =>
        rewrite (basename_file_names _ Hin); by intros <-
    end).
Qed.

Lemma keeps_after_download :
  keeps_files (λ path, path ≠ temp_zarr) (Echofish1.after_download H).
Proof.
  unfold Echofish1.after_download, Echofish1.open_all, Echofish1.compute_Sv.
  keeps_tac ltac:(by intros <-).
Qed.

Lemma keeps_Echofish2 : keeps_files (λ _, True) (Echofish2.notebook H).
Proof.
  unfold Echofish2.notebook, Echofish2.setup, Echofish2.acquire, Echofish2.analysis,
    Echofish2.select_Sv_time, Echofish2.select_Sv.
  cbv zeta. keeps_tac idtac.
Qed.

Lemma keeps_Echofish3 : keeps_files (λ _, True) (Echofish3.notebook H).
Proof.
  unfold Echofish3.notebook, Echofish3.setup, Echofish3.acquire, Echofish3.simplify_cell.
  keeps_tac idtac.
Qed.

Lemma keeps_TCPrimed1a : keeps_files (λ _, True) (TCPrimed1a.notebook H).
Proof.
  unfold TCPrimed1a.notebook, TCPrimed1a.setup, TCPrimed1a.read_file_online,
    TCPrimed1a.passive_microwave_group, TCPrimed1a.getitem.
  keeps_tac idtac.
Qed.

(** After the download cell, each raw file holds what the bucket
    returned for its key. *)
Lemma until_download_files (s : Runtime) t s' :
  Echofish1.until_download H s = (t, s', Ok tt) →
  ∀ file_name, file_name ∈ Echofish1.file_names →
    ∃ content,
      s3_get_object H None Echofish1.bucket_name (Echofish1.key_of file_name) = Ok content ∧
      files s' !! file_name = Some content.
Proof.
  unfold Echofish1.until_download, Echofish1.download. intros Hrun. run_ok Hrun.
  match goal with
  | Hc : boto3_client true _ = (_, _, Ok _) |- _ => injection Hc as _ _ <-
  end.
  intros file_name Hf.
  destruct (download_loop_files {| signer := None |} Echofish1.bucket_name Echofish1.key_of
              basename (λ _, shows H ["print(os.path.basename(file_name))"])
              Echofish1.file_names _ _ _ (λ _, shows_final _) Hrun) with file_name
    as (content & Hget & Hfile); [by_compute | done |].
  exists content. split; [done|]. by rewrite (basename_file_names _ Hf) in Hfile.
Qed.

End Chapter1_files.

(** X3.  When the cells of Chapter 1 up to the download cell ended well,
    each of the six raw files is on disk under its own name and holds what
    the bucket returned for its key, and the notebook has changed no other
    file. *)
Theorem downloaded_files_are_on_disk {obj : Type} (H : Host obj) (s s' : Runtime)
    (t : list event) :
  Echofish1.until_download H s = (t, s', Ok tt) →
  (∀ file_name, file_name ∈ Echofish1.file_names →
     ∃ content,
       s3_get_object H None Echofish1.bucket_name (Echofish1.key_of file_name) = Ok content ∧
       files s' !! file_name = Some content) ∧
  (∀ path, path ∉ Echofish1.file_names → files s' !! path = files s !! path).
Proof.
  intros Hrun. split.
  - by apply (until_download_files H s t).
  - intros path Hpath. pose proof (keeps_until_download H s path Hpath) as Hk.
    by rewrite Hrun in Hk.
Qed.

(** On a machine with everything installed and a bucket of empty files:
    afterwards each raw file is there, and empty. *)
Lemma downloaded_files_are_on_disk_witness :
  outcome (Echofish1.until_download Demo.host Demo.ready) = Ok tt ∧
  ∀ file_name, file_name ∈ Echofish1.file_names →
    files (final (Echofish1.until_download Demo.host Demo.ready)) !! file_name = Some [].
Proof.
  assert (outcome (Echofish1.until_download Demo.host Demo.ready) = Ok tt) as Hok
    by (vm_compute; reflexivity).
  split; [exact Hok|].
  pose proof (run_eta (Echofish1.until_download Demo.host) Demo.ready) as Hrun.
  rewrite Hok in Hrun.
  destruct (downloaded_files_are_on_disk Demo.host _ _ _ Hrun) as [Hnew _].
  intros file_name Hf. destruct (Hnew file_name Hf) as (content & Hget & Hfile).
  simpl in Hget. injection Hget as <-. exact Hfile.
Defined.



(** X5.  What the notebooks leave alone on disk, in every run, complete
    or not: Chapter 1 itself writes and removes no file other than the six
    raw files and the combined Zarr store; Chapters 2 and 3 and TC PRIMED 1a
    write and remove no file at all.  (What pip installs is the package
    environment, not a file of the notebook.) *)
Theorem notebooks_keep_the_other_files {obj : Type} (H : Host obj) (s : Runtime) :
  (∀ path, path ∉ Echofish1.file_names → path ≠ temp_zarr →
     files (final (Echofish1.notebook H s)) !! path = files s !! path) ∧
  files (final (Echofish2.notebook H s)) = files s ∧
  files (final (Echofish3.notebook H s)) = files s ∧
  files (final (TCPrimed1a.notebook H s)) = files s.
Proof.
  split_and!.
  - intros path Hraw Hzarr. unfold Echofish1.notebook. rewrite final_bind.
    pose proof (keeps_until_download H s path Hraw) as Huntil.
    destruct (outcome (Echofish1.until_download H s)) as [[]|e]; [|done].
    by rewrite (keeps_after_download H _ path Hzarr).
  - apply keeps_all, keeps_Echofish2.
  - apply keeps_all, keeps_Echofish3.
  - apply keeps_all, keeps_TCPrimed1a.
Qed.

(** On the machine where Chapter 1 ran before, the file of the user is
    still there after another run. *)
Lemma notebooks_keep_the_other_files_witness :
  files (final (Echofish1.notebook Demo.host Elsewhere.used)) !! "notes.txt"
  = Some [Byte.x03].
Proof.
  etrans;
    [apply (proj1 (notebooks_keep_the_other_files Demo.host Elsewhere.used) "notes.txt");
     by_compute | reflexivity].
Defined.



(** ** Remote requests, in every run *)

Section Fetches_of_sequences.
Context {A B : Type}.

Lemma fetches_bind_l (m : Py A) (k : A → Py B) (s : Runtime) :
  trace_in (λ ev, is_fetch ev = false) m →
  fetches (trace ((m ≫= k) s)) =
  match outcome (m s) with
  | Ok a => fetches (trace (k a (final (m s))))
  | Raise _ => []
  end.
Proof.
  intros Hm. rewrite trace_bind.
  destruct (outcome (m s)) as [a|e]; [rewrite fetches_app|]; by rewrite (no_fetch _ (Hm s)).
Qed.

Lemma fetches_bind_r (m : Py A) (k : A → Py B) (s : Runtime) :
  (∀ a, trace_in (λ ev, is_fetch ev = false) (k a)) →
  fetches (trace ((m ≫= k) s)) = fetches (trace (m s)).
Proof.
  intros Hk. rewrite trace_bind. destruct (outcome (m s)) as [a|e]; [|done].
  by rewrite fetches_app, (no_fetch _ (Hk a _)), app_nil_r.
Qed.
End Fetches_of_sequences.

Ltac no_fetch_tac := trace_in_tac ltac:(by intros) ltac:(by simpl).

(** Walk down to the step that fetches: the steps before it fetch
    nothing, and a run that stops at one of them has fetched nothing. *)
Ltac until_fetch stopped :=
  repeat (rewrite fetches_bind_l by no_fetch_tac;
          let E := fresh "E" in
          destruct (outcome _) as [?|?] eqn:E; [|stopped];
          first [ cbv [outcome boto3_client s3fs_S3FileSystem s3fs_S3Map call snd] in E;
                  injection E as <-
                | clear E ]).

Section Download_order.
Context {obj : Type} (H : Host obj).

Lemma download_loop_fetches (xs : list string) (s : Runtime) :
  ∃ n,
    fetches (trace (for_each xs (λ file_name,
       download_file H {| signer := None |} Echofish1.bucket_name
         (Echofish1.key_of file_name) (basename file_name);;
       shows H ["print(os.path.basename(file_name))"]) s))
    = map (download_of H) (take n xs) ∧
    ∀ file_name, file_name ∈ take (pred n) xs →
      raised_by (download_of H file_name) = None.
Proof.
  revert s. induction xs as [|x xs IH]; intros s.
  { exists O. split; [done|]. by inversion 1. }
  cbn [for_each]. rewrite trace_bind.
  set (body := download_file H {| signer := None |} Echofish1.bucket_name
                 (Echofish1.key_of x) (basename x)
               ≫= λ _, shows H ["print(os.path.basename(file_name))"]).
  assert (fetches (trace (body s)) = [download_of H x]) as Hbody.
  { unfold body. rewrite fetches_bind_r by (intros _; no_fetch_tac).
    unfold download_file, download_of, trace. simpl.
    by destruct (s3_get_object H None _ _). }
  assert (∀ u, outcome (body s) = Ok u → raised_by (download_of H x) = None) as Hout.
  { intros u. unfold body. rewrite outcome_bind.
    unfold download_file at 1, download_of, outcome at 2. simpl.
    by destruct (s3_get_object H None _ _). }
  destruct (outcome (body s)) as [[]|e].
  - destruct (IH (final (body s))) as (n & Hn & Hok).
    exists (S n). rewrite fetches_app, Hbody, Hn. split; [done|].
    destruct n as [|n]; [by inversion 1|]. simpl.
    intros f [->|Hf]%elem_of_cons; [by apply (Hout tt) | by apply Hok].
  - exists 1%nat. rewrite Hbody. split; [done | by inversion 1].
Qed.
End Download_order.

(** X7.  In every run of Chapter 1, complete or not, the remote requests
    are downloads of the first files of [file_names], in the order of the
    list, each with the key and the local name of its file and the answer
    of the bucket; every download but the last one succeeded, so that
    nothing is requested after a download that failed. *)
Theorem downloads_stop_at_the_first_failure {obj : Type} (H : Host obj) (s : Runtime) :
  downloads_in_order H (fetches (trace (Echofish1.notebook H s))).
Proof.
  assert (downloads_in_order H []) as Hnone.
  { exists O. split; [done|]. by inversion 1. }
  unfold Echofish1.notebook. rewrite fetches_bind_r; last first.
  { intros _. unfold Echofish1.after_download, Echofish1.open_all, Echofish1.compute_Sv.
    no_fetch_tac. }
  unfold Echofish1.until_download, Echofish1.download, Echofish1.setup.
  until_fetch ltac:(exact Hnone).
  apply download_loop_fetches.
Qed.

(** X8.  In every run, complete or not, Chapters 2 and 3 and TC PRIMED 1a
    turn to at most one remote dataset, once: the level-2 Zarr store,
    opened through the anonymous s3fs file system, or the NetCDF file,
    fetched by one GET.  The boto3 client that Chapters 2 and 3 build is
    never used for a download. *)
Theorem at_most_one_dataset_is_opened {obj : Type} (H : Host obj) (s : Runtime) :
  (fetches (trace (Echofish2.notebook H s)) = [] ∨
   ∃ r, fetches (trace (Echofish2.notebook H s))
        = [EvOpenZarr None Echofish2.s3_zarr_store_path r]) ∧
  (fetches (trace (Echofish3.notebook H s)) = [] ∨
   ∃ r, fetches (trace (Echofish3.notebook H s))
        = [EvOpenZarr None Echofish3.s3_zarr_store_path r]) ∧
  (fetches (trace (TCPrimed1a.notebook H s)) = [] ∨
   ∃ r, fetches (trace (TCPrimed1a.notebook H s))
        = [EvHttpGet (TCPrimed1a.NODD_URL +:+ TCPrimed1a.FILE_NAME) r]).
Proof.
  split_and!.
  - unfold Echofish2.notebook, Echofish2.setup. until_fetch ltac:(by left).
    rewrite fetches_bind_r; last first.
    { intros cruise. unfold Echofish2.analysis, Echofish2.select_Sv_time, Echofish2.select_Sv.
      cbv zeta. no_fetch_tac. }
    unfold Echofish2.acquire. until_fetch ltac:(by left).
    rewrite fetches_bind_r by (intros ?; no_fetch_tac).
    right. by eexists.
  - unfold Echofish3.notebook, Echofish3.setup. until_fetch ltac:(by left).
    rewrite fetches_bind_r; last first.
    { intros cruise. unfold Echofish3.simplify_cell. no_fetch_tac. }
    unfold Echofish3.acquire. until_fetch ltac:(by left).
    rewrite fetches_bind_r by (intros ?; no_fetch_tac).
    right. by eexists.
  - unfold TCPrimed1a.notebook, TCPrimed1a.setup. until_fetch ltac:(by left).
    rewrite fetches_bind_r; last first.
    { intros DS. unfold TCPrimed1a.passive_microwave_group, TCPrimed1a.getitem.
      no_fetch_tac. }
    unfold TCPrimed1a.read_file_online. until_fetch ltac:(by left).
    rewrite fetches_bind_r by (intros ?; no_fetch_tac).
    right. by eexists.
Qed.

Lemma basename_from_slash (dir name acc : string) :
  basename_from acc (dir +:+ "/" +:+ name) = basename name.
Proof.
  revert acc. induction dir as [|c dir IH]; intros acc; [done|].
  simpl. destruct (Ascii.eqb c "/"); apply IH.
Qed.

(** X9.  The local name under which Chapter 1 saves a download is the
    last component of the key it downloads: for every file name,
    [os.path.basename] of the key is [os.path.basename] of the name. *)
Theorem raw_file_is_saved_under_its_own_name (file_name : string) :
  basename (Echofish1.key_of file_name) = basename file_name.
Proof.
  unfold Echofish1.key_of, basename.
  change (basename_from EmptyString
            (("data/raw/" +:+ Echofish1.ship_name +:+ "/" +:+ Echofish1.cruise_name +:+ "/"
              +:+ Echofish1.sensor_name) +:+ "/" +:+ file_name)
          = basename file_name).
  apply basename_from_slash.
Qed.

(** ** Chapter 2: more on the selected arrays *)

Section More_labels.
Import XArray.
Context `{EqDecision L}.

(** Aligning an index with one that has all its labels leaves it as it is. *)
Lemma align_index_subset (ia ib j : list L) :
  (∀ x, x ∈ ia → x ∈ ib) → align_index ia ib = Ok j → j = ia.
Proof.
  intros Hsub. unfold align_index. destruct (decide (ia = ib)); [by intros [= <-]|].
  destruct (_ && _); [|done]. intros [= <-].
  clear -Hsub. induction ia as [|x ia IH]; [done|].
  rewrite filter_cons_True by (apply Hsub; left).
  f_equal. apply IH. intros y Hy. apply Hsub. by right.
Qed.
End More_labels.

Section More_arrays.
Import XArray.

Lemma isel_mask_all_true {A} (m : list bool) (l : list A) :
  Forall (λ b, b = true) m → (length l ≤ length m)%nat → isel_mask m l = l.
Proof.
  intros Hm. revert l. induction Hm as [|b m -> _ IH]; intros [|x l] Hlen; simpl in *;
    [done | lia | done |].
  f_equal. apply IH. lia.
Qed.

Lemma reindex_like_same (a : DataArray) : reindex_like a (depth a) (time a) = values a.
Proof.
  unfold reindex_like, reindex. rewrite !decide_True by done.
  rewrite <- (map_id (values a)) at 2. apply map_ext. intros row.
  by rewrite decide_True.
Qed.

(** Selecting again, along depth, with a condition that holds at every
    depth of the array gives the array back. *)
Lemma where_drop_depth_again (a b : DataArray) (cond : Cond float) (p : float → bool) :
  c_values cond = map p (c_index cond) →
  well_shaped a →
  (∀ d, d ∈ depth a → d ∈ c_index cond ∧ p d = true) →
  where_drop_depth a cond = Ok b → b = a.
Proof.
  intros Hc [Hrows _] Hall. unfold where_drop_depth.
  destruct (align_index (depth a) (c_index cond)) as [ds|] eqn:Eds; [|done].
  apply align_index_subset in Eds as ->; [|intros d Hd; by apply Hall].
  simpl. intros [= <-].
  rewrite Hc, reindex_map by (intros d Hd; by apply Hall).
  rewrite reindex_like_same.
  assert (Forall (λ b, b = true) (map p (depth a))) as Htrue.
  { apply Forall_forall. intros b' (d & <- & Hd)%list_elem_of_In%in_map_iff.
    by apply Hall, list_elem_of_In. }
  rewrite !isel_mask_all_true; try done; rewrite ?length_map; try lia.
  destruct a as [dt f ds ts vals]. simpl in *. f_equal.
  clear -Hrows Htrue. revert vals Hrows.
  induction ds as [|d ds IH]; intros [|row vals] Hlen; simpl in *; try done.
  apply Forall_cons_1 in Htrue as [-> Htrue]. f_equal.
  - unfold where_value. by rewrite map_id.
  - apply IH; [done | lia].
Qed.

(** The labels that a selection along time and depth keeps depend on the
    labels of the array and on the condition only. *)
Lemma where_drop_2d_labels (a a' b b' : DataArray) (cond : Cond2) :
  depth a = depth a' → time a = time a' →
  where_drop_2d a cond = Ok b → where_drop_2d a' cond = Ok b' →
  depth b = depth b' ∧ time b = time b'.
Proof.
  unfold where_drop_2d. intros <- <-.
  destruct (align_index (depth a) _) as [ds|]; [|done].
  destruct (align_index (time a) _) as [ts|]; [|done].
  simpl. by intros [= <-] [= <-].
Qed.

Lemma sel_labels (cruise : Dataset) f a :
  sel cruise f = Ok a →
  f ∈ ds_frequency cruise ∧ depth a = ds_depth cruise ∧ time a = ds_time cruise ∧
  frequency a = Some f.
Proof. unfold sel. case_bool_decide; [|done]. by intros [= <-]. Qed.
End More_arrays.

Section Kept_values.
Import XArray.

Lemma nth_isel_mask_get_loc `{EqDecision L} {A} (q : L → bool) (x : L) (l : list L)
    (xs : list A) (dflt : A) :
  q x = true → x ∈ l →
  nth (get_loc x (List.filter q l)) (isel_mask (map q l) xs) dflt
  = nth (get_loc x l) xs dflt.
Proof.
  intros Hq. revert xs. induction l as [|y l IH]; intros xs Hx; [by inversion Hx|].
  destruct xs as [|a xs].
  { assert (∀ (n : nat), nth n (@nil A) dflt = dflt) as Hnil by (by intros []).
    assert (∀ m, isel_mask m (@nil A) = []) as Hmask by (by intros []).
    by rewrite Hmask, !Hnil. }
  simpl. destruct (decide (x = y)) as [<-|Hne].
  - rewrite Hq. simpl. by rewrite decide_True.
  - assert (x ∈ l) as Hl by (by apply elem_of_cons in Hx as [|]).
    destruct (q y); simpl.
    + rewrite decide_False by done. by apply IH.
    + by apply IH.
Qed.

Lemma nth_imap {A B} (f : nat → A → B) (l : list A) (i : nat) (dA : A) (dB : B) :
  (i < length l)%nat → nth i (imap f l) dB = f i (nth i l dA).
Proof.
  intros Hi. destruct (lookup_lt_is_Some_2 l i Hi) as [x Hx].
  rewrite (nth_lookup_Some _ _ _ (f i x)) by (by rewrite list_lookup_imap, Hx).
  by rewrite (nth_lookup_Some _ _ _ x Hx).
Qed.

Lemma length_isel_mask_filter {L A} (q : L → bool) (l : list L) (xs : list A) :
  length xs = length l → length (isel_mask (map q l) xs) = length (List.filter q l).
Proof.
  revert xs. induction l as [|y l IH]; intros [|a xs] Hlen; simpl in *; try done.
  destruct (q y); simpl; rewrite IH; try done; lia.
Qed.

(** The columns that hold at some depth, from the labels. *)
Lemma any_over_time_map {L T} (p : T → L → bool) (ds : list L) (ts : list T) :
  any_over_time (length ds) (map (λ t, map (p t) ds) ts)
  = map (λ d, existsb (λ t, p t d) ts) ds.
Proof.
  unfold any_over_time. apply list_eq. intros i.
  rewrite !list_lookup_fmap. destruct (ds !! i) as [d|] eqn:Ed; simpl.
  - rewrite (proj2 (lookup_seq 0 (length ds) i i)) by
      (split; [done | by apply lookup_lt_Some in Ed]).
    simpl. f_equal. induction ts as [|t ts IH]; [done|]. simpl.
    rewrite IH. f_equal.
    by rewrite (nth_lookup_Some _ _ _ (p t d)) by (by rewrite list_lookup_fmap, Ed).
  - apply lookup_ge_None in Ed. rewrite lookup_seq_ge; done.
Qed.

(** Selecting along time and depth keeps the values at the labels it
    keeps: after the drop, the condition holds at every pair of labels
    that is left, so that nothing is masked. *)
Lemma where_drop_2d_loc (a b : DataArray) (ct : Cond Z) (cd : Cond float)
    (pt : Z → bool) (pd : float → bool) d t :
  c_values ct = map pt (c_index ct) →
  c_values cd = map pd (c_index cd) →
  well_shaped a →
  where_drop_2d a (and_broadcast ct cd) = Ok b →
  d ∈ depth b → t ∈ time b →
  loc b d t = loc a d t.
Proof.
  intros Hct Hcd Ha. unfold where_drop_2d, and_broadcast. simpl.
  destruct (align_index (depth a) (c_index cd)) as [ds|] eqn:Eds; [|done].
  destruct (align_index (time a) (c_index ct)) as [ts|] eqn:Ets; [|done].
  simpl. intros [= <-]. unfold loc at 1. simpl.
  assert (Hds : ∀ x, x ∈ ds → x ∈ depth a ∧ x ∈ c_index cd)
    by (intros x; by apply align_index_elem_of).
  assert (Hts : ∀ x, x ∈ ts → x ∈ time a ∧ x ∈ c_index ct)
    by (intros x; by apply align_index_elem_of).
  rewrite Hct, Hcd, map_map.
  rewrite (reindex_map (λ t, map (andb (pt t)) (map pd (c_index cd))))
    by (intros x Hx; by apply Hts).
  rewrite map_map.
  erewrite (map_ext _ (λ t, map (λ d, pt t && pd d) ds)); last first.
  { intros t'. rewrite map_map.
    by rewrite (reindex_map (λ d, pt t' && pd d)) by (intros x Hx; by apply Hds). }
  rewrite (any_over_time_map (λ t d, pt t && pd d) ds ts).
  unfold any_over_depth. rewrite map_map.
  set (qt := λ t, existsb id (map (λ d, pt t && pd d) ds)).
  set (qd := λ d, existsb (λ t, pt t && pd d) ts).
  rewrite !isel_mask_map.
  intros [Hd Hqd]%list_elem_of_In%filter_In [Ht Hqt]%list_elem_of_In%filter_In.
  apply list_elem_of_In in Hd, Ht.
  assert (pd d = true ∧ pt t = true) as [Hpd Hpt].
  { unfold qd, qt in *. apply existsb_exists in Hqd as (t' & _ & Ht').
    apply existsb_exists in Hqt as (x & Hx & Hid).
    apply in_map_iff in Hx as (d' & <- & _). unfold id in Hid.
    apply andb_true_iff in Ht' as [_ ?], Hid as [? _]. done. }
  destruct (reindex_like_shaped a ds ts Ha) as [Hn Hrows]; [intros x Hx; by apply Hds|].
  set (vals := reindex_like a ds ts) in *.
  assert (d ∈ List.filter qd ds) as Hd' by (by apply list_elem_of_In, filter_In; split;
    [apply list_elem_of_In|]).
  assert (t ∈ List.filter qt ts) as Ht' by (by apply list_elem_of_In, filter_In; split;
    [apply list_elem_of_In|]).
  pose proof (get_loc_lt d _ Hd') as Hi. pose proof (get_loc_lt t _ Ht') as Hj.
  rewrite (nth_imap _ _ _ []); last first.
  { rewrite length_map, length_isel_mask_filter; done. }
  assert (nth (get_loc d (List.filter qd ds))
            (map (isel_mask (map qt ts)) (isel_mask (map qd ds) vals)) []
          = isel_mask (map qt ts) (nth (get_loc d ds) vals [])) as Hrow.
  { rewrite (nth_indep _ [] (isel_mask (map qt ts) []))
      by (rewrite length_map, length_isel_mask_filter; done).
    rewrite (map_nth (isel_mask (map qt ts))). f_equal.
    by apply nth_isel_mask_get_loc. }
  rewrite Hrow.
  assert (length (nth (get_loc d ds) vals []) = length ts) as Hlen.
  { rewrite Forall_forall in Hrows. apply Hrows, list_elem_of_In, nth_In.
    rewrite Hn. by apply get_loc_lt. }
  rewrite (nth_imap _ _ _ NaN) by (rewrite length_isel_mask_filter; done).
  rewrite (nth_isel_mask_get_loc qt t ts _ NaN Hqt Ht).
  subst vals. rewrite (reindex_like_loc a ds ts d t Hd Ht).
  assert (nth (get_loc d (List.filter qd ds))
            (nth (get_loc t (List.filter qt ts))
               (map (isel_mask (map qd ds))
                  (isel_mask (map qt ts) (map (λ t0, map (λ d0, pt t0 && pd d0) ds) ts)))
               []) false = true) as ->; [|done].
  rewrite (nth_indep _ [] (isel_mask (map qd ds) []))
    by (rewrite length_map, length_isel_mask_filter; [done | by rewrite length_map]).
  rewrite (map_nth (isel_mask (map qd ds))).
  rewrite (nth_isel_mask_get_loc qt t ts _ [] Hqt Ht).
  rewrite (nth_get_loc_map (λ t0, map (λ d0, pt t0 && pd d0) ds) t ts [] Ht).
  rewrite (nth_isel_mask_get_loc qd d ds _ false Hqd Hd).
  rewrite (nth_get_loc_map (λ d0, pt t && pd d0) d ds false Hd).
  by rewrite Hpt, Hpd.
Qed.

(** The same for a selection along time. *)
Lemma where_drop_time_loc (a b : DataArray) (cond : Cond Z) (p : Z → bool) d t :
  c_values cond = map p (c_index cond) →
  where_drop_time a cond = Ok b →
  d ∈ depth b → t ∈ time b →
  loc b d t = loc a d t.
Proof.
  intros Hc. unfold where_drop_time.
  destruct (align_index (time a) (c_index cond)) as [ts|] eqn:Ets; [|done].
  simpl. intros [= <-]. unfold loc at 1. simpl.
  assert (Hts : ∀ x, x ∈ ts → x ∈ time a ∧ x ∈ c_index cond)
    by (intros x; by apply align_index_elem_of).
  rewrite Hc, reindex_map by (intros x Hx; by apply Hts).
  rewrite (isel_mask_map p ts).
  intros Hd [Ht Hp]%list_elem_of_In%filter_In. apply list_elem_of_In in Ht.
  set (vals := reindex_like a (depth a) ts).
  set (c' := isel_mask (map p ts) (map p ts)).
  destruct (decide (get_loc d (depth a) < length vals)%nat) as [Hlt|Hge].
  - rewrite (nth_indep _ [] (zip_with where_value c' (isel_mask (map p ts) [])))
      by (by rewrite length_map).
    rewrite (map_nth (λ row, zip_with where_value c' (isel_mask (map p ts) row))).
    rewrite (nth_zip_with _ false NaN NaN) by (by intros []).
    unfold c'. rewrite !(nth_isel_mask_get_loc p t ts) by done.
    rewrite (nth_get_loc_map p t ts false Ht), Hp. simpl.
    by apply reindex_like_loc.
  - rewrite (nth_overflow (map _ vals)) by (rewrite length_map; lia).
    rewrite <- (reindex_like_loc a (depth a) ts d t Hd Ht). fold vals.
    rewrite (nth_overflow vals) by lia.
    by destruct (get_loc t (List.filter p ts)), (get_loc t ts).
Qed.
End Kept_values.

(** X10.  The analysis cells of Chapter 2 need the four frequencies they
    select: a run that ends well had 38, 18, 120 and 200 kHz among the
    frequencies of the cruise, and on a cruise without 38 kHz the first
    selection raises [KeyError] before anything else is called. *)
Theorem analysis_needs_the_four_frequencies {obj : Type} (H : Host obj)
    (cruise : XArray.Dataset) (s : Runtime) :
  (∀ t s' v, Echofish2.analysis H cruise s = (t, s', Ok v) →
     ∀ f, f ∈ [38000; 18000; 120000; 200000] → f ∈ XArray.ds_frequency cruise) ∧
  (38000 ∉ XArray.ds_frequency cruise →
   Echofish2.analysis H cruise s
   = ([EvCall "xarray.Dataset.sel" (Some KeyError)], s, Raise KeyError)).
Proof.
  split.
  - intros t s' v Hrun%analysis_ok.
    destruct Hrun as (_ & _ & (a38 & H38 & _) & _ & _ & (a18 & H18 & _)
                      & (a120 & H120 & _) & (a200 & H200 & _) & _).
    apply sel_labels in H38 as [? _], H18 as [? _], H120 as [? _], H200 as [? _].
    intros f Hf. repeat (apply elem_of_cons in Hf as [->|Hf]); try done. by inversion Hf.
  - intros Hno.
    assert (XArray.sel cruise 38000 = Raise KeyError) as Esel
      by (unfold XArray.sel; by rewrite bool_decide_false).
    unfold Echofish2.analysis, Echofish2.select_Sv_time.
    rewrite !bind_run. unfold call at 1. by rewrite Esel.
Qed.

(** The small cruise with and without its 38 kHz channel. *)
Lemma analysis_needs_the_four_frequencies_witness :
  (∃ t s' v, Echofish2.analysis Demo.host Demo.cruise Demo.bare = (t, s', Ok v) ∧
             38000 ∈ XArray.ds_frequency Demo.cruise) ∧
  outcome (Echofish2.analysis Demo.host Elsewhere.no_38_kHz Demo.bare) = Raise KeyError.
Proof.
  split.
  - eexists _, _, _.
    assert (Echofish2.analysis Demo.host Demo.cruise Demo.bare = (_, _, Ok _)) as Hrun
      by (vm_compute; reflexivity).
    split; [exact Hrun|].
    apply (proj1 (analysis_needs_the_four_frequencies Demo.host _ Demo.bare) _ _ _ Hrun).
    left.
  - rewrite (proj2 (analysis_needs_the_four_frequencies Demo.host _ Demo.bare)); [done|].
    by_compute.
Defined.

(** X11.  The difference [Sv_120 - Sv_38] has exactly the depth and the
    time labels of [Sv_120], in the same order: the 38 kHz array, selected
    along time only, has every label that the 120 kHz array has, so the
    alignment drops nothing of [Sv_120].  The difference carries no
    frequency, since its operands disagree on it. *)
Theorem difference_has_the_labels_of_Sv_120 {obj : Type} (H : Host obj)
    (cruise : XArray.Dataset) (s s' : Runtime) (t : list event) (v : Echofish2.Analysis) :
  Echofish2.analysis H cruise s = (t, s', Ok v) →
  XArray.depth (Echofish2.Sv_select_diff_0 v) = XArray.depth (Echofish2.Sv_120 v) ∧
  XArray.time (Echofish2.Sv_select_diff_0 v) = XArray.time (Echofish2.Sv_120 v) ∧
  XArray.frequency (Echofish2.Sv_select_diff_0 v) = None.
Proof.
  intros Hrun%analysis_ok.
  destruct Hrun as (_ & _ & (a38 & Hs38 & Hw38) & _ & _ & _ & (a120 & Hs120 & Hw120)
                    & _ & _ & Hsub & _).
  apply sel_labels in Hs38 as (_ & D38 & T38 & F38), Hs120 as (_ & D120 & T120 & F120).
  apply (where_drop_time_facts _ _ _ _ (select_times_values cruise)) in Hw38
    as (D38' & _ & F38' & _ & E38 & _).
  apply (where_drop_2d_facts _ _ _ _ _ _ (select_times_values cruise)
           (select_depths_values cruise)) in Hw120 as (_ & F120' & HT120 & HD120 & _).
  revert Hsub. unfold XArray.sub.
  destruct (XArray.align_index (XArray.depth _) _) as [ds|] eqn:Eds; [|done].
  destruct (XArray.align_index (XArray.time _) _) as [ts|] eqn:Ets; [|done].
  simpl. intros [= <-]. simpl.
  apply align_index_subset in Eds as ->, Ets as ->.
  - split_and!; [done..|]. rewrite F120', F38', F120, F38. by rewrite decide_False.
  - intros x Hx. rewrite E38 by (by rewrite T38). apply list_elem_of_In, filter_In.
    destruct (HT120 x Hx) as [Hin ?]. split; [|done]. apply list_elem_of_In. congruence.
  - intros x Hx. destruct (HD120 x Hx) as [Hin ?]. congruence.
Qed.

(** On the small cruise: two depths and three pings. *)
Lemma difference_has_the_labels_of_Sv_120_witness :
  ∃ t s' v,
    Echofish2.analysis Demo.host Demo.cruise Demo.bare = (t, s', Ok v) ∧
    XArray.depth (Echofish2.Sv_select_diff_0 v) = [Demo.f64 250; Demo.f64 499] ∧
    length (XArray.time (Echofish2.Sv_select_diff_0 v)) = 3%nat.
Proof.
  eexists _, _, _.
  assert (Echofish2.analysis Demo.host Demo.cruise Demo.bare = (_, _, Ok _)) as Hrun
    by (vm_compute; reflexivity).
  split; [exact Hrun|].
  destruct (difference_has_the_labels_of_Sv_120 Demo.host _ _ _ _ _ Hrun) as (-> & -> & _).
  clear. vm_compute. by split.
Defined.

(** X12.  The arrays selected with the same condition along time and
    depth, [Sv_18], [Sv_120] and [Sv_200], have the same depth labels and
    the same time labels. *)
Theorem selected_arrays_share_their_labels {obj : Type} (H : Host obj)
    (cruise : XArray.Dataset) (s s' : Runtime) (t : list event) (v : Echofish2.Analysis) :
  Echofish2.analysis H cruise s = (t, s', Ok v) →
  XArray.depth (Echofish2.Sv_18 v) = XArray.depth (Echofish2.Sv_120 v) ∧
  XArray.depth (Echofish2.Sv_200 v) = XArray.depth (Echofish2.Sv_120 v) ∧
  XArray.time (Echofish2.Sv_18 v) = XArray.time (Echofish2.Sv_120 v) ∧
  XArray.time (Echofish2.Sv_200 v) = XArray.time (Echofish2.Sv_120 v).
Proof.
  intros Hrun%analysis_ok.
  destruct Hrun as (_ & _ & _ & _ & _ & (a18 & Hs18 & Hw18) & (a120 & Hs120 & Hw120)
                    & (a200 & Hs200 & Hw200) & _).
  apply sel_labels in Hs18 as (_ & D18 & T18 & _), Hs120 as (_ & D120 & T120 & _),
    Hs200 as (_ & D200 & T200 & _).
  destruct (where_drop_2d_labels a18 a120 _ _ _ ltac:(congruence) ltac:(congruence) Hw18 Hw120).
  destruct (where_drop_2d_labels a200 a120 _ _ _ ltac:(congruence) ltac:(congruence)
              Hw200 Hw120).
  done.
Qed.

Lemma selected_arrays_share_their_labels_witness :
  ∃ t s' v,
    Echofish2.analysis Demo.host Demo.cruise Demo.bare = (t, s', Ok v) ∧
    XArray.depth (Echofish2.Sv_18 v) = [Demo.f64 250; Demo.f64 499] ∧
    XArray.depth (Echofish2.Sv_200 v) = [Demo.f64 250; Demo.f64 499].
Proof.
  eexists _, _, _.
  assert (Echofish2.analysis Demo.host Demo.cruise Demo.bare = (_, _, Ok _)) as Hrun
    by (vm_compute; reflexivity).
  split; [exact Hrun|].
  destruct (selected_arrays_share_their_labels Demo.host _ _ _ _ _ Hrun) as (-> & -> & _).
  clear. vm_compute. by split.
Defined.

(** X13.  The second selection of the 120 kHz array is idle:
    [Sv_120_subset = Sv_120.where(select_depths, drop=True)] is [Sv_120]
    itself, labels and values, since [Sv_120] was selected with
    [select_depths] already. *)
Theorem Sv_120_subset_is_Sv_120 {obj : Type} (H : Host obj)
    (cruise : XArray.Dataset) (s s' : Runtime) (t : list event) (v : Echofish2.Analysis) :
  XArray.ds_well_shaped cruise →
  Echofish2.analysis H cruise s = (t, s', Ok v) →
  Echofish2.Sv_120_subset v = Echofish2.Sv_120 v.
Proof.
  intros Hwf Hrun. destruct (operands_shaped H _ _ _ _ _ Hwf Hrun) as (W120 & _).
  apply analysis_ok in Hrun.
  destruct Hrun as (_ & _ & _ & _ & _ & _ & (a120 & Hs120 & Hw120) & _ & Hsubset & _).
  apply sel_labels in Hs120 as (_ & D120 & _).
  apply (where_drop_2d_facts _ _ _ _ _ _ (select_times_values cruise)
           (select_depths_values cruise)) in Hw120 as (_ & _ & _ & HD120 & _).
  apply (where_drop_depth_again _ _ _ _ (select_depths_values cruise) W120) in Hsubset;
    [done|].
  intros d Hd. destruct (HD120 d Hd) as [Hin ?]. split; [|done].
  simpl. congruence.
Qed.

Lemma Sv_120_subset_is_Sv_120_witness :
  ∃ t s' v,
    Echofish2.analysis Demo.host Demo.cruise Demo.bare = (t, s', Ok v) ∧
    Echofish2.Sv_120_subset v = Echofish2.Sv_120 v ∧
    Echofish2.Sv_38_subset v ≠ Echofish2.Sv_38 v.
Proof.
  eexists _, _, _.
  assert (Echofish2.analysis Demo.host Demo.cruise Demo.bare = (_, _, Ok _)) as Hrun
    by (vm_compute; reflexivity).
  split; [exact Hrun|]. split.
  - refine (Sv_120_subset_is_Sv_120 Demo.host _ _ _ _ _ _ Hrun).
    split; [reflexivity|]. repeat constructor.
  - clear. intros E. apply (f_equal (λ a, length (XArray.depth a))) in E.
    vm_compute in E. discriminate E.
Defined.

(** X14.  A selection changes no sample that it keeps: at every pair of
    labels of [Sv_18], [Sv_38], [Sv_120] and [Sv_200], the array holds the
    sample that the cruise has there at that frequency (after the drop the
    condition holds at every pair that is left, so nothing is masked), and
    the difference holds, at each of its labels, the float difference of
    the 120 kHz and the 38 kHz sample of the cruise. *)
Theorem selected_arrays_hold_the_samples_of_the_cruise {obj : Type} (H : Host obj)
    (cruise : XArray.Dataset) (s s' : Runtime) (tr : list event) (v : Echofish2.Analysis) :
  XArray.ds_well_shaped cruise →
  Echofish2.analysis H cruise s = (tr, s', Ok v) →
  ∃ a18 a38 a120 a200,
    XArray.sel cruise 18000 = Ok a18 ∧ XArray.sel cruise 38000 = Ok a38 ∧
    XArray.sel cruise 120000 = Ok a120 ∧ XArray.sel cruise 200000 = Ok a200 ∧
    (∀ selected a,
       (selected, a) ∈ [(Echofish2.Sv_18 v, a18); (Echofish2.Sv_38 v, a38);
                        (Echofish2.Sv_120 v, a120); (Echofish2.Sv_200 v, a200)] →
       ∀ d t, d ∈ XArray.depth selected → t ∈ XArray.time selected →
              XArray.loc selected d t = XArray.loc a d t) ∧
    (∀ d t, d ∈ XArray.depth (Echofish2.Sv_select_diff_0 v) →
            t ∈ XArray.time (Echofish2.Sv_select_diff_0 v) →
            XArray.loc (Echofish2.Sv_select_diff_0 v) d t
            = fsub (XArray.ds_dtype cruise) (XArray.loc a120 d t) (XArray.loc a38 d t)).
Proof.
  intros Hwf Hrun.
  destruct (operands_shaped H _ _ _ _ _ Hwf Hrun) as (_ & _ & T120 & T38 & _).
  apply analysis_ok in Hrun.
  destruct Hrun as (_ & _ & (a38 & Hs38 & Hw38) & _ & _ & (a18 & Hs18 & Hw18)
                    & (a120 & Hs120 & Hw120) & (a200 & Hs200 & Hw200) & _ & Hsub & _).
  exists a18, a38, a120, a200. split_and!; try done.
  - pose proof (select_times_values cruise) as Hct.
    pose proof (select_depths_values cruise) as Hcd.
    intros selected a Hin d t Hd Ht.
    repeat (apply elem_of_cons in Hin as [[= -> ->]|Hin]); [..|by inversion Hin].
    + by apply (where_drop_2d_loc _ _ _ _ _ _ _ _ Hct Hcd (proj1 (sel_shaped _ _ _ Hwf Hs18)) Hw18).
    + by apply (where_drop_time_loc _ _ _ _ _ _ Hct Hw38).
    + by apply (where_drop_2d_loc _ _ _ _ _ _ _ _ Hct Hcd (proj1 (sel_shaped _ _ _ Hwf Hs120)) Hw120).
    + by apply (where_drop_2d_loc _ _ _ _ _ _ _ _ Hct Hcd (proj1 (sel_shaped _ _ _ Hwf Hs200)) Hw200).
  - intros d t Hd Ht.
    assert (d ∈ XArray.depth (Echofish2.Sv_120 v) ∧ d ∈ XArray.depth (Echofish2.Sv_38 v) ∧
            t ∈ XArray.time (Echofish2.Sv_120 v) ∧ t ∈ XArray.time (Echofish2.Sv_38 v))
      as (Hd1 & Hd2 & Ht1 & Ht2).
    { revert Hsub Hd Ht. unfold XArray.sub.
      destruct (XArray.align_index (XArray.depth _) _) as [ds|] eqn:Eds; [|done].
      destruct (XArray.align_index (XArray.time _) _) as [ts|] eqn:Ets; [|done].
      simpl. intros [= <-]. simpl. intros Hd Ht.
      apply (align_index_elem_of _ _ _ _ Eds) in Hd as [? ?].
      apply (align_index_elem_of _ _ _ _ Ets) in Ht as [? ?]. done. }
    destruct (sub_loc _ _ _ d t Hsub Hd1 Hd2 Ht1 Ht2) as (_ & _ & ->).
    assert (XArray.da_dtype (Echofish2.Sv_select_diff_0 v) = XArray.ds_dtype cruise) as ->.
    { revert Hsub. unfold XArray.sub.
      destruct (XArray.align_index _ _); [|done]. destruct (XArray.align_index _ _); [|done].
      simpl. intros [= <-]. simpl. by rewrite T120, T38, result_type_same. }
    f_equal.
    + by apply (where_drop_2d_loc _ _ _ _ _ _ _ _ (select_times_values cruise)
                  (select_depths_values cruise) (proj1 (sel_shaped _ _ _ Hwf Hs120)) Hw120).
    + by apply (where_drop_time_loc _ _ _ _ _ _ (select_times_values cruise) Hw38).
Qed.

(** On the small cruise, at 250 m, one nanosecond into the window. *)
Lemma selected_arrays_hold_the_samples_of_the_cruise_witness :
  ∃ tr s' v a120,
    Echofish2.analysis Demo.host Demo.cruise Demo.bare = (tr, s', Ok v) ∧
    XArray.sel Demo.cruise 120000 = Ok a120 ∧
    XArray.loc (Echofish2.Sv_120 v) (Demo.f64 250) (Echofish2.start_time + 1)
    = XArray.loc a120 (Demo.f64 250) (Echofish2.start_time + 1) ∧
    XArray.loc a120 (Demo.f64 250) (Echofish2.start_time + 1) = Demo.f32 (-75).
Proof.
  assert (XArray.ds_well_shaped Demo.cruise) as Hwf.
  { split; [reflexivity|]. repeat constructor. }
  eexists _, _, _, _.
  assert (Echofish2.analysis Demo.host Demo.cruise Demo.bare = (_, _, Ok _)) as Hrun
    by (vm_compute; reflexivity).
  split; [exact Hrun|].
  assert (XArray.sel Demo.cruise 120000 = Ok _) as Hsel by (vm_compute; reflexivity).
  split; [exact Hsel|].
  destruct (selected_arrays_hold_the_samples_of_the_cruise Demo.host _ _ _ _ _ Hwf Hrun)
    as (a18 & a38 & a120 & a200 & _ & _ & Hs120 & _ & Hkept & _).
  rewrite Hsel in Hs120. injection Hs120 as <-. split.
  - apply (Hkept _ _ ltac:(right; right; left)); clear; by_compute.
  - clear. by vm_compute.
Defined.

(** ** Chapter 3: the track and its simplification *)

Section Chapter3.
Import XArray Echofish3.

Lemma map_filter_comm {A B} (g : A → B) (p : B → bool) (l : list A) :
  map g (List.filter (λ x, p (g x)) l) = List.filter p (map g l).
Proof.
  induction l as [|x l IH]; [done|]. simpl. destruct (p (g x)); simpl; by rewrite IH.
Qed.

Lemma map_zip_with_r {A B C} (f : A → B → C) (g : C → B) (xs : list A) (ys : list B) :
  (∀ x y, g (f x y) = y) → (length ys ≤ length xs)%nat →
  map g (zip_with f xs ys) = ys.
Proof.
  intros Hg. revert ys. induction xs as [|x xs IH]; intros [|y ys] Hlen; simpl in *;
    [done | lia | done |].
  rewrite Hg, IH; [done | lia].
Qed.

Lemma length_gps_df (cruise : Dataset) df :
  gps_df cruise = Ok df → length df = length (ds_time cruise).
Proof.
  unfold gps_df. case_bool_decide as Hlen; [|done]. intros [= <-].
  rewrite length_zip_with, length_zip. lia.
Qed.

(** The coordinates of the line string, from the arrays of the cruise. *)
Lemma linestring_positions (cruise : Dataset) df :
  gps_df cruise = Ok df →
  map (λ r, (latitude r, longitude r)) (gps_gdf df) = positions cruise.
Proof.
  unfold gps_df, gps_gdf, positions. case_bool_decide as Hlen; [|done]. intros [= <-].
  rewrite (map_filter_comm (λ r, (latitude r, longitude r))
             (λ p, notnull p.1 && notnull p.2)).
  f_equal. apply map_zip_with_r; [by intros t []|].
  rewrite length_zip. lia.
Qed.
End Chapter3.

Section Short_lines.
Import Shapely.
Variable distance : point → point → point → float.
Variable veto : list point → point → point → bool.
Variable line : list point.
Variable tolerance : float.
Variable preserve_topology : bool.

Local Abbreviation rdp := (rdp distance veto line tolerance preserve_topology).

(** A line of two points or more keeps two points or more. *)
Lemma rdp_two_points (pts : list point) :
  (2 ≤ length pts)%nat → (2 ≤ length (rdp pts))%nat.
Proof.
  induction pts as [pts IH] using (induction_ltof1 _ (@length point)).
  unfold ltof in IH.
  destruct pts as [|a [|p [|q rest]]]; simp rdp; cbn [length]; try lia.
  intros _. cbv zeta.
  set (b := List.last rest q). set (interior := removelast (p :: q :: rest)).
  set (kd := furthest distance a b interior 0 (O, minus_one)).
  destruct (flatten _ _ _ _ _ _ _); [cbn [length]; lia|].
  assert (length interior = S (length rest)) as Hlen.
  { pose proof (f_equal length (interior_and_end p q rest)) as Hl.
    rewrite length_app in Hl. fold interior in Hl.
    change (S (S (length rest)) = length interior + 1)%nat in Hl. lia. }
  assert (kd.1 < length interior)%nat as Hk.
  { apply (furthest_lt distance a b interior 0). simpl. lia. }
  rewrite length_app.
  assert (2 ≤ length (rdp (a :: take (S kd.1) interior)))%nat; [|lia].
  apply IH; cbn [length]; rewrite length_take; lia.
Qed.
End Short_lines.

(** X15.  The line string of Chapter 3 has one coordinate per ping with a
    position, the pair (latitude, longitude) of the ping, in the order of
    the pings; the data frame before it has one row per ping.  A cruise
    with exactly one position has no line string: the constructor
    raises. *)
Theorem linestring_coordinates (cruise : XArray.Dataset) (df : list Echofish3.gps_row) :
  Echofish3.gps_df cruise = Ok df →
  length df = length (XArray.ds_time cruise) ∧
  (length (positions cruise) ≠ 1%nat →
   Echofish3.LineString (Echofish3.gps_gdf df) = Ok (positions cruise)) ∧
  (length (positions cruise) = 1%nat →
   ∃ e, Echofish3.LineString (Echofish3.gps_gdf df) = Raise e).
Proof.
  intros Hdf. pose proof (linestring_positions cruise df Hdf) as Hpos.
  unfold Echofish3.LineString. rewrite Hpos. split_and!.
  - by apply length_gps_df.
  - intros Hn. by rewrite decide_False.
  - intros Hn. rewrite decide_True by done. by eexists.
Qed.

(** The small cruise has five pings, one of them without a latitude. *)
Lemma linestring_coordinates_witness :
  ∃ df, Echofish3.gps_df Demo.cruise = Ok df ∧
        length df = 5%nat ∧
        Echofish3.LineString (Echofish3.gps_gdf df)
        = Ok [(Demo.f64 45, Demo.f64 (-125)); (Demo.f64 45, Demo.f64 (-125));
              (Demo.f64 46, Demo.f64 (-124)); (Demo.f64 47, Demo.f64 (-123))].
Proof.
  eexists. assert (Echofish3.gps_df Demo.cruise = Ok _) as Hdf by (vm_compute; reflexivity).
  split; [exact Hdf|].
  destruct (linestring_coordinates Demo.cruise _ Hdf) as (Hlen & Hline & _).
  split; [exact Hlen|]. rewrite Hline; [reflexivity|]. by vm_compute.
Defined.

(** X16.  What a complete run of Chapter 3 returns, with [simplify] as
    modelled: the simplified line is a subsequence of the positions of the
    cruise that the store returned, starts and ends where they do, and has
    no more points than the cruise has pings. *)
Theorem simplified_track {obj : Type} (H : Host obj) (s s' : Runtime) (t : list event)
    (lineSimplified : list Shapely.point) :
  Echofish3.notebook H s = (t, s', Ok lineSimplified) →
  ∃ cruise,
    s3_zarr_store H None Echofish3.s3_zarr_store_path = Ok cruise ∧
    lineSimplified `sublist_of` positions cruise ∧
    head lineSimplified = head (positions cruise) ∧
    last lineSimplified = last (positions cruise) ∧
    (length lineSimplified ≤ length (XArray.ds_time cruise))%nat.
Proof.
  unfold Echofish3.notebook, Echofish3.acquire, Echofish3.simplify_cell. intros Hrun.
  run_ok Hrun.
  repeat match goal with
  | Hc : s3fs_S3FileSystem true _ = (_, _, Ok _) |- _ => injection Hc as _ _ <-
  | Hm : s3fs_S3Map _ _ _ = (_, _, Ok _) |- _ => injection Hm as _ _ <-
  | Hz : open_zarr _ _ _ = (_, _, Ok _) |- _ => unfold open_zarr in Hz; injection Hz as _ _ Hz
  | Hr : mret _ _ = (_, _, Ok _) |- _ => apply ret_ok in Hr as (-> & _ & _)
  | Hr : Ok _ = Ok _ |- _ => injection Hr as <-
  end.
  match goal with Hz : s3_zarr_store _ _ _ = Ok ?c |- _ => exists c; split; [exact Hz|] end.
  match goal with
  | Hdf : Echofish3.gps_df ?c = Ok ?df, Hl : Echofish3.LineString _ = Ok ?l |- _ =>
      pose proof (linestring_positions c df Hdf) as Hpos;
      pose proof (length_gps_df c df Hdf) as Hlen;
      unfold Echofish3.LineString in Hl; rewrite Hpos in Hl;
      destruct (decide _) in Hl; [discriminate Hl|]; injection Hl as <-
  end.
  unfold Echofish3.lineSimplified, Shapely.simplify.
  match goal with
  | |- context [Shapely.rdp ?d ?v ?l ?tol ?pt ?l] =>
      destruct (rdp_subsequence d v l tol pt l) as (Hsub & Hhead & Hlast)
  end.
  split_and!; [done..|].
  etrans; [by apply sublist_length|].
  rewrite <- Hlen, <- Hpos, length_map. apply List.filter_length_le.
Qed.

Lemma simplified_track_witness :
  ∃ t s' line,
    Echofish3.notebook Demo.host Elsewhere.notebook_server = (t, s', Ok line) ∧
    line `sublist_of` positions Demo.cruise ∧
    (length line ≤ 5)%nat.
Proof.
  eexists _, _, _.
  assert (Echofish3.notebook Demo.host Elsewhere.notebook_server = (_, _, Ok _)) as Hrun
    by (vm_compute; reflexivity).
  split; [exact Hrun|].
  destruct (simplified_track Demo.host _ _ _ _ Hrun) as (cruise & Hz & Hsub & _ & _ & Hlen).
  injection Hz as <-. by split.
Defined.

(** X17.  Simplification, as modelled, never loses the line: a line
    string of at most two points comes back as it is, and one of two points
    or more keeps at least two points. *)
Theorem simplify_keeps_a_line {obj : Type} (H : Host obj) (linestring : list Shapely.point) :
  ((length linestring ≤ 2)%nat → Echofish3.lineSimplified H linestring = linestring) ∧
  ((2 ≤ length linestring)%nat → (2 ≤ length (Echofish3.lineSimplified H linestring))%nat).
Proof.
  unfold Echofish3.lineSimplified, Shapely.simplify. split.
  - intros Hlen. destruct linestring as [|a [|b [|c rest]]]; simp rdp; try done.
    cbn [length] in Hlen. lia.
  - apply rdp_two_points.
Qed.

(** The four positions of the small cruise: two of them at least are
    kept. *)
Lemma simplify_keeps_a_line_witness :
  (2 ≤ length (Echofish3.lineSimplified Demo.host (positions Demo.cruise)))%nat.
Proof.
  apply (proj2 (simplify_keeps_a_line Demo.host (positions Demo.cruise))).
  vm_compute. lia.
Defined.

(** ** TC PRIMED 1a: the dataset and the packages *)

Lemma caught_dec (ev : event) : caught ev ∨ ¬ caught ev.
Proof.
  destruct ev as [package [[]|]| | | | | | | | | |];
    try (right; intros [p E]; discriminate E).
  left. by exists package.
Qed.

Section Closing.
Context {A B : Type}.

(** A run that ended well raised nothing that was not caught. *)
Lemma ok_returned_or_caught (m : Py A) (s : Runtime) a :
  propagates_uncaught m → outcome (m s) = Ok a →
  Forall returned_or_caught (trace (m s)).
Proof.
  intros Hm Hok. apply Forall_forall. intros ev Hin. unfold returned_or_caught.
  destruct (raised_by ev) as [e|] eqn:Er; [|by left].
  destruct (caught_dec ev) as [|Hnot]; [by right|].
  specialize (Hm s ev e Hin Er Hnot). congruence.
Qed.

Lemma closes_last_bind (m : Py A) (k : A → Py B) :
  propagates_uncaught m → trace_in (λ ev, ¬ is_close ev) m →
  (∀ a, closes_last (k a)) → closes_last (m ≫= k).
Proof.
  intros Hp Hm Hk s. rewrite trace_bind, outcome_bind.
  destruct (outcome (m s)) as [a|e] eqn:Eo.
  - destruct (Hk a (final (m s))) as [[Hno Hraise]|(before & Ht & Hbefore)].
    + left. split; [|done]. apply Forall_app. split; [apply Hm | done].
    + right. exists (trace (m s) ++ before). rewrite Ht, app_assoc. split; [done|].
      apply Forall_app. split; [|done].
      pose proof (ok_returned_or_caught m s a Hp Eo) as Hret.
      pose proof (Hm s) as Hnc. revert Hret Hnc. rewrite !Forall_forall.
      intros Hret Hnc ev Hin. split; [by apply Hnc | by apply Hret].
  - left. split; [apply Hm | by exists e].
Qed.
End Closing.

Lemma closes_last_close (r : result unit) : closes_last (call "netCDF4.Dataset.close" r).
Proof. intros s. right. exists []. by split. Qed.

(** No event of a step other than the last is [DS.close()]. *)
Ltac not_close :=
  trace_in_tac
    ltac:(idtac; intros; intros [? E]; discriminate E)
    ltac:(idtac; intros [? E];
          first [ discriminate E
                | injection E as -> _;
                  match goal with
                  | Hin : _ ∈ _ |- _ =>
                      revert Hin; apply (bool_decide_unpack _); vm_compute; exact I
                  end ]).

(** X18.  TC PRIMED 1a closes its dataset only at the very end: in every
    run, either some call raised and [DS.close()] was never called, or
    [DS.close()] is the last call, every call before it returned (an
    [ImportError] caught by the set-up loop apart), and the run ends as
    that call does.  A run that fails after the dataset was opened leaves
    it open. *)
Theorem the_dataset_is_closed_last {obj : Type} (H : Host obj) :
  closes_last (TCPrimed1a.notebook H).
Proof.
  unfold TCPrimed1a.notebook, TCPrimed1a.setup, TCPrimed1a.read_file_online,
    TCPrimed1a.passive_microwave_group, TCPrimed1a.getitem.
  repeat (apply closes_last_bind; [propagates_tac | not_close | intros ?]).
  apply closes_last_close.
Qed.

(** X19.  TC PRIMED 1a imports [requests] without setting it up: its
    set-up loop lists netCDF4 and numpy only.  When the set-up cell and the
    two imports after it ended well and [requests] does not import, the
    notebook raises at [import requests], before anything is fetched, and
    nothing it ran had installed [requests]. *)
Theorem requests_is_imported_but_never_installed {obj : Type} (H : Host obj)
    (s s1 : Runtime) (t1 : list event) (e : exn) :
  (TCPrimed1a.setup H;; import_ H "netCDF4";; import_ H "numpy") s = (t1, s1, Ok tt) →
  import_module H (site_packages s1) "requests" = Some e →
  TCPrimed1a.notebook H s = (t1 ++ [EvImport "requests" (Some e)], s1, Raise e) ∧
  Package "requests" ∉ written t1.
Proof.
  intros Hrun Himport. split.
  - apply bind_ok in Hrun as (ta & sa & [] & tb & Ha & Hrun & ->).
    apply bind_ok in Hrun as (tc & sc & [] & td & Hb & Hc & ->).
    unfold TCPrimed1a.notebook, TCPrimed1a.read_file_online.
    rewrite bind_run, Ha, bind_run, Hb, bind_run, Hc, !bind_run.
    unfold import_ at 1. simpl. rewrite Himport. simpl. by rewrite <- !app_assoc.
  - assert (trace_in (λ ev, Package "requests" ∉ writes ev)
              (TCPrimed1a.setup H;; import_ H "netCDF4";; import_ H "numpy")) as Hw.
    { unfold TCPrimed1a.setup.
      trace_in_tac
        ltac:(idtac; intros ? ? Hin; simpl;
              first [ by inversion 1
                    | repeat (apply elem_of_cons in Hin as [->|Hin]);
                      [by_compute.. | by inversion Hin] ])
        ltac:(idtac; simpl; by inversion 1). }
    specialize (Hw s). rewrite Hrun in Hw. unfold trace in Hw. simpl in Hw.
    unfold written. intros Hin. apply list_elem_of_In, in_concat in Hin as (l & Hl & Hin).
    apply in_map_iff in Hl as (ev & <- & Hev).
    rewrite Forall_forall in Hw. apply (Hw ev); by apply list_elem_of_In.
Qed.

(** On a fresh machine the set-up cell installs netCDF4 and numpy, and
    the notebook stops at [import requests]. *)
Lemma requests_is_imported_but_never_installed_witness :
  outcome (TCPrimed1a.notebook Demo.host Demo.bare) = Raise ImportError ∧
  site_packages (final (TCPrimed1a.notebook Demo.host Demo.bare)) = {[ "netCDF4"; "numpy" ]}.
Proof.
  assert ((TCPrimed1a.setup Demo.host;; import_ Demo.host "netCDF4";;
           import_ Demo.host "numpy") Demo.bare = (_, _, Ok tt)) as Hrun
    by (vm_compute; reflexivity).
  destruct (requests_is_imported_but_never_installed Demo.host _ _ _ ImportError Hrun)
    as [-> _]; [by vm_compute|].
  split; [reflexivity|]. by vm_compute.
Defined.
